(** * Animal Management front end: the REST client and the facility store

    A shallow embedding of
      - [src/services/api.ts]            (the REST client, [fetchAPI]),
      - [src/types]                       (the entity records),
      - [src/context/FacilityContext.tsx] (the facility store),
      - [src/components/BreedingManagement.tsx] (the [stats] aggregate),
    followed by the properties of the store and of the client.

    Conventions.  A TypeScript interface is a record kept in a module of
    its own, so that fields keep their source names ([Animal.id],
    [HealthRecord.animalId], ...).  An optional field [f?: T] is an
    [option T].  A JavaScript [number] held in a field is carried as a
    rational: no modelled function computes with those fields.  An
    [async] function is a computation in the monad [M] below, whose
    result is the settled promise. *)

From Stdlib Require Import String List ZArith QArith Bool Lia DecimalString.
Import ListNotations.
Local Close Scope Q_scope.
Local Open Scope string_scope.
Local Open Scope list_scope.

Set Implicit Arguments.
Set Warnings "-register-all".

(* ================================================================== *)
(** ** Entity types ([src/types]) *)
(* ================================================================== *)

Definition number : Type := Q.

Inductive Gender : Type := Male | Female | Unknown.

Module AnimalStatus.
Inductive t : Type := Healthy | UnderCare | Quarantine | Breeding | Inactive.
End AnimalStatus.

Module Animal.
Record t : Type := Build {
    id : string;
    name : string;
    species : string;
    breed : string;
    age : number;
    gender : Gender;
    weightKg : option number;
    status : AnimalStatus.t;
    notes : option string
  }.
End Animal.

Module HealthRecordType.
Inductive t : Type := Vaccination | Treatment | Checkup | Medication | Surgery.
End HealthRecordType.

Module HealthRecordStatus.
Inductive t : Type := Scheduled | Ongoing | Completed.
End HealthRecordStatus.

Module HealthRecord.
Record t : Type := Build {
    id : string;
    animalId : string;
    recordType : HealthRecordType.t;
    description : string;
    date : string;
    veterinarian : string;
    status : HealthRecordStatus.t;
    nextDueDate : option string;
    notes : option string
  }.
End HealthRecord.

Module FeedingStatus.
Inductive t : Type := Pending | Completed | Missed.
End FeedingStatus.

Module Frequency.
Inductive t : Type := Daily | TwiceDaily | Weekly | Custom.
End Frequency.

Module FeedingTask.
Record t : Type := Build {
    id : string;
    animalId : string;
    animalName : string;
    foodType : string;
    quantity : string;
    time : string;
    frequency : Frequency.t;
    status : FeedingStatus.t;
    startDate : string
  }.
End FeedingTask.

Module BreedingStatus.
Inductive t : Type := Pregnant | Delivered | Unsuccessful.

Definition eqb (a b : t) : bool :=
    match a, b with
    | Pregnant, Pregnant | Delivered, Delivered | Unsuccessful, Unsuccessful => true
    | _, _ => false
    end.
End BreedingStatus.

Module BreedingRecord.
Record t : Type := Build {
    id : string;
    motherId : string;
    fatherId : string;
    matingDate : string;
    dueDate : string;
    expectedLitter : option string;
    actualLitter : option string;
    status : BreedingStatus.t;
    notes : option string
  }.
End BreedingRecord.

Module Category.
Inductive t : Type := Food | Medicine | Equipment | Supplies.
End Category.

Module StockStatus.
Inductive t : Type := InStock | LowStock | OutOfStock.
End StockStatus.

Module InventoryItem.
Record t : Type := Build {
    id : string;
    name : string;
    category : Category.t;
    quantity : number;
    unit : string;
    reorderLevel : number;
    costPerUnit : number;
    status : StockStatus.t
  }.
End InventoryItem.

Module StaffStatus.
Inductive t : Type := Active | OnLeave | Inactive.
End StaffStatus.

Module Role.
Inductive t : Type := Veterinarian | Caretaker | Manager | Assistant | Support.
End Role.

Module StaffMember.
Record t : Type := Build {
    id : string;
    name : string;
    role : Role.t;
    email : string;
    phone : string;
    status : StaffStatus.t;
    joined : string;
    notes : option string
  }.
End StaffMember.

(** [FacilitySettings['notificationPreferences']]: five boolean flags.
    [key] is [keyof] that object type. *)
Module NotificationPreferences.
Record t : Type := Build {
    lowStockAlerts : bool;
    healthReminders : bool;
    breedingAlerts : bool;
    feedingReminders : bool;
    emailSummary : bool
  }.

Inductive key : Type :=
  | LowStockAlerts | HealthReminders | BreedingAlerts | FeedingReminders | EmailSummary.

Definition get (k : key) (p : t) : bool :=
    match k with
    | LowStockAlerts => lowStockAlerts p
    | HealthReminders => healthReminders p
    | BreedingAlerts => breedingAlerts p
    | FeedingReminders => feedingReminders p
    | EmailSummary => emailSummary p
    end.

  (** [p[k] = v] as a value: the object [p] after the assignment. *)
Definition set (k : key) (v : bool) (p : t) : t :=
    match k with
    | LowStockAlerts => Build v (healthReminders p) (breedingAlerts p) (feedingReminders p) (emailSummary p)
    | HealthReminders => Build (lowStockAlerts p) v (breedingAlerts p) (feedingReminders p) (emailSummary p)
    | BreedingAlerts => Build (lowStockAlerts p) (healthReminders p) v (feedingReminders p) (emailSummary p)
    | FeedingReminders => Build (lowStockAlerts p) (healthReminders p) (breedingAlerts p) v (emailSummary p)
    | EmailSummary => Build (lowStockAlerts p) (healthReminders p) (breedingAlerts p) (feedingReminders p) v
    end.

Definition key_eqb (a b : key) : bool :=
    match a, b with
    | LowStockAlerts, LowStockAlerts | HealthReminders, HealthReminders
    | BreedingAlerts, BreedingAlerts | FeedingReminders, FeedingReminders
    | EmailSummary, EmailSummary => true
    | _, _ => false
    end.
End NotificationPreferences.

(** [FacilitySettings], parametric in what sits in the
    [notificationPreferences] field: the nested object itself (type
    [NotificationPreferences.t]) for a settings value as it travels in a
    JSON body, or a reference to it (type [loc], below) for the object
    graph held in memory by the store. *)
Module FacilitySettings.
Record t (P : Type) : Type := Build {
    facilityName : string;
    registrationNumber : string;
    address : string;
    phone : string;
    email : string;
    operatingHours : string;
    notificationPreferences : P;
    lastBackup : string
  }.

Definition with_preferences {P R : Type} (r : R) (s : t P) : t R :=
    Build (facilityName s) (registrationNumber s) (address s) (phone s)
          (email s) (operatingHours s) r (lastBackup s).
End FacilitySettings.

Module ReportFilters.
Inductive timeRange_t : Type := Daily | Weekly | Monthly | Yearly.
Inductive reportType_t : Type := All | Animals | Health | Inventory | Breeding | Financial.
Record t : Type := Build { timeRange : timeRange_t; reportType : reportType_t }.
End ReportFilters.

(* ================================================================== *)
(** ** Payload types of the store ([FacilityContext.tsx], lines 22-38)

    [CreateXInput = Omit<X, 'id'>] (for inventory [Omit<X, 'id' | 'status'>])
    and [UpdateXInput = Partial<Omit<X, 'id'>>]: every field optional. *)
(* ================================================================== *)

Module CreateAnimalInput.
Record t : Type := Build {
  name : string; species : string; breed : string; age : number;
  gender : Gender; weightKg : option number; status : AnimalStatus.t;
  notes : option string
}.
End CreateAnimalInput.

Module UpdateAnimalInput.
Record t : Type := Build {
  name : option string; species : option string; breed : option string;
  age : option number; gender : option Gender; weightKg : option number;
  status : option AnimalStatus.t; notes : option string
}.
End UpdateAnimalInput.

Module CreateHealthRecordInput.
Record t : Type := Build {
  animalId : string; recordType : HealthRecordType.t; description : string;
  date : string; veterinarian : string; status : HealthRecordStatus.t;
  nextDueDate : option string; notes : option string
}.
End CreateHealthRecordInput.

Module UpdateHealthRecordInput.
Record t : Type := Build {
  animalId : option string; recordType : option HealthRecordType.t;
  description : option string; date : option string;
  veterinarian : option string; status : option HealthRecordStatus.t;
  nextDueDate : option string; notes : option string
}.
End UpdateHealthRecordInput.

Module CreateFeedingTaskInput.
Record t : Type := Build {
  animalId : string; animalName : string; foodType : string;
  quantity : string; time : string; frequency : Frequency.t;
  status : FeedingStatus.t; startDate : string
}.
End CreateFeedingTaskInput.

Module UpdateFeedingTaskInput.
Record t : Type := Build {
  animalId : option string; animalName : option string;
  foodType : option string; quantity : option string; time : option string;
  frequency : option Frequency.t; status : option FeedingStatus.t;
  startDate : option string
}.
End UpdateFeedingTaskInput.

Module CreateBreedingRecordInput.
Record t : Type := Build {
  motherId : string; fatherId : string; matingDate : string;
  dueDate : string; expectedLitter : option string;
  actualLitter : option string; status : BreedingStatus.t;
  notes : option string
}.
End CreateBreedingRecordInput.

Module UpdateBreedingRecordInput.
Record t : Type := Build {
  motherId : option string; fatherId : option string;
  matingDate : option string; dueDate : option string;
  expectedLitter : option string; actualLitter : option string;
  status : option BreedingStatus.t; notes : option string
}.
End UpdateBreedingRecordInput.

Module CreateInventoryItemInput.
Record t : Type := Build {
  name : string; category : Category.t; quantity : number; unit : string;
  reorderLevel : number; costPerUnit : number
}.
End CreateInventoryItemInput.

Module UpdateInventoryItemInput.
Record t : Type := Build {
  name : option string; category : option Category.t;
  quantity : option number; unit : option string;
  reorderLevel : option number; costPerUnit : option number;
  status : option StockStatus.t
}.
End UpdateInventoryItemInput.

Module CreateStaffMemberInput.
Record t : Type := Build {
  name : string; role : Role.t; email : string; phone : string;
  status : StaffStatus.t; joined : string; notes : option string
}.
End CreateStaffMemberInput.

Module UpdateStaffMemberInput.
Record t : Type := Build {
  name : option string; role : option Role.t; email : option string;
  phone : option string; status : option StaffStatus.t;
  joined : option string; notes : option string
}.
End UpdateStaffMemberInput.

(** [Partial<FacilitySettings>] as a JSON value: the nested preferences
    object, when given, is given whole. *)
Module PartialSettings.
Record t : Type := Build {
  facilityName : option string; registrationNumber : option string;
  address : option string; phone : option string; email : option string;
  operatingHours : option string;
  notificationPreferences : option NotificationPreferences.t;
  lastBackup : option string
}.

(** A whole settings object used where a [Partial<FacilitySettings>] is
    expected: every field is present. *)
Definition whole (s : FacilitySettings.t NotificationPreferences.t) : t :=
  Build (Some (FacilitySettings.facilityName s))
        (Some (FacilitySettings.registrationNumber s))
        (Some (FacilitySettings.address s))
        (Some (FacilitySettings.phone s))
        (Some (FacilitySettings.email s))
        (Some (FacilitySettings.operatingHours s))
        (Some (FacilitySettings.notificationPreferences s))
        (Some (FacilitySettings.lastBackup s)).
End PartialSettings.

(** The six entity collections, and the types attached to each. *)
Inductive Collection : Type :=
| Animals | HealthRecords | FeedingTasks | BreedingRecords | Inventory | Staff.

Definition Entity (c : Collection) : Type :=
  match c with
  | Animals => Animal.t
  | HealthRecords => HealthRecord.t
  | FeedingTasks => FeedingTask.t
  | BreedingRecords => BreedingRecord.t
  | Inventory => InventoryItem.t
  | Staff => StaffMember.t
  end.

Definition CreateInput (c : Collection) : Type :=
  match c with
  | Animals => CreateAnimalInput.t
  | HealthRecords => CreateHealthRecordInput.t
  | FeedingTasks => CreateFeedingTaskInput.t
  | BreedingRecords => CreateBreedingRecordInput.t
  | Inventory => CreateInventoryItemInput.t
  | Staff => CreateStaffMemberInput.t
  end.

Definition UpdateInput (c : Collection) : Type :=
  match c with
  | Animals => UpdateAnimalInput.t
  | HealthRecords => UpdateHealthRecordInput.t
  | FeedingTasks => UpdateFeedingTaskInput.t
  | BreedingRecords => UpdateBreedingRecordInput.t
  | Inventory => UpdateInventoryItemInput.t
  | Staff => UpdateStaffMemberInput.t
  end.

(** The [id] field of an entity of collection [c]. *)
Definition entity_id (c : Collection) : Entity c -> string :=
  match c with
  | Animals => Animal.id
  | HealthRecords => HealthRecord.id
  | FeedingTasks => FeedingTask.id
  | BreedingRecords => BreedingRecord.id
  | Inventory => InventoryItem.id
  | Staff => StaffMember.id
  end.

Definition Collection_eqb (a b : Collection) : bool :=
  match a, b with
  | Animals, Animals | HealthRecords, HealthRecords
  | FeedingTasks, FeedingTasks | BreedingRecords, BreedingRecords
  | Inventory, Inventory | Staff, Staff => true
  | _, _ => false
  end.

(* ================================================================== *)
(** ** The REST client ([src/services/api.ts]) *)
(* ================================================================== *)

(** A JavaScript [Error] object: its [name] and its [message]. *)
Record Error : Type := { name : string; message : string }.

(** [new Error(msg)]. *)
Definition new_Error (msg : string) : Error :=
  {| name := "Error"; message := msg |}.

(** A settled promise: fulfilled with a value, or rejected with an error.
    [await p] yields the value or throws the error. *)
Inductive Promise (A : Type) : Type :=
| Resolved (value : A)
| Rejected (reason : Error).
Arguments Resolved {A} value.
Arguments Rejected {A} reason.

(** A parsed JSON body.  A number of a JSON text is parsed to a double;
    every double a JSON text can denote is a rational, and it is carried
    as that rational (there is no NaN and no infinity in JSON). *)
Inductive JSON : Type :=
| JNull
| JBool (b : bool)
| JNumber (x : Q)
| JString (s : string)
| JArray (items : list JSON)
| JObject (members : list (string * JSON)).

(** Decimal rendering of an integer, digit by digit.  It is what a
    template literal prints for an integer below 10^21, so for
    [response.status], which the Fetch standard makes an unsigned
    16-bit integer. *)
Definition decimal (z : Z) : string := NilZero.string_of_int (Z.to_int z).

(** Own property lookup in a parsed object. *)
Fixpoint lookup_member (key : string) (members : list (string * JSON)) : option JSON :=
  match members with
  | [] => None
  | (k, v) :: rest => if String.eqb k key then Some v else lookup_member key rest
  end.

(** The expression [error.error], for [error] a parsed JSON body.
    Reading a property of [null] throws a [TypeError]; a boolean, a
    number, a string or an array has no property of that name, so the
    read yields [undefined] ([None]). *)
Definition null_read_message : string :=
  "Cannot read properties of null (reading 'error')".

Definition error_property (error : JSON) : Promise (option JSON) :=
  match error with
  | JNull => Rejected {| name := "TypeError"; message := null_read_message |}
  | JObject members => Resolved (lookup_member "error" members)
  | JBool _ | JNumber _ | JString _ | JArray _ => Resolved None
  end.

(** JavaScript truthiness of a property value ([None] is [undefined]). *)
Definition truthy (v : option JSON) : bool :=
  match v with
  | None => false
  | Some JNull => false
  | Some (JBool b) => b
  | Some (JNumber x) => negb (Qeq_bool x 0)
  | Some (JString s) => negb (String.eqb s EmptyString)
  | Some (JArray _) | Some (JObject _) => true
  end.

Section NumberPrinting.

(** [Number::toString] of the language: the shortest digits that read
    back as the same double, in exponent form from 1e21 on and below
    1e-6.  It belongs to the runtime, not to this program, and is taken
    as it is. *)
Variable Number_toString : Q -> string.

(** [String(v)]: the message [new Error(v)] gets.  An array prints its
    elements separated by commas, [null] elements as nothing. *)
Fixpoint ToString (v : JSON) : string :=
  match v with
  | JNull => "null"
  | JBool true => "true"
  | JBool false => "false"
  | JNumber x => Number_toString x
  | JString s => s
  | JArray items =>
      (fix join (l : list JSON) : string :=
         match l with
         | [] => EmptyString
         | [x] => match x with JNull => EmptyString | _ => ToString x end
         | x :: rest =>
             ((match x with JNull => EmptyString | _ => ToString x end)
                ++ "," ++ join rest)%string
         end) items
  | JObject _ => "[object Object]"
  end.

Definition ToString_property (field : option JSON) : string :=
  match field with
  | Some v => ToString v
  | None => "undefined"
  end.

(** What [fetch] hands back: the status line and the outcome of
    [response.json()] (rejected when the body is not JSON). *)
Record Response : Type := {
  status : Z;
  json : Promise JSON
}.

(** [response.ok]: the status is in the range 200-299. *)
Definition ok (response : Response) : bool :=
  ((200 <=? status response) && (status response <=? 299))%Z.

(** [fetchAPI] (lines 3-18), as a function of how [fetch] settled. *)
Definition fetchAPI (fetched : Promise Response) : Promise JSON :=
  match fetched with
  | Rejected e => Rejected e
  | Resolved response =>
      if negb (ok response) then
        let error :=
          match json response with
          | Resolved body => body
          | Rejected _ => JObject [("error", JString "Network error")]
          end in
        match error_property error with
        | Rejected e => Rejected e
        | Resolved field =>
            Rejected (new_Error
              (if truthy field then ToString_property field
               else ("HTTP error! status: " ++ decimal (status response))%string))
        end
      else json response
  end.

End NumberPrinting.

(** The calls offered by the seven API objects, indexed by the type the
    caller reads the parsed body at ([fetchAPI<T>]). *)
Record Message : Type := { message_text : string }.

Definition SettingsValue : Type := FacilitySettings.t NotificationPreferences.t.

Inductive apiE : Type -> Type :=
| getAll (c : Collection) : apiE (list (Entity c))
| getById (c : Collection) (id : string) : apiE (Entity c)
| create (c : Collection) (data : CreateInput c) : apiE (Entity c)
| update (c : Collection) (id : string) (data : UpdateInput c) : apiE (Entity c)
| delete (c : Collection) (id : string) : apiE Message
| settings_get : apiE SettingsValue
| settings_update (data : PartialSettings.t) : apiE SettingsValue.

Definition API_BASE_URL : string := "http://localhost:5000/api".

Definition collection_path (c : Collection) : string :=
  match c with
  | Animals => "/animals"
  | HealthRecords => "/health-records"
  | FeedingTasks => "/feeding-tasks"
  | BreedingRecords => "/breeding-records"
  | Inventory => "/inventory"
  | Staff => "/staff"
  end.

Definition endpoint {X : Type} (call : apiE X) : string :=
  match call with
  | getAll c => collection_path c
  | getById c id => (collection_path c ++ "/" ++ id)%string
  | create c _ => collection_path c
  | update c id _ => (collection_path c ++ "/" ++ id)%string
  | delete c id => (collection_path c ++ "/" ++ id)%string
  | settings_get => "/settings"
  | settings_update _ => "/settings"
  end.

Definition method {X : Type} (call : apiE X) : string :=
  match call with
  | getAll _ | getById _ _ | settings_get => "GET"
  | create _ _ => "POST"
  | update _ _ _ | settings_update _ => "PUT"
  | delete _ _ => "DELETE"
  end.

(** A call together with its answer type, for the log of calls issued. *)
Inductive Call : Type := call_of (X : Type) (c : apiE X).
Arguments call_of {X} c.

(** How the backend answers: each call settles as a promise of its
    answer type. *)
Definition Backend : Type := forall X : Type, apiE X -> Promise X.

(* ================================================================== *)
(** ** The facility store ([src/context/FacilityContext.tsx]) *)
(* ================================================================== *)

(** *** Memory

    The settings state is an object whose [notificationPreferences]
    field refers to a second object.  A spread copy [{ ...settings }]
    copies the reference, not the object it refers to, so the nested
    object is kept in a heap and the settings record holds its address. *)

Definition loc : Type := nat.

Record Heap : Type := {
  cells : loc -> NotificationPreferences.t;
  next : loc
}.

Definition read (h : Heap) (l : loc) : NotificationPreferences.t := cells h l.

Definition write (l : loc) (p : NotificationPreferences.t) (h : Heap) : Heap :=
  {| cells := fun l' => if Nat.eqb l' l then p else cells h l';
     next := next h |}.

Definition alloc (p : NotificationPreferences.t) (h : Heap) : loc * Heap :=
  (next h, {| cells := fun l' => if Nat.eqb l' (next h) then p else cells h l';
              next := S (next h) |}).

(** *** State: one field per [useState] hook of [FacilityProvider]. *)

Record Store : Type := {
  animals : list Animal.t;
  healthRecords : list HealthRecord.t;
  feedingTasks : list FeedingTask.t;
  breedingRecords : list BreedingRecord.t;
  inventory : list InventoryItem.t;
  staff : list StaffMember.t;
  settings : FacilitySettings.t loc;
  reportFilters : ReportFilters.t;
  loading : bool;
  heap : Heap
}.

(** The settings as a consumer reads them: the record with the nested
    object it points to. *)
Definition settings_value (s : Store) : SettingsValue :=
  FacilitySettings.with_preferences
    (read (heap s) (FacilitySettings.notificationPreferences (settings s)))
    (settings s).

Definition defaultPreferences : NotificationPreferences.t :=
  {| NotificationPreferences.lowStockAlerts := true;
     NotificationPreferences.healthReminders := true;
     NotificationPreferences.breedingAlerts := true;
     NotificationPreferences.feedingReminders := true;
     NotificationPreferences.emailSummary := false |}.

(** The built-in default of the settings hook (lines 93-108);
    [now_iso] is [new Date().toISOString()] at the first render. *)
Definition defaultSettings {P : Type} (prefs : P) (now_iso : string) : FacilitySettings.t P :=
  {| FacilitySettings.facilityName := "Green Valley Animal Care Center";
     FacilitySettings.registrationNumber := "FAC-2023-001";
     FacilitySettings.address := "123 Animal Care Lane, Green Valley, CA 90210";
     FacilitySettings.phone := "(555) 123-4567";
     FacilitySettings.email := "contact@greenvalley.com";
     FacilitySettings.operatingHours := "Monday - Saturday: 8:00 AM - 6:00 PM";
     FacilitySettings.notificationPreferences := prefs;
     FacilitySettings.lastBackup := now_iso |}.

Definition initialReportFilters : ReportFilters.t :=
  {| ReportFilters.timeRange := ReportFilters.Monthly;
     ReportFilters.reportType := ReportFilters.All |}.

(** The state at mount: empty collections, default settings, loading. *)
Definition initialStore (now_iso : string) : Store :=
  {| animals := []; healthRecords := []; feedingTasks := [];
     breedingRecords := []; inventory := []; staff := [];
     settings := defaultSettings 0%nat now_iso;
     reportFilters := initialReportFilters;
     loading := true;
     heap := {| cells := fun _ => defaultPreferences; next := 1%nat |} |}.

(** *** The world an operation runs in: the store, the calls sent to
    the backend so far, and what went to [console.error]. *)

Record World : Type := {
  store : Store;
  sent : list Call;
  console : list (string * Error)
}.

(** *** Asynchronous computations

    An [async] function body: it runs against a backend, changes the
    world and settles. *)

Definition M (A : Type) : Type := Backend -> World -> World * Promise A.

Definition ret {A : Type} (a : A) : M A := fun _ w => (w, Resolved a).

Definition throw {A : Type} (e : Error) : M A := fun _ w => (w, Rejected e).

Definition bind {A B : Type} (m : M A) (k : A -> M B) : M B :=
  fun backend w =>
    match m backend w with
    | (w', Resolved a) => k a backend w'
    | (w', Rejected e) => (w', Rejected e)
    end.

Declare Scope async_scope.
Delimit Scope async_scope with async.
Notation "x <- m ;; k" := (bind m (fun x => k))
  (at level 61, m at next level, right associativity) : async_scope.
Notation "m ;; k" := (bind m (fun _ => k))
  (at level 61, right associativity) : async_scope.
Local Open Scope async_scope.

(** [try { body } catch (error) { handler }]. *)
Definition try_catch {A : Type} (body : M A) (handler : Error -> M A) : M A :=
  fun backend w =>
    match body backend w with
    | (w', Resolved a) => (w', Resolved a)
    | (w', Rejected e) => handler e backend w'
    end.

(** [try { body } catch (error) { handler } finally { final }]. *)
Definition try_catch_finally {A : Type}
    (body : M A) (handler : Error -> M A) (final : M unit) : M A :=
  fun backend w =>
    match try_catch body handler backend w with
    | (w', outcome) =>
        match final backend w' with
        | (w'', Resolved _) => (w'', outcome)
        | (w'', Rejected e) => (w'', Rejected e)
        end
    end.

(** Issuing an API call: the request goes out, and a promise comes
    back, represented by the way the backend will settle it. *)
Definition issue {X : Type} (c : apiE X) : M (Promise X) :=
  fun backend w =>
    ({| store := store w; sent := sent w ++ [call_of c]; console := console w |},
     Resolved (backend X c)).

(** [await p]. *)
Definition await {X : Type} (p : Promise X) : M X :=
  match p with
  | Resolved v => ret v
  | Rejected e => throw e
  end.

(** [p.catch(() => fallback)]. *)
Definition catch {X : Type} (p : Promise X) (fallback : X) : Promise X :=
  match p with
  | Resolved v => Resolved v
  | Rejected _ => Resolved fallback
  end.

Definition fmap_promise {X Y : Type} (f : X -> Y) (p : Promise X) : Promise Y :=
  match p with
  | Resolved v => Resolved (f v)
  | Rejected e => Rejected e
  end.

(** [console.error(label, error)]. *)
Definition console_error (label : string) (error : Error) : M unit :=
  fun _ w =>
    ({| store := store w; sent := sent w; console := console w ++ [(label, error)] |},
     Resolved tt).

Definition modify (f : Store -> Store) : M unit :=
  fun _ w =>
    ({| store := f (store w); sent := sent w; console := console w |}, Resolved tt).

Definition gets {A : Type} (f : Store -> A) : M A :=
  fun _ w => (w, Resolved (f (store w))).

(** *** Field updates of the store record *)

Definition with_animals (v : list Animal.t) (s : Store) : Store :=
  {| animals := v; healthRecords := healthRecords s;
     feedingTasks := feedingTasks s; breedingRecords := breedingRecords s;
     inventory := inventory s; staff := staff s; settings := settings s;
     reportFilters := reportFilters s; loading := loading s;
     heap := heap s |}.

Definition with_healthRecords (v : list HealthRecord.t) (s : Store) : Store :=
  {| animals := animals s; healthRecords := v;
     feedingTasks := feedingTasks s; breedingRecords := breedingRecords s;
     inventory := inventory s; staff := staff s; settings := settings s;
     reportFilters := reportFilters s; loading := loading s;
     heap := heap s |}.

Definition with_feedingTasks (v : list FeedingTask.t) (s : Store) : Store :=
  {| animals := animals s; healthRecords := healthRecords s;
     feedingTasks := v; breedingRecords := breedingRecords s;
     inventory := inventory s; staff := staff s; settings := settings s;
     reportFilters := reportFilters s; loading := loading s;
     heap := heap s |}.

Definition with_breedingRecords (v : list BreedingRecord.t) (s : Store) : Store :=
  {| animals := animals s; healthRecords := healthRecords s;
     feedingTasks := feedingTasks s; breedingRecords := v;
     inventory := inventory s; staff := staff s; settings := settings s;
     reportFilters := reportFilters s; loading := loading s;
     heap := heap s |}.

Definition with_inventory (v : list InventoryItem.t) (s : Store) : Store :=
  {| animals := animals s; healthRecords := healthRecords s;
     feedingTasks := feedingTasks s; breedingRecords := breedingRecords s;
     inventory := v; staff := staff s; settings := settings s;
     reportFilters := reportFilters s; loading := loading s;
     heap := heap s |}.

Definition with_staff (v : list StaffMember.t) (s : Store) : Store :=
  {| animals := animals s; healthRecords := healthRecords s;
     feedingTasks := feedingTasks s; breedingRecords := breedingRecords s;
     inventory := inventory s; staff := v; settings := settings s;
     reportFilters := reportFilters s; loading := loading s;
     heap := heap s |}.

Definition with_settings (v : FacilitySettings.t loc) (s : Store) : Store :=
  {| animals := animals s; healthRecords := healthRecords s;
     feedingTasks := feedingTasks s; breedingRecords := breedingRecords s;
     inventory := inventory s; staff := staff s; settings := v;
     reportFilters := reportFilters s; loading := loading s;
     heap := heap s |}.

Definition with_reportFilters (v : ReportFilters.t) (s : Store) : Store :=
  {| animals := animals s; healthRecords := healthRecords s;
     feedingTasks := feedingTasks s; breedingRecords := breedingRecords s;
     inventory := inventory s; staff := staff s; settings := settings s;
     reportFilters := v; loading := loading s; heap := heap s |}.

Definition with_loading (v : bool) (s : Store) : Store :=
  {| animals := animals s; healthRecords := healthRecords s;
     feedingTasks := feedingTasks s; breedingRecords := breedingRecords s;
     inventory := inventory s; staff := staff s; settings := settings s;
     reportFilters := reportFilters s; loading := v; heap := heap s |}.

Definition with_heap (v : Heap) (s : Store) : Store :=
  {| animals := animals s; healthRecords := healthRecords s;
     feedingTasks := feedingTasks s; breedingRecords := breedingRecords s;
     inventory := inventory s; staff := staff s; settings := settings s;
     reportFilters := reportFilters s; loading := loading s; heap := v |}.

(** *** State setters

    A setter called with a function applies it to the state current at
    that moment ([setAnimals((prev) => ...)]); called with a value it
    replaces the state. *)

Definition setAnimals (f : list Animal.t -> list Animal.t) : M unit :=
  modify (fun s => with_animals (f (animals s)) s).

Definition setHealthRecords (f : list HealthRecord.t -> list HealthRecord.t) : M unit :=
  modify (fun s => with_healthRecords (f (healthRecords s)) s).

Definition setFeedingTasks (f : list FeedingTask.t -> list FeedingTask.t) : M unit :=
  modify (fun s => with_feedingTasks (f (feedingTasks s)) s).

Definition setBreedingRecords (f : list BreedingRecord.t -> list BreedingRecord.t) : M unit :=
  modify (fun s => with_breedingRecords (f (breedingRecords s)) s).

Definition setInventory (f : list InventoryItem.t -> list InventoryItem.t) : M unit :=
  modify (fun s => with_inventory (f (inventory s)) s).

Definition setStaff (f : list StaffMember.t -> list StaffMember.t) : M unit :=
  modify (fun s => with_staff (f (staff s)) s).

Definition setSettings (v : FacilitySettings.t loc) : M unit :=
  modify (with_settings v).

Definition setReportFilters (payload : ReportFilters.t) : M unit :=
  modify (with_reportFilters payload).

Definition setLoading (v : bool) : M unit :=
  modify (with_loading v).

(** The object graph [response.json()] builds for a settings body: a
    fresh nested object, and the record that refers to it. *)
Definition settings_object (v : SettingsValue) : M (FacilitySettings.t loc) :=
  fun _ w =>
    let (l, h) := alloc (FacilitySettings.notificationPreferences v) (heap (store w)) in
    ({| store := with_heap h (store w); sent := sent w; console := console w |},
     Resolved (FacilitySettings.with_preferences l v)).

(** [obj.notificationPreferences[key] = value]: an assignment into the
    nested object [obj] refers to. *)
Definition assign_preference (obj : FacilitySettings.t loc)
    (key : NotificationPreferences.key) (value : bool) : M unit :=
  modify (fun s =>
    let l := FacilitySettings.notificationPreferences obj in
    with_heap (write l (NotificationPreferences.set key value (read (heap s) l)) (heap s)) s).

(** [JSON.stringify(obj)] for a settings object: the body sent. *)
Definition stringify (obj : FacilitySettings.t loc) : M PartialSettings.t :=
  gets (fun s =>
    PartialSettings.whole
      (FacilitySettings.with_preferences
         (read (heap s) (FacilitySettings.notificationPreferences obj)) obj)).

(** *** [loadData] (lines 113-144): the effect run on mount

    The seven calls are issued before any is awaited ([Promise.all]);
    each carries its own [.catch], so the joint await cannot throw.  A
    settings body is a settings object, so [if (settingsData)] tests
    that the settings call did not fall back to [null]. *)

Definition loadData : M unit :=
  try_catch_finally
    (setLoading true ;;
     animalsCall <- issue (getAll Animals) ;;
     healthCall <- issue (getAll HealthRecords) ;;
     feedingCall <- issue (getAll FeedingTasks) ;;
     breedingCall <- issue (getAll BreedingRecords) ;;
     inventoryCall <- issue (getAll Inventory) ;;
     staffCall <- issue (getAll Staff) ;;
     settingsCall <- issue settings_get ;;
     animalsData <- await (catch animalsCall []) ;;
     healthData <- await (catch healthCall []) ;;
     feedingData <- await (catch feedingCall []) ;;
     breedingData <- await (catch breedingCall []) ;;
     inventoryData <- await (catch inventoryCall []) ;;
     staffData <- await (catch staffCall []) ;;
     settingsData <- await (catch (fmap_promise Some settingsCall) None) ;;
     setAnimals (fun _ => animalsData) ;;
     setHealthRecords (fun _ => healthData) ;;
     setFeedingTasks (fun _ => feedingData) ;;
     setBreedingRecords (fun _ => breedingData) ;;
     setInventory (fun _ => inventoryData) ;;
     setStaff (fun _ => staffData) ;;
     match settingsData with
     | Some body => obj <- settings_object body ;; setSettings obj
     | None => ret tt
     end)
    (fun error => console_error "Error loading data:" error)
    (setLoading false).

(** *** Animals (lines 146-177) *)

Definition addAnimal (payload : CreateAnimalInput.t) : M unit :=
  try_catch
    (response <- issue (create Animals payload) ;;
     newAnimal <- await response ;;
     setAnimals (fun prev => prev ++ [newAnimal]))
    (fun error => console_error "Error adding animal:" error ;; throw error).

Definition updateAnimal (id : string) (payload : UpdateAnimalInput.t) : M unit :=
  try_catch
    (response <- issue (update Animals id payload) ;;
     updated <- await response ;;
     setAnimals (fun prev =>
       map (fun animal => if String.eqb (Animal.id animal) id then updated else animal) prev))
    (fun error => console_error "Error updating animal:" error ;; throw error).

Definition deleteAnimal (id : string) : M unit :=
  try_catch
    (response <- issue (delete Animals id) ;;
     await response ;;
     setAnimals (fun prev =>
       filter (fun animal => negb (String.eqb (Animal.id animal) id)) prev) ;;
     setHealthRecords (fun prev =>
       filter (fun record => negb (String.eqb (HealthRecord.animalId record) id)) prev) ;;
     setFeedingTasks (fun prev =>
       filter (fun task => negb (String.eqb (FeedingTask.animalId task) id)) prev) ;;
     setBreedingRecords (fun prev =>
       filter (fun record =>
                 negb (String.eqb (BreedingRecord.motherId record) id)
                 && negb (String.eqb (BreedingRecord.fatherId record) id)) prev))
    (fun error => console_error "Error deleting animal:" error ;; throw error).

(** *** Health records (lines 179-207) *)

Definition addHealthRecord (payload : CreateHealthRecordInput.t) : M unit :=
  try_catch
    (response <- issue (create HealthRecords payload) ;;
     newRecord <- await response ;;
     setHealthRecords (fun prev => prev ++ [newRecord]))
    (fun error => console_error "Error adding health record:" error ;; throw error).

Definition updateHealthRecord (id : string) (payload : UpdateHealthRecordInput.t) : M unit :=
  try_catch
    (response <- issue (update HealthRecords id payload) ;;
     updated <- await response ;;
     setHealthRecords (fun prev =>
       map (fun record => if String.eqb (HealthRecord.id record) id then updated else record) prev))
    (fun error => console_error "Error updating health record:" error ;; throw error).

Definition deleteHealthRecord (id : string) : M unit :=
  try_catch
    (response <- issue (delete HealthRecords id) ;;
     await response ;;
     setHealthRecords (fun prev =>
       filter (fun record => negb (String.eqb (HealthRecord.id record) id)) prev))
    (fun error => console_error "Error deleting health record:" error ;; throw error).

(** *** Feeding tasks (lines 209-237) *)

Definition addFeedingTask (payload : CreateFeedingTaskInput.t) : M unit :=
  try_catch
    (response <- issue (create FeedingTasks payload) ;;
     newTask <- await response ;;
     setFeedingTasks (fun prev => prev ++ [newTask]))
    (fun error => console_error "Error adding feeding task:" error ;; throw error).

Definition updateFeedingTask (id : string) (payload : UpdateFeedingTaskInput.t) : M unit :=
  try_catch
    (response <- issue (update FeedingTasks id payload) ;;
     updated <- await response ;;
     setFeedingTasks (fun prev =>
       map (fun task => if String.eqb (FeedingTask.id task) id then updated else task) prev))
    (fun error => console_error "Error updating feeding task:" error ;; throw error).

Definition deleteFeedingTask (id : string) : M unit :=
  try_catch
    (response <- issue (delete FeedingTasks id) ;;
     await response ;;
     setFeedingTasks (fun prev =>
       filter (fun task => negb (String.eqb (FeedingTask.id task) id)) prev))
    (fun error => console_error "Error deleting feeding task:" error ;; throw error).

(** *** Breeding records (lines 239-267) *)

Definition addBreedingRecord (payload : CreateBreedingRecordInput.t) : M unit :=
  try_catch
    (response <- issue (create BreedingRecords payload) ;;
     newRecord <- await response ;;
     setBreedingRecords (fun prev => prev ++ [newRecord]))
    (fun error => console_error "Error adding breeding record:" error ;; throw error).

Definition updateBreedingRecord (id : string) (payload : UpdateBreedingRecordInput.t) : M unit :=
  try_catch
    (response <- issue (update BreedingRecords id payload) ;;
     updated <- await response ;;
     setBreedingRecords (fun prev =>
       map (fun record => if String.eqb (BreedingRecord.id record) id then updated else record) prev))
    (fun error => console_error "Error updating breeding record:" error ;; throw error).

Definition deleteBreedingRecord (id : string) : M unit :=
  try_catch
    (response <- issue (delete BreedingRecords id) ;;
     await response ;;
     setBreedingRecords (fun prev =>
       filter (fun record => negb (String.eqb (BreedingRecord.id record) id)) prev))
    (fun error => console_error "Error deleting breeding record:" error ;; throw error).

(** *** Inventory (lines 269-297) *)

Definition addInventoryItem (payload : CreateInventoryItemInput.t) : M unit :=
  try_catch
    (response <- issue (create Inventory payload) ;;
     newItem <- await response ;;
     setInventory (fun prev => prev ++ [newItem]))
    (fun error => console_error "Error adding inventory item:" error ;; throw error).

Definition updateInventoryItem (id : string) (payload : UpdateInventoryItemInput.t) : M unit :=
  try_catch
    (response <- issue (update Inventory id payload) ;;
     updated <- await response ;;
     setInventory (fun prev =>
       map (fun item => if String.eqb (InventoryItem.id item) id then updated else item) prev))
    (fun error => console_error "Error updating inventory item:" error ;; throw error).

Definition deleteInventoryItem (id : string) : M unit :=
  try_catch
    (response <- issue (delete Inventory id) ;;
     await response ;;
     setInventory (fun prev =>
       filter (fun item => negb (String.eqb (InventoryItem.id item) id)) prev))
    (fun error => console_error "Error deleting inventory item:" error ;; throw error).

(** *** Staff (lines 299-327) *)

Definition addStaffMember (payload : CreateStaffMemberInput.t) : M unit :=
  try_catch
    (response <- issue (create Staff payload) ;;
     newMember <- await response ;;
     setStaff (fun prev => prev ++ [newMember]))
    (fun error => console_error "Error adding staff member:" error ;; throw error).

Definition updateStaffMember (id : string) (payload : UpdateStaffMemberInput.t) : M unit :=
  try_catch
    (response <- issue (update Staff id payload) ;;
     updated <- await response ;;
     setStaff (fun prev =>
       map (fun member => if String.eqb (StaffMember.id member) id then updated else member) prev))
    (fun error => console_error "Error updating staff member:" error ;; throw error).

Definition deleteStaffMember (id : string) : M unit :=
  try_catch
    (response <- issue (delete Staff id) ;;
     await response ;;
     setStaff (fun prev =>
       filter (fun member => negb (String.eqb (StaffMember.id member) id)) prev))
    (fun error => console_error "Error deleting staff member:" error ;; throw error).

(** *** Settings (lines 329-349) *)

Definition updateSettings (payload : PartialSettings.t) : M unit :=
  try_catch
    (response <- issue (settings_update payload) ;;
     body <- await response ;;
     updated <- settings_object body ;;
     setSettings updated)
    (fun error => console_error "Error updating settings:" error ;; throw error).

(** [settings] is the settings state the callback closes over.
    [{ ...settings }] builds a new top-level record with the same field
    values, so [currentSettings.notificationPreferences] is the very
    reference the state holds; the assignment on line 342 goes through
    it, before the call is awaited. *)
Definition updateNotificationPreference
    (key : NotificationPreferences.key) (value : bool) : M unit :=
  try_catch
    (currentSettings <- gets settings ;;
     assign_preference currentSettings key value ;;
     body <- stringify currentSettings ;;
     response <- issue (settings_update body) ;;
     answer <- await response ;;
     updated <- settings_object answer ;;
     setSettings updated)
    (fun error =>
       console_error "Error updating notification preference:" error ;; throw error).

(** *** The operations by collection

    The store repeats add, update and delete for each collection; the
    functions below select the source function for a collection, so
    that a property can be stated once for all six. *)

Definition items (c : Collection) : Store -> list (Entity c) :=
  match c with
  | Animals => animals
  | HealthRecords => healthRecords
  | FeedingTasks => feedingTasks
  | BreedingRecords => breedingRecords
  | Inventory => inventory
  | Staff => staff
  end.

Definition with_items (c : Collection) : list (Entity c) -> Store -> Store :=
  match c with
  | Animals => with_animals
  | HealthRecords => with_healthRecords
  | FeedingTasks => with_feedingTasks
  | BreedingRecords => with_breedingRecords
  | Inventory => with_inventory
  | Staff => with_staff
  end.

Definition add (c : Collection) : CreateInput c -> M unit :=
  match c with
  | Animals => addAnimal
  | HealthRecords => addHealthRecord
  | FeedingTasks => addFeedingTask
  | BreedingRecords => addBreedingRecord
  | Inventory => addInventoryItem
  | Staff => addStaffMember
  end.

Definition update_by_id (c : Collection) : string -> UpdateInput c -> M unit :=
  match c with
  | Animals => updateAnimal
  | HealthRecords => updateHealthRecord
  | FeedingTasks => updateFeedingTask
  | BreedingRecords => updateBreedingRecord
  | Inventory => updateInventoryItem
  | Staff => updateStaffMember
  end.

Definition delete_by_id (c : Collection) : string -> M unit :=
  match c with
  | Animals => deleteAnimal
  | HealthRecords => deleteHealthRecord
  | FeedingTasks => deleteFeedingTask
  | BreedingRecords => deleteBreedingRecord
  | Inventory => deleteInventoryItem
  | Staff => deleteStaffMember
  end.

(** The mutating operations of [FacilityContextValue]. *)
Inductive Op : Type :=
| Add (c : Collection) (payload : CreateInput c)
| Update (c : Collection) (id : string) (payload : UpdateInput c)
| Delete (c : Collection) (id : string)
| UpdateSettings (payload : PartialSettings.t)
| UpdateNotificationPreference (key : NotificationPreferences.key) (value : bool).

Definition run_op (op : Op) : M unit :=
  match op with
  | Add c payload => add c payload
  | Update c id payload => update_by_id c id payload
  | Delete c id => delete_by_id c id
  | UpdateSettings payload => updateSettings payload
  | UpdateNotificationPreference key value => updateNotificationPreference key value
  end.

(** The REST call an operation makes when started in store [s]. *)
Definition request_of (op : Op) (s : Store) : Call :=
  match op with
  | Add c payload => call_of (create c payload)
  | Update c id payload => call_of (update c id payload)
  | Delete c id => call_of (delete c id)
  | UpdateSettings payload => call_of (settings_update payload)
  | UpdateNotificationPreference key value =>
      call_of (settings_update
        (PartialSettings.whole
           (FacilitySettings.with_preferences
              (NotificationPreferences.set key value
                 (FacilitySettings.notificationPreferences (settings_value s)))
              (settings_value s))))
  end.

Definition rejects (backend : Backend) (k : Call) (e : Error) : Prop :=
  match k with
  | call_of c => backend _ c = Rejected e
  end.

(** A user session: operations run one after the other, each against
    the backend as it answers at that moment.  An operation that
    rejects leaves its error with the caller and the session goes on. *)
Fixpoint run_session (session : list (Op * Backend)) (w : World) : World :=
  match session with
  | [] => w
  | (op, backend) :: rest => run_session rest (fst (run_op op backend w))
  end.

(** The entities of collection [c] that operation [op] replaces where
    they stand: those an update addresses by id. *)
Definition replaces (op : Op) (c : Collection) : Entity c -> bool :=
  match op with
  | Update c' id _ =>
      fun x => Collection_eqb c' c && String.eqb (entity_id c x) id
  | Add _ _ | Delete _ _ | UpdateSettings _ | UpdateNotificationPreference _ _ =>
      fun _ => false
  end.

(** The entities of collection [c] that operation [op] removes: those
    a delete addresses by id, and for the deletion of an animal the
    records that refer to it. *)
Definition removes (op : Op) (c : Collection) : Entity c -> bool :=
  match op with
  | Add _ _ | Update _ _ _ | UpdateSettings _ | UpdateNotificationPreference _ _ =>
      fun _ => false
  | Delete c' id =>
      match c' with
      | Animals =>
          match c return Entity c -> bool with
          | Animals => fun x => String.eqb (Animal.id x) id
          | HealthRecords => fun x => String.eqb (HealthRecord.animalId x) id
          | FeedingTasks => fun x => String.eqb (FeedingTask.animalId x) id
          | BreedingRecords => fun x =>
              String.eqb (BreedingRecord.motherId x) id
              || String.eqb (BreedingRecord.fatherId x) id
          | Inventory | Staff => fun _ => false
          end
      | _ => fun x => Collection_eqb c' c && String.eqb (entity_id c x) id
      end
  end.

(** The entities of collection [c] that operation [op] replaces or
    removes. *)
Definition touches (op : Op) (c : Collection) (x : Entity c) : bool :=
  replaces op c x || removes op c x.

(** The collections the deletion of an animal cascades to. *)
Definition cascades (c : Collection) : bool :=
  match c with
  | HealthRecords | FeedingTasks | BreedingRecords => true
  | Animals | Inventory | Staff => false
  end.

(** Whether [op] is a delete that filters collection [c], and how many
    entries [op] can append to [c]: one for an add on [c], none
    otherwise. *)
Definition reaches (op : Op) (c : Collection) : bool :=
  match op with
  | Delete c' _ => Collection_eqb c' c || (Collection_eqb c' Animals && cascades c)
  | _ => false
  end.

Definition appends (op : Op) (c : Collection) : nat :=
  match op with
  | Add c' _ => if Collection_eqb c' c then 1%nat else 0%nat
  | _ => 0%nat
  end.

(* ================================================================== *)
(** ** Breeding statistics ([BreedingManagement.tsx], lines 97-116) *)
(* ================================================================== *)

Section BreedingStats.

(** [new Date(s).getTime()]: the time value in milliseconds, or [None]
    for an invalid date (JavaScript's [NaN]). *)
Variable Date_getTime : string -> option Z.

(** [getMonth()] and [getFullYear()] of a time value, in local time. *)
Variable getMonth : Z -> Z.
Variable getFullYear : Z -> Z.

(** The clock.  [Date.now()] and [new Date()] read it afresh at every
    call, so one computation that examines several records may see
    several times.  A [Clock] gives the readings made in the course of
    one computation, by their rank: the first, the second, ... *)
Definition Clock : Type := nat -> Z.

Definition is_status (st : BreedingStatus.t) (record : BreedingRecord.t) : bool :=
  BreedingStatus.eqb (BreedingRecord.status record) st.

Definition active (breedingRecords : list BreedingRecord.t) : list BreedingRecord.t :=
  filter (is_status BreedingStatus.Pregnant) breedingRecords.

Definition ms_per_day : Z := (1000 * 60 * 60 * 24)%Z.

(** The callback of [dueSoon] (lines 105-110), [now] being what its
    call of [Date.now()] returns: a comparison with [NaN] is false. *)
Definition is_due_soon (now : Z) (record : BreedingRecord.t) : bool :=
  if String.eqb (BreedingRecord.dueDate record) EmptyString then false
  else
    match Date_getTime (BreedingRecord.dueDate record) with
    | None => false
    | Some due =>
        let diff := (due - now)%Z in
        let days := (inject_Z diff / inject_Z ms_per_day)%Q in
        Qle_bool 0 days && Qle_bool days 14
    end.

(** The callback of [deliveredThisMonth] (lines 99-104), [now] being
    the time of its [new Date()]. *)
Definition is_delivered_this_month (now : Z) (record : BreedingRecord.t) : bool :=
  if negb (is_status BreedingStatus.Delivered record)
     || String.eqb (BreedingRecord.dueDate record) EmptyString then false
  else
    match Date_getTime (BreedingRecord.dueDate record) with
    | None => false
    | Some due =>
        (getMonth due =? getMonth now)%Z && (getFullYear due =? getFullYear now)%Z
    end.

(** The records for which a callback gets as far as reading the clock;
    for the others it has returned [false] before. *)
Definition dueSoon_reads_clock (record : BreedingRecord.t) : bool :=
  negb (String.eqb (BreedingRecord.dueDate record) EmptyString).

Definition delivered_reads_clock (record : BreedingRecord.t) : bool :=
  is_status BreedingStatus.Delivered record
  && negb (String.eqb (BreedingRecord.dueDate record) EmptyString).

(** [l.filter(callback)] for a callback that reads the clock: the
    records are examined in order and each one for which the callback
    reads the clock gets the next reading, [n] being the rank of the
    first.  The result is the records kept and the rank of the reading
    that comes next. *)
Fixpoint filter_clock (reads : BreedingRecord.t -> bool)
    (callback : Z -> BreedingRecord.t -> bool) (clock : Clock) (n : nat)
    (l : list BreedingRecord.t) : list BreedingRecord.t * nat :=
  match l with
  | [] => ([], n)
  | record :: rest =>
      if reads record then
        let (kept, next) := filter_clock reads callback clock (S n) rest in
        (if callback (clock n) record then record :: kept else kept, next)
      else filter_clock reads callback clock n rest
  end.

Record Stats : Type := {
  pregnancies : nat;
  dueSoon : nat;
  delivered : nat
}.

(** The function given to [useMemo] (lines 98-115), run with the clock
    readings [clock]. *)
Definition stats (clock : Clock) (breedingRecords : list BreedingRecord.t) : Stats :=
  let active := active breedingRecords in
  let (deliveredThisMonth, n) :=
    filter_clock delivered_reads_clock is_delivered_this_month clock 0 breedingRecords in
  let (dueSoon, _) := filter_clock dueSoon_reads_clock is_due_soon clock n active in
  {| pregnancies := length active;
     dueSoon := length dueSoon;
     delivered := length deliveredThisMonth |}.

(** One render of the screen: the [breedingRecords] array the store
    hands over, with its identity, and the clock readings a computation
    of [stats] gets if it runs in this render.  The store never changes
    an array in place, every setter builds a new one, so the identity
    tells the content; a new array may hold what the old one held. *)
Record Render : Type := {
  render_array : nat;
  render_records : list BreedingRecord.t;
  render_clock : Clock
}.

(** What the [useMemo] hook keeps between renders: the dependency it
    computed from, and the value. *)
Record Memo : Type := {
  memo_deps : nat;
  memo_value : Stats
}.

(** [useMemo(() => ..., [breedingRecords])] (lines 97-116): the
    function runs at the first render and at a render whose array is
    not the one of the render before ([Object.is]); at any other render
    the value kept is returned, and the clock is not read. *)
Definition useMemo_stats (kept : option Memo) (r : Render) : Memo :=
  let computed :=
    {| memo_deps := render_array r;
       memo_value := stats (render_clock r) (render_records r) |} in
  match kept with
  | None => computed
  | Some memo => if Nat.eqb (memo_deps memo) (render_array r) then memo else computed
  end.

(** The hook after a series of renders, and the figures a render shows
    after the renders [earlier]. *)
Definition hook_after (renders : list Render) : option Memo :=
  fold_left (fun kept r => Some (useMemo_stats kept r)) renders None.

Definition shown_stats (earlier : list Render) (r : Render) : Stats :=
  memo_value (useMemo_stats (hook_after earlier) r).






End BreedingStats.

(* ================================================================== *)
(** ** Notions used to state the properties *)
(* ================================================================== *)

(** Reading an entity back by its id ([collection.find(x => x.id === id)]). *)
Definition find_by_id (c : Collection) (id : string) (l : list (Entity c)) : option (Entity c) :=
  find (fun x => String.eqb (entity_id c x) id) l.

Definition or_else {A : Type} (o : option A) (d : A) : A :=
  match o with
  | Some v => v
  | None => d
  end.

(** An inventory item with exactly the fields named by a partial payload
    changed and every other field as it was: what the specification
    expects to read back after an update. *)
Definition apply_partial_inventory
    (payload : UpdateInventoryItemInput.t) (item : InventoryItem.t) : InventoryItem.t :=
  {| InventoryItem.id := InventoryItem.id item;
     InventoryItem.name := or_else (UpdateInventoryItemInput.name payload) (InventoryItem.name item);
     InventoryItem.category :=
       or_else (UpdateInventoryItemInput.category payload) (InventoryItem.category item);
     InventoryItem.quantity :=
       or_else (UpdateInventoryItemInput.quantity payload) (InventoryItem.quantity item);
     InventoryItem.unit := or_else (UpdateInventoryItemInput.unit payload) (InventoryItem.unit item);
     InventoryItem.reorderLevel :=
       or_else (UpdateInventoryItemInput.reorderLevel payload) (InventoryItem.reorderLevel item);
     InventoryItem.costPerUnit :=
       or_else (UpdateInventoryItemInput.costPerUnit payload) (InventoryItem.costPerUnit item);
     InventoryItem.status :=
       or_else (UpdateInventoryItemInput.status payload) (InventoryItem.status item) |}.

(** Modelled from the spec: the backend's handler of [PUT /settings],
    which is not among the sources.  Section 6: "[PUT /settings] with
    full or partial settings -> updated settings object"; section 4.2
    calls it a merge-update.  The fields present in the body replace
    the stored ones and the result is returned. *)
Definition put_settings (stored : SettingsValue) (body : PartialSettings.t) : SettingsValue :=
  {| FacilitySettings.facilityName :=
       or_else (PartialSettings.facilityName body) (FacilitySettings.facilityName stored);
     FacilitySettings.registrationNumber :=
       or_else (PartialSettings.registrationNumber body)
               (FacilitySettings.registrationNumber stored);
     FacilitySettings.address :=
       or_else (PartialSettings.address body) (FacilitySettings.address stored);
     FacilitySettings.phone :=
       or_else (PartialSettings.phone body) (FacilitySettings.phone stored);
     FacilitySettings.email :=
       or_else (PartialSettings.email body) (FacilitySettings.email stored);
     FacilitySettings.operatingHours :=
       or_else (PartialSettings.operatingHours body) (FacilitySettings.operatingHours stored);
     FacilitySettings.notificationPreferences :=
       or_else (PartialSettings.notificationPreferences body)
               (FacilitySettings.notificationPreferences stored);
     FacilitySettings.lastBackup :=
       or_else (PartialSettings.lastBackup body) (FacilitySettings.lastBackup stored) |}.

(** The settings value with one preference flag set. *)
Definition with_flag (key : NotificationPreferences.key) (value : bool)
    (s : SettingsValue) : SettingsValue :=
  FacilitySettings.with_preferences
    (NotificationPreferences.set key value (FacilitySettings.notificationPreferences s)) s.

(** The error message the specification words give for a non-2xx
    response: the body's [error] field if present, else a generic
    network-error message (the body could not be read), else the
    status code as a string. *)
Definition error_field (response : Response) : option JSON :=
  match json response with
  | Resolved (JObject members) => lookup_member "error" members
  | _ => None
  end.



(** Order-preserving edits of a list.  [Edited R D l m]: [m] is [l] in
    which an entry satisfying [R] may have been replaced where it
    stands, an entry satisfying [D] may have been removed, and every
    other entry stands where it stood, in the order of [l]; nothing is
    moved and nothing is inserted.  [OrderKept R D n l l']: such an
    edit followed by at most [n] entries appended at the tail. *)
Inductive Edited {A : Type} (R D : A -> bool) : list A -> list A -> Prop :=
| Edited_nil : Edited R D [] []
| Edited_keep x l m : Edited R D l m -> Edited R D (x :: l) (x :: m)
| Edited_replace x y l m : R x = true -> Edited R D l m -> Edited R D (x :: l) (y :: m)
| Edited_remove x l m : D x = true -> Edited R D l m -> Edited R D (x :: l) m.

Definition OrderKept {A : Type} (R D : A -> bool) (n : nat) (l l' : list A) : Prop :=
  exists m tail, Edited R D l m /\ l' = m ++ tail /\ (length tail <= n)%nat.

(** [Subsequence l l']: [l] is [l'] with some entries left out, the
    rest in the same order. *)
Inductive Subsequence {A : Type} : list A -> list A -> Prop :=
| Subsequence_nil : Subsequence [] []
| Subsequence_skip y l l' : Subsequence l l' -> Subsequence l (y :: l')
| Subsequence_cons x l l' : Subsequence l l' -> Subsequence (x :: l) (x :: l').

(** What a session does to the entities of collection [c]: those one
    of its updates addresses ([session_replaces]); those one of its
    updates or deletes addresses ([session_touches]); whether it runs a
    delete that filters [c] ([session_deletes]); and how many adds it
    runs on [c] ([session_appends]).  An entity can leave the
    collection only in a session that runs such a delete, and only if
    the session addresses it: a delete removes it, or an update
    replaces it by an entity a later delete removes. *)
Definition session_replaces (session : list (Op * Backend)) (c : Collection)
    (x : Entity c) : bool :=
  existsb (fun step => replaces (fst step) c x) session.

Definition session_touches (session : list (Op * Backend)) (c : Collection)
    (x : Entity c) : bool :=
  existsb (fun step => touches (fst step) c x) session.

Definition session_deletes (session : list (Op * Backend)) (c : Collection) : bool :=
  existsb (fun step => reaches (fst step) c) session.

Definition session_removes (session : list (Op * Backend)) (c : Collection)
    (x : Entity c) : bool :=
  session_deletes session c && session_touches session c x.

Fixpoint session_appends (session : list (Op * Backend)) (c : Collection) : nat :=
  match session with
  | [] => 0%nat
  | step :: rest => (appends (fst step) c + session_appends rest c)%nat
  end.

(** The world at mount. *)
Definition initialWorld (now_iso : string) : World :=
  {| store := initialStore now_iso; sent := []; console := [] |}.

(** What [loadData] leaves in a collection, given how its list call
    settled. *)
Definition loaded {A : Type} (p : Promise (list A)) : list A :=
  match p with
  | Resolved l => l
  | Rejected _ => []
  end.

(** The store after line 342: the nested preferences object the
    settings state refers to has the flag assigned. *)
Definition flag_assigned (key : NotificationPreferences.key) (value : bool)
    (s : Store) : Store :=
  let l := FacilitySettings.notificationPreferences (settings s) in
  with_heap (write l (NotificationPreferences.set key value (read (heap s) l)) (heap s)) s.


(* ================================================================== *)
(** ** Sample data: a small facility and backends answering for it *)
(* ================================================================== *)

Module Demo.

Definition rex : Animal.t :=
  {| Animal.id := "A001"; Animal.name := "Rex"; Animal.species := "Dog";
     Animal.breed := "Labrador"; Animal.age := 3%Q; Animal.gender := Male;
     Animal.weightKg := None; Animal.status := AnimalStatus.Healthy;
     Animal.notes := None |}.

Definition bella : Animal.t :=
  {| Animal.id := "A002"; Animal.name := "Bella"; Animal.species := "Dog";
     Animal.breed := "Beagle"; Animal.age := 4%Q; Animal.gender := Female;
     Animal.weightKg := Some 11%Q; Animal.status := AnimalStatus.Breeding;
     Animal.notes := None |}.

Definition checkup : HealthRecord.t :=
  {| HealthRecord.id := "H001"; HealthRecord.animalId := "A001";
     HealthRecord.recordType := HealthRecordType.Checkup;
     HealthRecord.description := "Annual checkup";
     HealthRecord.date := "2026-01-10"; HealthRecord.veterinarian := "Dr. Shah";
     HealthRecord.status := HealthRecordStatus.Scheduled;
     HealthRecord.nextDueDate := None; HealthRecord.notes := None |}.

Definition vaccination : HealthRecord.t :=
  {| HealthRecord.id := "H002"; HealthRecord.animalId := "A002";
     HealthRecord.recordType := HealthRecordType.Vaccination;
     HealthRecord.description := "Rabies";
     HealthRecord.date := "2026-01-12"; HealthRecord.veterinarian := "Dr. Shah";
     HealthRecord.status := HealthRecordStatus.Completed;
     HealthRecord.nextDueDate := Some "2027-01-12"; HealthRecord.notes := None |}.

Definition breakfast : FeedingTask.t :=
  {| FeedingTask.id := "F001"; FeedingTask.animalId := "A001";
     FeedingTask.animalName := "Rex"; FeedingTask.foodType := "Kibble";
     FeedingTask.quantity := "200 g"; FeedingTask.time := "08:00";
     FeedingTask.frequency := Frequency.Daily;
     FeedingTask.status := FeedingStatus.Pending;
     FeedingTask.startDate := "2026-01-01" |}.

Definition litter : BreedingRecord.t :=
  {| BreedingRecord.id := "B001"; BreedingRecord.motherId := "A002";
     BreedingRecord.fatherId := "A001"; BreedingRecord.matingDate := "2026-01-02";
     BreedingRecord.dueDate := "2026-03-05"; BreedingRecord.expectedLitter := None;
     BreedingRecord.actualLitter := None;
     BreedingRecord.status := BreedingStatus.Pregnant;
     BreedingRecord.notes := None |}.

Definition kibble : InventoryItem.t :=
  {| InventoryItem.id := "I001"; InventoryItem.name := "Kibble";
     InventoryItem.category := Category.Food; InventoryItem.quantity := 10%Q;
     InventoryItem.unit := "kg"; InventoryItem.reorderLevel := 5%Q;
     InventoryItem.costPerUnit := (5 # 2)%Q;
     InventoryItem.status := StockStatus.InStock |}.

Definition asha : StaffMember.t :=
  {| StaffMember.id := "S001"; StaffMember.name := "Asha";
     StaffMember.role := Role.Caretaker; StaffMember.email := "asha@greenvalley.com";
     StaffMember.phone := "(555) 000-0001"; StaffMember.status := StaffStatus.Active;
     StaffMember.joined := "2025-06-01"; StaffMember.notes := None |}.

Definition now_iso : string := "2026-01-01T00:00:00.000Z".

(** The store of a session that has loaded this facility. *)
Definition facility : Store :=
  {| animals := [rex; bella];
     healthRecords := [checkup; vaccination];
     feedingTasks := [breakfast];
     breedingRecords := [litter];
     inventory := [kibble];
     staff := [asha];
     settings := defaultSettings 0%nat now_iso;
     reportFilters := initialReportFilters;
     loading := false;
     heap := {| cells := fun _ => defaultPreferences; next := 1%nat |} |}.

Definition world : World := {| store := facility; sent := []; console := [] |}.

Definition unavailable : Error :=
  {| name := "TypeError"; message := "Failed to fetch" |}.

(** A backend that is down: every call is rejected. *)
Definition down : Backend := fun _ _ => Rejected unavailable.

Arguments down : clear implicits.

Definition deleted : Message := {| message_text := "Deleted successfully" |}.

(** The animal the server stores for a create payload, under id [id]. *)
Definition stored_animal (id : string) (p : CreateAnimalInput.t) : Animal.t :=
  {| Animal.id := id; Animal.name := CreateAnimalInput.name p;
     Animal.species := CreateAnimalInput.species p;
     Animal.breed := CreateAnimalInput.breed p; Animal.age := CreateAnimalInput.age p;
     Animal.gender := CreateAnimalInput.gender p;
     Animal.weightKg := CreateAnimalInput.weightKg p;
     Animal.status := CreateAnimalInput.status p;
     Animal.notes := CreateAnimalInput.notes p |}.

Definition milo_payload : CreateAnimalInput.t :=
  {| CreateAnimalInput.name := "Milo"; CreateAnimalInput.species := "Cat";
     CreateAnimalInput.breed := "Siamese"; CreateAnimalInput.age := 2%Q;
     CreateAnimalInput.gender := Male; CreateAnimalInput.weightKg := None;
     CreateAnimalInput.status := AnimalStatus.Healthy;
     CreateAnimalInput.notes := None |}.

Definition restock : UpdateInventoryItemInput.t :=
  {| UpdateInventoryItemInput.name := None; UpdateInventoryItemInput.category := None;
     UpdateInventoryItemInput.quantity := Some 3%Q;
     UpdateInventoryItemInput.unit := None;
     UpdateInventoryItemInput.reorderLevel := None;
     UpdateInventoryItemInput.costPerUnit := None;
     UpdateInventoryItemInput.status := None |}.

(** What the server answers to [restock] on item I001: the quantity is
    now below the reorder level, and the status, which the server
    derives from the two, has been recomputed. *)
Definition kibble_low : InventoryItem.t :=
  {| InventoryItem.id := "I001"; InventoryItem.name := "Kibble";
     InventoryItem.category := Category.Food; InventoryItem.quantity := 3%Q;
     InventoryItem.unit := "kg"; InventoryItem.reorderLevel := 5%Q;
     InventoryItem.costPerUnit := (5 # 2)%Q;
     InventoryItem.status := StockStatus.LowStock |}.

Definition reschedule : UpdateHealthRecordInput.t :=
  {| UpdateHealthRecordInput.animalId := None;
     UpdateHealthRecordInput.recordType := None;
     UpdateHealthRecordInput.description := None;
     UpdateHealthRecordInput.date := Some "2026-02-01";
     UpdateHealthRecordInput.veterinarian := None;
     UpdateHealthRecordInput.status := None;
     UpdateHealthRecordInput.nextDueDate := None;
     UpdateHealthRecordInput.notes := None |}.

Definition checkup_rescheduled : HealthRecord.t :=
  {| HealthRecord.id := "H001"; HealthRecord.animalId := "A001";
     HealthRecord.recordType := HealthRecordType.Checkup;
     HealthRecord.description := "Annual checkup";
     HealthRecord.date := "2026-02-01"; HealthRecord.veterinarian := "Dr. Shah";
     HealthRecord.status := HealthRecordStatus.Scheduled;
     HealthRecord.nextDueDate := None; HealthRecord.notes := None |}.

(** A backend that is up and holds this facility: it answers the calls
    the examples make, the settings calls as [put_settings] does. *)
Definition up : Backend :=
  fun X call =>
    match call in apiE X return Promise X with
    | getAll c =>
        Resolved (match c return list (Entity c) with
                  | Animals => [rex; bella]
                  | HealthRecords => [checkup; vaccination]
                  | FeedingTasks => [breakfast]
                  | BreedingRecords => [litter]
                  | Inventory => [kibble]
                  | Staff => [asha]
                  end)
    | create c data =>
        match c return CreateInput c -> Promise (Entity c) with
        | Animals => fun p => Resolved (stored_animal "A003" p)
        | _ => fun _ => Rejected unavailable
        end data
    | update c id data =>
        match c return Promise (Entity c) with
        | Inventory => Resolved kibble_low
        | HealthRecords => Resolved checkup_rescheduled
        | _ => Rejected unavailable
        end
    | delete _ _ => Resolved deleted
    | settings_get => Resolved (defaultSettings defaultPreferences "2025-12-24T09:30:00.000Z")
    | settings_update body =>
        Resolved (put_settings (defaultSettings defaultPreferences "2025-12-24T09:30:00.000Z") body)
    | getById _ _ => Rejected unavailable
    end.

Arguments up : clear implicits.

(** The same backend with the inventory list unreachable. *)
Definition inventory_down : Backend :=
  fun X call =>
    match call in apiE X return Promise X with
    | getAll Inventory => Rejected unavailable
    | other => up _ other
    end.

Arguments inventory_down : clear implicits.

(** A number printing for the examples: the digits of the integer part.
    It agrees with the runtime's on the integers below 10^21; no
    example prints any other number. *)
Definition Number_toString (x : Q) : string :=
  decimal (Qnum x / Zpos (Qden x))%Z.

End Demo.

(** The body [updateNotificationPreference] sends from store [s]: the
    whole settings with the flag set. *)
Definition toggle_body (key : NotificationPreferences.key) (value : bool)
    (s : Store) : PartialSettings.t :=
  PartialSettings.whole (with_flag key value (settings_value s)).

(** The seven calls of [loadData], in the order they are issued. *)
Definition load_calls : list Call :=
  [call_of (getAll Animals); call_of (getAll HealthRecords);
   call_of (getAll FeedingTasks); call_of (getAll BreedingRecords);
   call_of (getAll Inventory); call_of (getAll Staff); call_of settings_get].

(** A toy date parser for the sample data: the two due dates it knows,
    as milliseconds since the epoch; anything else is not a date. *)
Module DemoDates.

Definition getTime (s : string) : option Z :=
  if String.eqb s "2026-03-05" then Some 1772668800000%Z
  else if String.eqb s "2026-06-01" then Some 1780272000000%Z
  else None.

(** 2026-03-01T00:00:00Z. *)
Definition now : Z := 1772323200000%Z.

Definition late_litter : BreedingRecord.t :=
  {| BreedingRecord.id := "B002"; BreedingRecord.motherId := "A002";
     BreedingRecord.fatherId := "A001"; BreedingRecord.matingDate := "2026-04-01";
     BreedingRecord.dueDate := "2026-06-01"; BreedingRecord.expectedLitter := None;
     BreedingRecord.actualLitter := None;
     BreedingRecord.status := BreedingStatus.Pregnant;
     BreedingRecord.notes := None |}.

Definition undated_litter : BreedingRecord.t :=
  {| BreedingRecord.id := "B003"; BreedingRecord.motherId := "A002";
     BreedingRecord.fatherId := "A001"; BreedingRecord.matingDate := "2026-02-01";
     BreedingRecord.dueDate := EmptyString; BreedingRecord.expectedLitter := None;
     BreedingRecord.actualLitter := None;
     BreedingRecord.status := BreedingStatus.Pregnant;
     BreedingRecord.notes := None |}.

Definition litters : list BreedingRecord.t :=
  [Demo.litter; late_litter; undated_litter].

(** A first render on 2026-03-01, and a second one five days later,
    2026-03-06T00:00:00Z, of the same array; each gets all its clock
    readings within one millisecond. *)
Definition first_render : Render :=
  {| render_array := 0%nat; render_records := litters;
     render_clock := fun _ => now |}.

Definition five_days_later : Z := 1772755200000%Z.

Definition later_render : Render :=
  {| render_array := 0%nat; render_records := litters;
     render_clock := fun _ => five_days_later |}.

End DemoDates.

(* ================================================================== *)
(** ** The store, continued: what an operation logs, what a call
    settles as, and what the references between collections are *)
(* ================================================================== *)

From Stdlib Require Import Qround.
Local Close Scope Q_scope.

Unset Implicit Arguments.

(** The rejection a call meets at the backend, if it meets one. *)
Definition rejection (backend : Backend) (k : Call) : option Error :=
  match k with
  | call_of c =>
      match backend _ c with
      | Resolved _ => None
      | Rejected e => Some e
      end
  end.

(** The label each operation passes to [console.error] in its [catch]
    block. *)
Definition console_label (op : Op) : string :=
  match op with
  | Add Animals _ => "Error adding animal:"
  | Add HealthRecords _ => "Error adding health record:"
  | Add FeedingTasks _ => "Error adding feeding task:"
  | Add BreedingRecords _ => "Error adding breeding record:"
  | Add Inventory _ => "Error adding inventory item:"
  | Add Staff _ => "Error adding staff member:"
  | Update Animals _ _ => "Error updating animal:"
  | Update HealthRecords _ _ => "Error updating health record:"
  | Update FeedingTasks _ _ => "Error updating feeding task:"
  | Update BreedingRecords _ _ => "Error updating breeding record:"
  | Update Inventory _ _ => "Error updating inventory item:"
  | Update Staff _ _ => "Error updating staff member:"
  | Delete Animals _ => "Error deleting animal:"
  | Delete HealthRecords _ => "Error deleting health record:"
  | Delete FeedingTasks _ => "Error deleting feeding task:"
  | Delete BreedingRecords _ => "Error deleting breeding record:"
  | Delete Inventory _ => "Error deleting inventory item:"
  | Delete Staff _ => "Error deleting staff member:"
  | UpdateSettings _ => "Error updating settings:"
  | UpdateNotificationPreference _ _ => "Error updating notification preference:"
  end.

(** [animals.find((animal) => animal.id === id)] finds an animal. *)
Definition has_animal (animals : list Animal.t) (id : string) : bool :=
  existsb (fun animal => String.eqb (Animal.id animal) id) animals.

(** Every [animalId], [motherId] and [fatherId] held in the store is
    the id of an animal of the store. *)
Definition references_resolve (s : Store) : bool :=
  forallb (fun record => has_animal (animals s) (HealthRecord.animalId record))
          (healthRecords s)
  && forallb (fun task => has_animal (animals s) (FeedingTask.animalId task))
             (feedingTasks s)
  && forallb (fun record =>
                has_animal (animals s) (BreedingRecord.motherId record)
                && has_animal (animals s) (BreedingRecord.fatherId record))
             (breedingRecords s).

(* ================================================================== *)
(** ** The REST client, continued: where each call goes *)
(* ================================================================== *)

(** The method and the path [fetchAPI] is called with. *)
Definition route (k : Call) : string * string :=
  match k with
  | call_of c => (method c, endpoint c)
  end.

(** What a call does, apart from the data it carries. *)
Inductive CallKind : Type :=
| ListAll (c : Collection)
| GetOne (c : Collection) (id : string)
| CreateOne (c : Collection)
| UpdateOne (c : Collection) (id : string)
| DeleteOne (c : Collection) (id : string)
| GetSettings
| PutSettings.

Definition kind_of (k : Call) : CallKind :=
  match k with
  | call_of c =>
      match c with
      | getAll c => ListAll c
      | getById c id => GetOne c id
      | create c _ => CreateOne c
      | update c id _ => UpdateOne c id
      | delete c id => DeleteOne c id
      | settings_get => GetSettings
      | settings_update _ => PutSettings
      end
  end.

(* ================================================================== *)
(** ** Breeding management, continued ([BreedingManagement.tsx]) *)
(* ================================================================== *)

(** The dash shown for a missing value (U+2014, as three bytes). *)
Definition em_dash : string :=
  String (Ascii.ascii_of_nat 226)
    (String (Ascii.ascii_of_nat 128) (String (Ascii.ascii_of_nat 148) EmptyString)).

(** [formatDueInDays] (lines 55-63).  [Math.ceil] of the quotient is
    taken on the exact quotient; the floating-point quotient has the
    same ceiling as long as the two dates are less than 2^26 days
    apart. *)
Definition formatDueInDays (Date_getTime : string -> option Z) (now : Z)
    (dueDate : string) : string :=
  if String.eqb dueDate EmptyString then em_dash
  else
    match Date_getTime dueDate with
    | None => em_dash
    | Some due =>
        let diff := Qceiling (inject_Z (due - now) / inject_Z ms_per_day) in
        if (0 <? diff)%Z then (decimal diff ++ " days")%string
        else if (diff =? 0)%Z then "Today"
        else (decimal (Z.abs diff) ++ " days ago")%string
    end.

(** The form of the add and edit dialogs (lines 29-38). *)
Module BreedingForm.
Record t : Type := Build {
  motherId : string;
  fatherId : string;
  matingDate : string;
  dueDate : string;
  expectedLitter : string;
  actualLitter : string;
  status : BreedingStatus.t;
  notes : string
}.
End BreedingForm.

(** The state hooks of the component (lines 71-80). *)
Module BreedingUI.
Record t : Type := Build {
  searchTerm : string;
  isAddDialogOpen : bool;
  form : BreedingForm.t;
  formError : option string;
  recordBeingEdited : option BreedingRecord.t;
  editForm : BreedingForm.t;
  editError : option string;
  recordToDelete : option BreedingRecord.t
}.
End BreedingUI.

Section BreedingHandlers.

(** [String.prototype.trim]. *)
Variable trim : string -> string.

(** [todayIso()] when the module was loaded. *)
Variable today : string.

Definition defaultForm : BreedingForm.t :=
  {| BreedingForm.motherId := EmptyString;
     BreedingForm.fatherId := EmptyString;
     BreedingForm.matingDate := today;
     BreedingForm.dueDate := EmptyString;
     BreedingForm.expectedLitter := EmptyString;
     BreedingForm.actualLitter := EmptyString;
     BreedingForm.status := BreedingStatus.Pregnant;
     BreedingForm.notes := EmptyString |}.

(** [validateForm] (lines 123-138): the boolean returned, and the value
    handed to [setError]. *)
Definition validateForm (data : BreedingForm.t) : bool * option string :=
  if String.eqb (BreedingForm.motherId data) EmptyString
  then (false, Some "Select a mother.")
  else if String.eqb (BreedingForm.fatherId data) EmptyString
  then (false, Some "Select a father.")
  else if String.eqb (BreedingForm.matingDate data) EmptyString
  then (false, Some "Mating date is required.")
  else (true, None).

(** [s || undefined]. *)
Definition or_undefined (s : string) : option string :=
  if String.eqb s EmptyString then None else Some s.

(** [s.trim() ? s.trim() : undefined]. *)
Definition trimmed_or_undefined (s : string) : option string :=
  if String.eqb (trim s) EmptyString then None else Some (trim s).

(** [o ?? ''] for an optional string. *)
Definition or_empty (o : option string) : string :=
  match o with
  | Some s => s
  | None => EmptyString
  end.

Definition create_payload (f : BreedingForm.t) : CreateBreedingRecordInput.t :=
  {| CreateBreedingRecordInput.motherId := BreedingForm.motherId f;
     CreateBreedingRecordInput.fatherId := BreedingForm.fatherId f;
     CreateBreedingRecordInput.matingDate := BreedingForm.matingDate f;
     CreateBreedingRecordInput.dueDate := BreedingForm.dueDate f;
     CreateBreedingRecordInput.expectedLitter := or_undefined (BreedingForm.expectedLitter f);
     CreateBreedingRecordInput.actualLitter := or_undefined (BreedingForm.actualLitter f);
     CreateBreedingRecordInput.status := BreedingForm.status f;
     CreateBreedingRecordInput.notes := trimmed_or_undefined (BreedingForm.notes f) |}.

Definition update_payload (f : BreedingForm.t) : UpdateBreedingRecordInput.t :=
  {| UpdateBreedingRecordInput.motherId := Some (BreedingForm.motherId f);
     UpdateBreedingRecordInput.fatherId := Some (BreedingForm.fatherId f);
     UpdateBreedingRecordInput.matingDate := Some (BreedingForm.matingDate f);
     UpdateBreedingRecordInput.dueDate := Some (BreedingForm.dueDate f);
     UpdateBreedingRecordInput.expectedLitter := or_undefined (BreedingForm.expectedLitter f);
     UpdateBreedingRecordInput.actualLitter := or_undefined (BreedingForm.actualLitter f);
     UpdateBreedingRecordInput.status := Some (BreedingForm.status f);
     UpdateBreedingRecordInput.notes := trimmed_or_undefined (BreedingForm.notes f) |}.

Definition with_add_dialog (open : bool) (f : BreedingForm.t) (err : option string)
    (ui : BreedingUI.t) : BreedingUI.t :=
  {| BreedingUI.searchTerm := BreedingUI.searchTerm ui;
     BreedingUI.isAddDialogOpen := open;
     BreedingUI.form := f;
     BreedingUI.formError := err;
     BreedingUI.recordBeingEdited := BreedingUI.recordBeingEdited ui;
     BreedingUI.editForm := BreedingUI.editForm ui;
     BreedingUI.editError := BreedingUI.editError ui;
     BreedingUI.recordToDelete := BreedingUI.recordToDelete ui |}.

Definition with_edit_dialog (r : option BreedingRecord.t) (f : BreedingForm.t)
    (err : option string) (ui : BreedingUI.t) : BreedingUI.t :=
  {| BreedingUI.searchTerm := BreedingUI.searchTerm ui;
     BreedingUI.isAddDialogOpen := BreedingUI.isAddDialogOpen ui;
     BreedingUI.form := BreedingUI.form ui;
     BreedingUI.formError := BreedingUI.formError ui;
     BreedingUI.recordBeingEdited := r;
     BreedingUI.editForm := f;
     BreedingUI.editError := err;
     BreedingUI.recordToDelete := BreedingUI.recordToDelete ui |}.

(** The handlers call the store without awaiting it: the promise is
    dropped, and the state updates that follow are made whatever the
    call settles as.  A handler is modelled by the component state and
    the world it leaves once the call has settled. *)

(** [handleAddRecord] (lines 140-154). *)
Definition handleAddRecord (ui : BreedingUI.t) (backend : Backend) (w : World)
    : BreedingUI.t * World :=
  let (valid, error) := validateForm (BreedingUI.form ui) in
  if negb valid
  then (with_add_dialog (BreedingUI.isAddDialogOpen ui) (BreedingUI.form ui) error ui, w)
  else
    (with_add_dialog false defaultForm None ui,
     fst (addBreedingRecord (create_payload (BreedingUI.form ui)) backend w)).

(** [handleEditClick] (lines 156-169). *)
Definition handleEditClick (record : BreedingRecord.t) (ui : BreedingUI.t)
    : BreedingUI.t :=
  with_edit_dialog (Some record)
    {| BreedingForm.motherId := BreedingRecord.motherId record;
       BreedingForm.fatherId := BreedingRecord.fatherId record;
       BreedingForm.matingDate := BreedingRecord.matingDate record;
       BreedingForm.dueDate := BreedingRecord.dueDate record;
       BreedingForm.expectedLitter := or_empty (BreedingRecord.expectedLitter record);
       BreedingForm.actualLitter := or_empty (BreedingRecord.actualLitter record);
       BreedingForm.status := BreedingRecord.status record;
       BreedingForm.notes := or_empty (BreedingRecord.notes record) |}
    None ui.

(** [handleUpdateRecord] (lines 171-188). *)
Definition handleUpdateRecord (ui : BreedingUI.t) (backend : Backend) (w : World)
    : BreedingUI.t * World :=
  match BreedingUI.recordBeingEdited ui with
  | None => (ui, w)
  | Some record =>
      let (valid, error) := validateForm (BreedingUI.editForm ui) in
      if negb valid
      then (with_edit_dialog (Some record) (BreedingUI.editForm ui) error ui, w)
      else
        (with_edit_dialog None (BreedingUI.editForm ui) None ui,
         fst (updateBreedingRecord (BreedingRecord.id record)
                (update_payload (BreedingUI.editForm ui)) backend w))
  end.

End BreedingHandlers.

(* ================================================================== *)
(** ** Figures shown by the other screens *)
(* ================================================================== *)

Definition FeedingStatus_eqb (a b : FeedingStatus.t) : bool :=
  match a, b with
  | FeedingStatus.Pending, FeedingStatus.Pending
  | FeedingStatus.Completed, FeedingStatus.Completed
  | FeedingStatus.Missed, FeedingStatus.Missed => true
  | _, _ => false
  end.

Definition StockStatus_eqb (a b : StockStatus.t) : bool :=
  match a, b with
  | StockStatus.InStock, StockStatus.InStock
  | StockStatus.LowStock, StockStatus.LowStock
  | StockStatus.OutOfStock, StockStatus.OutOfStock => true
  | _, _ => false
  end.

Definition HealthRecordStatus_eqb (a b : HealthRecordStatus.t) : bool :=
  match a, b with
  | HealthRecordStatus.Scheduled, HealthRecordStatus.Scheduled
  | HealthRecordStatus.Ongoing, HealthRecordStatus.Ongoing
  | HealthRecordStatus.Completed, HealthRecordStatus.Completed => true
  | _, _ => false
  end.

(** *** The dashboard ([Dashboard.tsx], the body of [Dashboard]) *)

Definition pendingFeeding (s : Store) : list FeedingTask.t :=
  filter (fun task => FeedingStatus_eqb (FeedingTask.status task) FeedingStatus.Pending)
         (feedingTasks s).

Definition completedFeeding (s : Store) : list FeedingTask.t :=
  filter (fun task => FeedingStatus_eqb (FeedingTask.status task) FeedingStatus.Completed)
         (feedingTasks s).

Definition lowStockItems (s : Store) : list InventoryItem.t :=
  filter (fun item => negb (StockStatus_eqb (InventoryItem.status item) StockStatus.InStock))
         (inventory s).

Definition openHealthRecords (s : Store) : list HealthRecord.t :=
  filter (fun record =>
            negb (HealthRecordStatus_eqb (HealthRecord.status record)
                    HealthRecordStatus.Completed))
         (healthRecords s).

Definition alertCount (s : Store) : nat :=
  length (pendingFeeding s) + length (lowStockItems s) + length (openHealthRecords s).

(** *** The feeding schedule ([FeedingSchedule.tsx], lines 87-94) and
    the registry's count of active tasks ([AnimalRegistry.tsx], lines
    106-109) *)

Module FeedingStats.
Record t : Type := Build {
  total : nat;
  completed : nat;
  pending : nat;
  missed : nat
}.
End FeedingStats.

Definition feeding_stats (feedingTasks : list FeedingTask.t) : FeedingStats.t :=
  {| FeedingStats.total := length feedingTasks;
     FeedingStats.completed :=
       length (filter (fun task =>
                         FeedingStatus_eqb (FeedingTask.status task) FeedingStatus.Completed)
                      feedingTasks);
     FeedingStats.pending :=
       length (filter (fun task =>
                         FeedingStatus_eqb (FeedingTask.status task) FeedingStatus.Pending)
                      feedingTasks);
     FeedingStats.missed :=
       length (filter (fun task =>
                         FeedingStatus_eqb (FeedingTask.status task) FeedingStatus.Missed)
                      feedingTasks) |}.

Definition activeFeedingTasks (feedingTasks : list FeedingTask.t) : nat :=
  length (filter (fun task =>
                    negb (FeedingStatus_eqb (FeedingTask.status task)
                            FeedingStatus.Completed))
                 feedingTasks).

(** *** The species breakdown of the registry ([AnimalRegistry.tsx],
    lines 88-104) *)

Module SpeciesBreakdown.
Record t : Type := Build { dogs : nat; cats : nat; other : nat }.
End SpeciesBreakdown.

Section Species.

(** [String.prototype.toLowerCase]. *)
Variable toLowerCase : string -> string.

Definition count_species (acc : SpeciesBreakdown.t) (animal : Animal.t)
    : SpeciesBreakdown.t :=
  let species := toLowerCase (Animal.species animal) in
  if String.eqb species "dog" || String.eqb species "canine" then
    {| SpeciesBreakdown.dogs := SpeciesBreakdown.dogs acc + 1;
       SpeciesBreakdown.cats := SpeciesBreakdown.cats acc;
       SpeciesBreakdown.other := SpeciesBreakdown.other acc |}
  else if String.eqb species "cat" || String.eqb species "feline" then
    {| SpeciesBreakdown.dogs := SpeciesBreakdown.dogs acc;
       SpeciesBreakdown.cats := SpeciesBreakdown.cats acc + 1;
       SpeciesBreakdown.other := SpeciesBreakdown.other acc |}
  else
    {| SpeciesBreakdown.dogs := SpeciesBreakdown.dogs acc;
       SpeciesBreakdown.cats := SpeciesBreakdown.cats acc;
       SpeciesBreakdown.other := SpeciesBreakdown.other acc + 1 |}.

Definition speciesBreakdown (animals : list Animal.t) : SpeciesBreakdown.t :=
  fold_left count_species animals
    {| SpeciesBreakdown.dogs := 0; SpeciesBreakdown.cats := 0;
       SpeciesBreakdown.other := 0 |}.

End Species.

(* ================================================================== *)
(** ** The application shell ([App.tsx]) *)
(* ================================================================== *)

Module App.

Inductive Page : Type :=
| title | dashboard | animals | health | feeding | breeding | inventory | staff
| reports | settings.

(** The three state hooks of [App]. *)
Record State : Type := {
  currentPage : Page;
  isAuthenticated : bool;
  userEmail : option string
}.

Definition initial : State :=
  {| currentPage := title; isAuthenticated := false; userEmail := None |}.

Definition handleLogin (email : string) (s : State) : State :=
  {| currentPage := title; isAuthenticated := true; userEmail := Some email |}.

Definition handleLogout (s : State) : State :=
  {| currentPage := currentPage s; isAuthenticated := false; userEmail := None |}.

Definition setCurrentPage (page : Page) (s : State) : State :=
  {| currentPage := page; isAuthenticated := isAuthenticated s;
     userEmail := userEmail s |}.

(** The component [App] returns. *)
Inductive Screen : Type :=
| LoginPage | TitlePage | Dashboard | AnimalRegistry | HealthRecordsScreen
| FeedingSchedule | BreedingManagement | InventoryScreen | StaffManagement
| Reports | Settings.

Definition render (s : State) : Screen :=
  if negb (isAuthenticated s) then LoginPage
  else
    match currentPage s with
    | title => TitlePage
    | dashboard => Dashboard
    | animals => AnimalRegistry
    | health => HealthRecordsScreen
    | feeding => FeedingSchedule
    | breeding => BreedingManagement
    | inventory => InventoryScreen
    | staff => StaffManagement
    | reports => Reports
    | settings => Settings
    end.

(** The callbacks [App] hands to the screens. *)
Inductive Event : Type :=
| onLogin (email : string)
| onEnter
| onNavigate (page : Page)
| onLogout
| onBack.

(** Which callbacks the screen on display has been given. *)
Definition offers (screen : Screen) (e : Event) : bool :=
  match screen, e with
  | LoginPage, onLogin _ => true
  | TitlePage, onEnter => true
  | Dashboard, onNavigate _ => true
  | Dashboard, onLogout => true
  | LoginPage, _ | TitlePage, _ | Dashboard, _ => false
  | _, onBack => true
  | _, _ => false
  end.

Definition handle (e : Event) (s : State) : State :=
  match e with
  | onLogin email => handleLogin email s
  | onEnter => setCurrentPage dashboard s
  | onNavigate page => setCurrentPage page s
  | onLogout => handleLogout s
  | onBack => setCurrentPage dashboard s
  end.

(** One user action: only a callback of the screen on display can
    fire. *)
Definition step (s : State) (e : Event) : State :=
  if offers (render s) e then handle e s else s.

Definition run (events : list Event) : State := fold_left step events initial.

End App.
(* ================================================================== *)
(** * Properties *)
(* ================================================================== *)

Unset Implicit Arguments.

Lemma BreedingStatus_eqb_eq (a b : BreedingStatus.t) :
  BreedingStatus.eqb a b = true <-> a = b.
Proof. destruct a, b; simpl; split; congruence. Qed.

Lemma Collection_eqb_eq (a b : Collection) : Collection_eqb a b = true <-> a = b.
Proof. destruct a, b; simpl; split; congruence. Qed.

(** ** The store record and its collections *)

Lemma items_with_items_same (c : Collection) (l : list (Entity c)) (s : Store) :
  items c (with_items c l s) = l.
Proof. destruct c; reflexivity. Qed.

Lemma items_with_items_other (c c' : Collection) (l : list (Entity c)) (s : Store) :
  c' <> c -> items c' (with_items c l s) = items c' s.
Proof. destruct c, c'; intros H; try reflexivity; contradiction H; reflexivity. Qed.

Lemma with_items_items (c : Collection) (s : Store) : with_items c (items c s) s = s.
Proof. destruct c, s; reflexivity. Qed.

Lemma settings_with_items (c : Collection) (l : list (Entity c)) (s : Store) :
  settings (with_items c l s) = settings s /\ heap (with_items c l s) = heap s
  /\ reportFilters (with_items c l s) = reportFilters s
  /\ loading (with_items c l s) = loading s.
Proof. destruct c; repeat split. Qed.

Lemma settings_value_with_items (c : Collection) (l : list (Entity c)) (s : Store) :
  settings_value (with_items c l s) = settings_value s.
Proof. destruct c; reflexivity. Qed.

(** ** How each operation runs, by the way its REST call settles *)

Ltac run_async :=
  cbv [add update_by_id delete_by_id run_op
       addAnimal updateAnimal deleteAnimal
       addHealthRecord updateHealthRecord deleteHealthRecord
       addFeedingTask updateFeedingTask deleteFeedingTask
       addBreedingRecord updateBreedingRecord deleteBreedingRecord
       addInventoryItem updateInventoryItem deleteInventoryItem
       addStaffMember updateStaffMember deleteStaffMember
       updateSettings updateNotificationPreference
       try_catch try_catch_finally bind ret throw issue await catch
       console_error modify gets
       setAnimals setHealthRecords setFeedingTasks setBreedingRecords
       setInventory setStaff setSettings setLoading setReportFilters
       settings_object assign_preference stringify].

Lemma add_resolved (c : Collection) (payload : CreateInput c)
    (backend : Backend) (w : World) (e : Entity c) :
  backend _ (create c payload) = Resolved e ->
  add c payload backend w =
    ({| store := with_items c (items c (store w) ++ [e]) (store w);
        sent := sent w ++ [call_of (create c payload)];
        console := console w |}, Resolved tt).
Proof.
  destruct c; intros H; run_async; cbn in *; rewrite H; reflexivity.
Qed.

Lemma update_resolved (c : Collection) (id : string) (payload : UpdateInput c)
    (backend : Backend) (w : World) (u : Entity c) :
  backend _ (update c id payload) = Resolved u ->
  update_by_id c id payload backend w =
    ({| store := with_items c
                   (map (fun x => if String.eqb (entity_id c x) id then u else x)
                        (items c (store w))) (store w);
        sent := sent w ++ [call_of (update c id payload)];
        console := console w |}, Resolved tt).
Proof.
  destruct c; intros H; run_async; cbn in *; rewrite H; reflexivity.
Qed.

Lemma delete_resolved (c : Collection) (id : string)
    (backend : Backend) (w : World) (msg : Message) :
  c <> Animals ->
  backend _ (delete c id) = Resolved msg ->
  delete_by_id c id backend w =
    ({| store := with_items c
                   (filter (fun x => negb (String.eqb (entity_id c x) id))
                           (items c (store w))) (store w);
        sent := sent w ++ [call_of (delete c id)];
        console := console w |}, Resolved tt).
Proof.
  destruct c; intros Hc H; try (contradiction Hc; reflexivity);
    run_async; cbn in *; rewrite H; reflexivity.
Qed.

Lemma deleteAnimal_resolved (id : string) (backend : Backend) (w : World) (msg : Message) :
  backend _ (delete Animals id) = Resolved msg ->
  deleteAnimal id backend w =
    ({| store :=
          with_breedingRecords
            (filter (fun record =>
                       negb (String.eqb (BreedingRecord.motherId record) id)
                       && negb (String.eqb (BreedingRecord.fatherId record) id))
                    (breedingRecords (store w)))
            (with_feedingTasks
               (filter (fun task => negb (String.eqb (FeedingTask.animalId task) id))
                       (feedingTasks (store w)))
               (with_healthRecords
                  (filter (fun record => negb (String.eqb (HealthRecord.animalId record) id))
                          (healthRecords (store w)))
                  (with_animals
                     (filter (fun animal => negb (String.eqb (Animal.id animal) id))
                             (animals (store w)))
                     (store w))));
        sent := sent w ++ [call_of (delete Animals id)];
        console := console w |}, Resolved tt).
Proof.
  intros H; run_async; cbn in *; rewrite H; reflexivity.
Qed.

Lemma read_write_same (l : loc) (p : NotificationPreferences.t) (h : Heap) :
  read (write l p h) l = p.
Proof. unfold read, write; simpl; rewrite Nat.eqb_refl; reflexivity. Qed.

Lemma read_alloc_new (p : NotificationPreferences.t) (h : Heap) :
  read (snd (alloc p h)) (fst (alloc p h)) = p.
Proof. unfold read, alloc; simpl; rewrite Nat.eqb_refl; reflexivity. Qed.

(** The body [updateNotificationPreference] sends is the one
    [request_of] names. *)
Lemma updateNotificationPreference_body (key : NotificationPreferences.key) (value : bool)
    (s : Store) :
  PartialSettings.whole
    (FacilitySettings.with_preferences
       (read (write (FacilitySettings.notificationPreferences (settings s))
                    (NotificationPreferences.set key value
                       (read (heap s) (FacilitySettings.notificationPreferences (settings s))))
                    (heap s))
             (FacilitySettings.notificationPreferences (settings s)))
       (settings s))
  = PartialSettings.whole (with_flag key value (settings_value s)).
Proof. rewrite read_write_same; reflexivity. Qed.

Lemma updateNotificationPreference_rejected (key : NotificationPreferences.key)
    (value : bool) (backend : Backend) (w : World) (e : Error) :
  backend _ (settings_update
               (PartialSettings.whole (with_flag key value (settings_value (store w)))))
    = Rejected e ->
  updateNotificationPreference key value backend w =
    ({| store := flag_assigned key value (store w);
        sent := sent w ++ [call_of (settings_update
                  (PartialSettings.whole (with_flag key value (settings_value (store w)))))];
        console := console w ++ [("Error updating notification preference:", e)] |},
     Rejected e).
Proof.
  intros H. run_async. cbn [store sent console fst snd heap settings with_heap].
  rewrite updateNotificationPreference_body, H. reflexivity.
Qed.

Lemma updateNotificationPreference_resolved (key : NotificationPreferences.key)
    (value : bool) (backend : Backend) (w : World) (answer : SettingsValue) :
  backend _ (settings_update
               (PartialSettings.whole (with_flag key value (settings_value (store w)))))
    = Resolved answer ->
  updateNotificationPreference key value backend w =
    (let s1 := flag_assigned key value (store w) in
     let lh := alloc (FacilitySettings.notificationPreferences answer) (heap s1) in
     {| store := with_settings (FacilitySettings.with_preferences (fst lh) answer)
                   (with_heap (snd lh) s1);
        sent := sent w ++ [call_of (settings_update
                  (PartialSettings.whole (with_flag key value (settings_value (store w)))))];
        console := console w |},
     Resolved tt).
Proof.
  intros H. run_async. cbn [store sent console fst snd heap settings with_heap].
  rewrite updateNotificationPreference_body, H. reflexivity.
Qed.

(** A rejected REST call is rethrown to the caller of the operation. *)
Lemma rejected_propagates (op : Op) (backend : Backend) (w : World) (e : Error) :
  rejects backend (request_of op (store w)) e ->
  snd (run_op op backend w) = Rejected e.
Proof.
  destruct op as [c p | c id p | c id | p | key value]; try destruct c; intros H;
    try (cbn in H; cbn [run_op];
         rewrite (updateNotificationPreference_rejected _ _ _ _ _ H); reflexivity);
    run_async; cbn in *; rewrite H; reflexivity.
Qed.

(** Every operation but the preference toggle leaves the whole store
    as it was when its call is rejected. *)
Lemma rejected_store_unchanged (op : Op) (backend : Backend) (w : World) (e : Error) :
  (forall key value, op <> UpdateNotificationPreference key value) ->
  rejects backend (request_of op (store w)) e ->
  store (fst (run_op op backend w)) = store w.
Proof.
  destruct op as [c p | c id p | c id | p | key value]; try destruct c;
    intros Hop H;
    try (exfalso; eapply Hop; reflexivity);
    run_async; cbn in *; rewrite H; reflexivity.
Qed.

(** The collections are left as they were by every rejected operation. *)
Lemma rejected_items_unchanged (op : Op) (backend : Backend) (w : World) (e : Error)
    (c : Collection) :
  rejects backend (request_of op (store w)) e ->
  items c (store (fst (run_op op backend w))) = items c (store w).
Proof.
  destruct op as [c' p | c' id p | c' id | p | key value]; try destruct c'; intros H;
    try (cbn in H; cbn [run_op];
         rewrite (updateNotificationPreference_rejected _ _ _ _ _ H);
         destruct c; reflexivity);
    run_async; cbn in *; rewrite H; destruct c; reflexivity.
Qed.

(** The toggle is the exception: whatever the store, after a rejected
    call the settings read as if the flag had been set. *)
Lemma rejected_toggle_settings (key : NotificationPreferences.key) (value : bool)
    (backend : Backend) (w : World) (e : Error) :
  rejects backend (request_of (UpdateNotificationPreference key value) (store w)) e ->
  settings_value (store (fst (updateNotificationPreference key value backend w)))
  = with_flag key value (settings_value (store w)).
Proof.
  intros H. cbn in H.
  rewrite (updateNotificationPreference_rejected key value backend w e H).
  cbn [fst store]. unfold settings_value, flag_assigned, with_flag.
  cbn [settings heap with_heap]. rewrite read_write_same. reflexivity.
Qed.

(** ** C2 (rejection leaves the state untouched): fails for the toggle *)

(** C2.  The claim: when the REST call of a mutating operation rejects,
    the error reaches the caller and the whole local state, nested
    notification flags included, is as before.  Evaluated on
    [updateNotificationPreference] at mount, with a backend that
    rejects: the error is rethrown, yet the [lowStockAlerts] flag the
    settings state shows has gone from [true] to [false], because
    line 342 assigns into the nested object the state shares with its
    spread copy before the call is awaited. *)
Theorem rejected_toggle_changes_flag :
  let w := initialWorld "2026-01-01T00:00:00.000Z" in
  let failure := {| name := "TypeError"; message := "Failed to fetch" |} in
  let backend : Backend := fun _ _ => Rejected failure in
  let r := updateNotificationPreference NotificationPreferences.LowStockAlerts false backend w in
  snd r = Rejected failure
  /\ NotificationPreferences.lowStockAlerts
       (FacilitySettings.notificationPreferences (settings_value (store w))) = true
  /\ NotificationPreferences.lowStockAlerts
       (FacilitySettings.notificationPreferences (settings_value (store (fst r)))) = false
  /\ settings_value (store (fst r)) <> settings_value (store w).
Proof.
  cbv zeta. repeat split. intros H.
  apply (f_equal (fun v => NotificationPreferences.lowStockAlerts
                             (FacilitySettings.notificationPreferences v))) in H.
  vm_compute in H. discriminate H.
Qed.

(** ** C1: deleting an animal *)

(** C1.  When its REST call succeeds, [deleteAnimal id] resolves and
    removes from the animals every animal with that id, from the health
    records and the feeding tasks every entry whose [animalId] is [id],
    and from the breeding records every entry whose [motherId] or
    [fatherId] is [id]; every other entry of those four collections
    stays, in the same order, and inventory, staff and settings (the
    nested preferences included) are unchanged. *)
Theorem deleteAnimal_cascade (id : string) (backend : Backend) (w : World) (msg : Message) :
  backend _ (delete Animals id) = Resolved msg ->
  let r := deleteAnimal id backend w in
  let s := store w in
  let s' := store (fst r) in
  snd r = Resolved tt
  /\ animals s' = filter (fun a => negb (String.eqb (Animal.id a) id)) (animals s)
  /\ healthRecords s' =
       filter (fun h => negb (String.eqb (HealthRecord.animalId h) id)) (healthRecords s)
  /\ feedingTasks s' =
       filter (fun t => negb (String.eqb (FeedingTask.animalId t) id)) (feedingTasks s)
  /\ breedingRecords s' =
       filter (fun b => negb (String.eqb (BreedingRecord.motherId b) id
                              || String.eqb (BreedingRecord.fatherId b) id))
              (breedingRecords s)
  /\ (forall a, In a (animals s') <-> In a (animals s) /\ Animal.id a <> id)
  /\ (forall h, In h (healthRecords s') <->
                In h (healthRecords s) /\ HealthRecord.animalId h <> id)
  /\ (forall t, In t (feedingTasks s') <->
                In t (feedingTasks s) /\ FeedingTask.animalId t <> id)
  /\ (forall b, In b (breedingRecords s') <->
                In b (breedingRecords s)
                /\ BreedingRecord.motherId b <> id /\ BreedingRecord.fatherId b <> id)
  /\ inventory s' = inventory s
  /\ staff s' = staff s
  /\ settings s' = settings s
  /\ heap s' = heap s
  /\ settings_value s' = settings_value s.
Proof.
  intros H; cbv zeta.
  rewrite (deleteAnimal_resolved id backend w msg H); cbn [fst snd store].
  destruct (store w) as [an he fe br inv st se rf lo hp]; cbn.
  repeat match goal with |- _ /\ _ => split end; try reflexivity.
  - apply filter_ext; intros b; rewrite negb_orb; reflexivity.
  - intros a; rewrite filter_In, negb_true_iff, String.eqb_neq; reflexivity.
  - intros h; rewrite filter_In, negb_true_iff, String.eqb_neq; reflexivity.
  - intros t; rewrite filter_In, negb_true_iff, String.eqb_neq; reflexivity.
  - intros b; rewrite filter_In, andb_true_iff, !negb_true_iff, !String.eqb_neq;
      reflexivity.
Qed.

Lemma deleteAnimal_cascade_witness :
  Demo.up _ (delete Animals "A001") = Resolved Demo.deleted
  /\ animals (store (fst (deleteAnimal "A001" Demo.up Demo.world))) = [Demo.bella]
  /\ feedingTasks (store (fst (deleteAnimal "A001" Demo.up Demo.world))) = []
  /\ inventory (store (fst (deleteAnimal "A001" Demo.up Demo.world))) = [Demo.kibble].
Proof.
  split; [reflexivity|].
  pose proof (deleteAnimal_cascade "A001" Demo.up Demo.world Demo.deleted eq_refl) as H.
  cbv zeta in H.
  destruct H as (_ & Ha & _ & Hf & _ & _ & _ & _ & _ & Hi & _).
  rewrite Ha, Hf, Hi. repeat split.
Defined.

(** ** C5: add *)

(** C5.  For every collection and create payload (whose type has no id
    field and, for inventory, no status field): when the create call
    succeeds, the operation resolves and the collection is the previous
    collection followed by exactly the entity the server returned, id
    and server-derived fields as returned; its length grows by one,
    the previous entries keep their places, and the other collections
    and the settings are unchanged. *)
Theorem add_appends_returned_entity (c : Collection) (payload : CreateInput c)
    (backend : Backend) (w : World) (e : Entity c) :
  backend _ (create c payload) = Resolved e ->
  let r := add c payload backend w in
  let s := store w in
  let s' := store (fst r) in
  snd r = Resolved tt
  /\ items c s' = items c s ++ [e]
  /\ length (items c s') = S (length (items c s))
  /\ (forall i x, nth_error (items c s) i = Some x -> nth_error (items c s') i = Some x)
  /\ nth_error (items c s') (length (items c s)) = Some e
  /\ (forall c', c' <> c -> items c' s' = items c' s)
  /\ settings_value s' = settings_value s
  /\ sent (fst r) = sent w ++ [call_of (create c payload)].
Proof.
  intros H; cbv zeta.
  rewrite (add_resolved c payload backend w e H); cbn [fst snd store sent].
  rewrite items_with_items_same.
  repeat match goal with |- _ /\ _ => split end; try reflexivity.
  - rewrite length_app; simpl; lia.
  - intros i x Hx. rewrite nth_error_app1; [exact Hx|].
    apply nth_error_Some; congruence.
  - rewrite nth_error_app2, Nat.sub_diag by lia; reflexivity.
  - intros c' Hc; apply items_with_items_other; exact Hc.
  - apply settings_value_with_items.
Qed.

Lemma add_appends_returned_entity_witness :
  Demo.up _ (create Animals Demo.milo_payload)
    = Resolved (Demo.stored_animal "A003" Demo.milo_payload)
  /\ animals (store (fst (addAnimal Demo.milo_payload Demo.up Demo.world)))
     = [Demo.rex; Demo.bella; Demo.stored_animal "A003" Demo.milo_payload].
Proof.
  split; [reflexivity|].
  pose proof (add_appends_returned_entity Animals Demo.milo_payload Demo.up Demo.world
                _ eq_refl) as H.
  cbv zeta in H. destruct H as (_ & Ha & _). exact Ha.
Defined.

(** ** C9: update of an id that is not in the collection *)

Lemma map_replace_absent {A : Type} (T : A -> bool) (u : A) (l : list A) :
  (forall x, In x l -> T x = false) ->
  map (fun x => if T x then u else x) l = l.
Proof.
  induction l as [|a l IH]; intros H; simpl; [reflexivity|].
  rewrite (H a (or_introl eq_refl)), IH; [reflexivity|].
  intros x Hx; apply H; right; exact Hx.
Qed.

(** C9.  For every collection: when the update call succeeds for an id
    that no local entity carries, the whole store is left as it was;
    the returned entity is not inserted and the collection does not
    grow. *)
Theorem update_absent_id_is_noop (c : Collection) (id : string) (payload : UpdateInput c)
    (backend : Backend) (w : World) (u : Entity c) :
  backend _ (update c id payload) = Resolved u ->
  (forall x, In x (items c (store w)) -> entity_id c x <> id) ->
  let r := update_by_id c id payload backend w in
  snd r = Resolved tt
  /\ store (fst r) = store w
  /\ items c (store (fst r)) = items c (store w)
  /\ length (items c (store (fst r))) = length (items c (store w))
  /\ ~ (In u (items c (store (fst r))) /\ ~ In u (items c (store w))).
Proof.
  intros H Habs; cbv zeta.
  rewrite (update_resolved c id payload backend w u H); cbn [fst snd store].
  rewrite map_replace_absent.
  - rewrite with_items_items. repeat split. tauto.
  - intros x Hx; apply String.eqb_neq, Habs, Hx.
Qed.

Lemma update_absent_id_is_noop_witness :
  Demo.up _ (update Inventory "I404" Demo.restock) = Resolved Demo.kibble_low
  /\ (forall x, In x (items Inventory (store Demo.world)) ->
        entity_id Inventory x <> "I404")
  /\ store (fst (updateInventoryItem "I404" Demo.restock Demo.up Demo.world))
     = store Demo.world.
Proof.
  assert (Habs : forall x, In x (items Inventory (store Demo.world)) ->
                   entity_id Inventory x <> "I404").
  { intros x [<- | []]; discriminate. }
  split; [reflexivity|]. split; [exact Habs|].
  exact (proj1 (proj2 (update_absent_id_is_noop Inventory "I404" Demo.restock
                         Demo.up Demo.world Demo.kibble_low eq_refl Habs))).
Defined.

(** ** C6: update *)

Lemma nth_error_map_replace {A : Type} (f : A -> A) (l : list A) (i : nat) (x : A) :
  nth_error l i = Some x -> nth_error (map f l) i = Some (f x).
Proof.
  intros H. rewrite nth_error_map, H. reflexivity.
Qed.

Lemma find_map_replace {A : Type} (T : A -> bool) (u : A) (l : list A) :
  T u = true ->
  (exists x, In x l /\ T x = true) ->
  find T (map (fun x => if T x then u else x) l) = Some u.
Proof.
  intros Hu. induction l as [|a l IH]; intros (x & Hin & Hx).
  - destruct Hin.
  - simpl. destruct (T a) eqn:Ha.
    + rewrite Hu. reflexivity.
    + rewrite Ha. apply IH. destruct Hin as [-> | Hin].
      * congruence.
      * exists x. split; assumption.
Qed.

(** C6, as amended.  For every collection, id present in it and
    payload: when the update call succeeds, the operation resolves and
    the collection is the previous one with each entity carrying that
    id replaced, at its position, by the entity the server returned;
    entities with another id, the length and the order of the
    collection, the other collections and the settings are unchanged.
    Reading the entity back by id yields the returned entity, provided
    it carries that id: which fields differ from before is decided by
    the server's answer, not by the payload. *)
Theorem update_replaces_in_place (c : Collection) (id : string) (payload : UpdateInput c)
    (backend : Backend) (w : World) (u : Entity c) :
  backend _ (update c id payload) = Resolved u ->
  (exists x, In x (items c (store w)) /\ entity_id c x = id) ->
  let r := update_by_id c id payload backend w in
  let s := store w in
  let s' := store (fst r) in
  snd r = Resolved tt
  /\ items c s' = map (fun x => if String.eqb (entity_id c x) id then u else x) (items c s)
  /\ length (items c s') = length (items c s)
  /\ (forall i x, nth_error (items c s) i = Some x ->
        nth_error (items c s') i = Some (if String.eqb (entity_id c x) id then u else x))
  /\ (forall c', c' <> c -> items c' s' = items c' s)
  /\ settings_value s' = settings_value s
  /\ (entity_id c u = id -> find_by_id c id (items c s') = Some u).
Proof.
  intros H (x0 & Hin & Hid); cbv zeta.
  rewrite (update_resolved c id payload backend w u H); cbn [fst snd store].
  rewrite items_with_items_same.
  repeat match goal with |- _ /\ _ => split end; try reflexivity.
  - apply length_map.
  - intros i x Hx.
    apply (nth_error_map_replace
             (fun x => if String.eqb (entity_id c x) id then u else x)); exact Hx.
  - intros c' Hc; apply items_with_items_other; exact Hc.
  - apply settings_value_with_items.
  - intros Hu. unfold find_by_id.
    apply (find_map_replace (fun x => String.eqb (entity_id c x) id)).
    + apply String.eqb_eq; exact Hu.
    + exists x0. split; [exact Hin | apply String.eqb_eq; exact Hid].
Qed.

Lemma update_replaces_in_place_witness :
  Demo.up _ (update HealthRecords "H001" Demo.reschedule) = Resolved Demo.checkup_rescheduled
  /\ (exists x, In x (items HealthRecords (store Demo.world))
                /\ entity_id HealthRecords x = "H001")
  /\ healthRecords (store (fst (updateHealthRecord "H001" Demo.reschedule Demo.up Demo.world)))
     = [Demo.checkup_rescheduled; Demo.vaccination].
Proof.
  assert (Hin : exists x, In x (items HealthRecords (store Demo.world))
                          /\ entity_id HealthRecords x = "H001").
  { exists Demo.checkup. split; [left; reflexivity | reflexivity]. }
  split; [reflexivity|]. split; [exact Hin|].
  pose proof (update_replaces_in_place HealthRecords "H001" Demo.reschedule Demo.up
                Demo.world Demo.checkup_rescheduled eq_refl Hin) as H.
  cbv zeta in H. destruct H as (_ & Hm & _). exact Hm.
Defined.

(** C6, the claim as stated, fails on its last clause.  Item I001 is
    in stock; the update names the quantity only; the server answers
    with the item at the new quantity and the status it derives from
    it.  The update succeeds, and the item read back by id has a
    status that the payload did not name and that is not the one it
    had: it is not the item with exactly the named fields changed. *)
Lemma update_read_back_differs_from_payload :
  let r := updateInventoryItem "I001" Demo.restock Demo.up Demo.world in
  Demo.up _ (update Inventory "I001" Demo.restock) = Resolved Demo.kibble_low
  /\ snd r = Resolved tt
  /\ find_by_id Inventory "I001" (inventory (store Demo.world)) = Some Demo.kibble
  /\ UpdateInventoryItemInput.status Demo.restock = None
  /\ find_by_id Inventory "I001" (inventory (store (fst r))) = Some Demo.kibble_low
  /\ InventoryItem.status Demo.kibble_low <> InventoryItem.status Demo.kibble
  /\ find_by_id Inventory "I001" (inventory (store (fst r)))
     <> Some (apply_partial_inventory Demo.restock Demo.kibble).
Proof.
  cbv zeta. repeat split.
  - discriminate.
  - intros H. vm_compute in H. discriminate H.
Qed.

(** ** C7: toggling one notification preference *)

Lemma put_settings_whole (stored v : SettingsValue) :
  put_settings stored (PartialSettings.whole v) = v.
Proof. destruct v; reflexivity. Qed.

Lemma get_set_same (k : NotificationPreferences.key) (v : bool)
    (p : NotificationPreferences.t) :
  NotificationPreferences.get k (NotificationPreferences.set k v p) = v.
Proof. destruct k; reflexivity. Qed.

Lemma get_set_other (k k' : NotificationPreferences.key) (v : bool)
    (p : NotificationPreferences.t) :
  k' <> k ->
  NotificationPreferences.get k' (NotificationPreferences.set k v p)
  = NotificationPreferences.get k' p.
Proof. destruct k, k'; intros H; try reflexivity; contradiction H; reflexivity. Qed.

(** C7.  For every store, flag and value: when the backend performs
    the settings update, [updateNotificationPreference] resolves having
    sent exactly one call, a settings update whose body is the whole
    current settings with that flag set to the value; afterwards the
    store's settings are the prior settings with that one flag set:
    the other four flags and every other settings field are as before,
    and so are the collections. *)
Theorem updateNotificationPreference_changes_one_flag
    (key : NotificationPreferences.key) (value : bool)
    (backend : Backend) (w : World) (stored : SettingsValue) :
  backend _ (settings_update (toggle_body key value (store w)))
    = Resolved (put_settings stored (toggle_body key value (store w))) ->
  let r := updateNotificationPreference key value backend w in
  let before := settings_value (store w) in
  let after := settings_value (store (fst r)) in
  snd r = Resolved tt
  /\ sent (fst r) = sent w ++ [call_of (settings_update (toggle_body key value (store w)))]
  /\ toggle_body key value (store w) = PartialSettings.whole (with_flag key value before)
  /\ after = with_flag key value before
  /\ NotificationPreferences.get key (FacilitySettings.notificationPreferences after) = value
  /\ (forall k, k <> key ->
        NotificationPreferences.get k (FacilitySettings.notificationPreferences after)
        = NotificationPreferences.get k (FacilitySettings.notificationPreferences before))
  /\ FacilitySettings.with_preferences tt after = FacilitySettings.with_preferences tt before
  /\ (forall c, items c (store (fst r)) = items c (store w)).
Proof.
  intros H; cbv zeta. unfold toggle_body in *.
  rewrite put_settings_whole in H.
  rewrite (updateNotificationPreference_resolved key value backend w _ H).
  cbn [fst snd store sent].
  assert (Hafter :
    settings_value
      (with_settings
         (FacilitySettings.with_preferences
            (fst (alloc (FacilitySettings.notificationPreferences
                           (with_flag key value (settings_value (store w))))
                        (heap (flag_assigned key value (store w)))))
            (with_flag key value (settings_value (store w))))
         (with_heap
            (snd (alloc (FacilitySettings.notificationPreferences
                           (with_flag key value (settings_value (store w))))
                        (heap (flag_assigned key value (store w)))))
            (flag_assigned key value (store w))))
    = with_flag key value (settings_value (store w))).
  { unfold settings_value at 1. cbn [settings heap with_settings with_heap
      FacilitySettings.notificationPreferences FacilitySettings.with_preferences].
    rewrite read_alloc_new. reflexivity. }
  rewrite Hafter.
  repeat match goal with |- _ /\ _ => split end; try reflexivity.
  - apply get_set_same.
  - intros k Hk. apply get_set_other; exact Hk.
  - intros c; destruct c; reflexivity.
Qed.

Lemma updateNotificationPreference_changes_one_flag_witness :
  Demo.up _ (settings_update
               (toggle_body NotificationPreferences.LowStockAlerts false (store Demo.world)))
    = Resolved (put_settings (defaultSettings defaultPreferences "2025-12-24T09:30:00.000Z")
                  (toggle_body NotificationPreferences.LowStockAlerts false (store Demo.world)))
  /\ settings_value
       (store (fst (updateNotificationPreference NotificationPreferences.LowStockAlerts false
                      Demo.up Demo.world)))
     = with_flag NotificationPreferences.LowStockAlerts false (settings_value (store Demo.world)).
Proof.
  split; [reflexivity|].
  pose proof (updateNotificationPreference_changes_one_flag
                NotificationPreferences.LowStockAlerts false Demo.up Demo.world
                (defaultSettings defaultPreferences "2025-12-24T09:30:00.000Z") eq_refl) as H.
  cbv zeta in H. destruct H as (_ & _ & _ & Ha & _). exact Ha.
Defined.

(** ** C4: the initial load *)

(** C4.  Run at mount against any backend, [loadData] issues its seven
    calls and resolves with [loading] switched off, whichever of the
    calls reject.  Each collection is the list its call returned, or
    empty if that call rejected, independently of the other calls; the
    settings are the returned settings, or the built-in default if the
    settings call rejected. *)
Theorem loadData_degrades_per_call (now_iso : string) (backend : Backend) :
  let r := loadData backend (initialWorld now_iso) in
  let s' := store (fst r) in
  snd r = Resolved tt
  /\ loading s' = false
  /\ sent (fst r) = load_calls
  /\ (forall c, items c s' = loaded (backend _ (getAll c)))
  /\ (forall c e, backend _ (getAll c) = Rejected e -> items c s' = [])
  /\ (forall c l, backend _ (getAll c) = Resolved l -> items c s' = l)
  /\ (forall e, backend _ settings_get = Rejected e ->
        settings_value s' = defaultSettings defaultPreferences now_iso
        /\ settings s' = settings (initialStore now_iso)
        /\ heap s' = heap (initialStore now_iso))
  /\ (forall v, backend _ settings_get = Resolved v -> settings_value s' = v).
Proof.
  cbv zeta.
  assert (Hrun :
    loadData backend (initialWorld now_iso) =
    (let s1 :=
       with_staff (loaded (backend _ (getAll Staff)))
         (with_inventory (loaded (backend _ (getAll Inventory)))
            (with_breedingRecords (loaded (backend _ (getAll BreedingRecords)))
               (with_feedingTasks (loaded (backend _ (getAll FeedingTasks)))
                  (with_healthRecords (loaded (backend _ (getAll HealthRecords)))
                     (with_animals (loaded (backend _ (getAll Animals)))
                        (with_loading true (initialStore now_iso))))))) in
     {| store :=
          with_loading false
            match backend _ settings_get with
            | Resolved v =>
                with_settings
                  (FacilitySettings.with_preferences
                     (fst (alloc (FacilitySettings.notificationPreferences v) (heap s1))) v)
                  (with_heap
                     (snd (alloc (FacilitySettings.notificationPreferences v) (heap s1))) s1)
            | Rejected _ => s1
            end;
        sent := load_calls;
        console := [] |}, Resolved tt)).
  { unfold loadData, loaded. run_async. cbn [store sent console app initialWorld].
    destruct (backend _ (getAll Animals)), (backend _ (getAll HealthRecords)),
      (backend _ (getAll FeedingTasks)), (backend _ (getAll BreedingRecords)),
      (backend _ (getAll Inventory)), (backend _ (getAll Staff)),
      (backend _ settings_get); reflexivity. }
  rewrite Hrun; cbv zeta; cbn [fst snd store sent].
  assert (Hitems : forall c,
    items c
      (with_loading false
         match backend _ settings_get with
         | Resolved v =>
             with_settings
               (FacilitySettings.with_preferences
                  (fst (alloc (FacilitySettings.notificationPreferences v)
                          (heap (initialStore now_iso)))) v)
               (with_heap
                  (snd (alloc (FacilitySettings.notificationPreferences v)
                          (heap (initialStore now_iso))))
                  (with_staff (loaded (backend _ (getAll Staff)))
                     (with_inventory (loaded (backend _ (getAll Inventory)))
                        (with_breedingRecords (loaded (backend _ (getAll BreedingRecords)))
                           (with_feedingTasks (loaded (backend _ (getAll FeedingTasks)))
                              (with_healthRecords (loaded (backend _ (getAll HealthRecords)))
                                 (with_animals (loaded (backend _ (getAll Animals)))
                                    (with_loading true (initialStore now_iso)))))))))
         | Rejected _ =>
             with_staff (loaded (backend _ (getAll Staff)))
               (with_inventory (loaded (backend _ (getAll Inventory)))
                  (with_breedingRecords (loaded (backend _ (getAll BreedingRecords)))
                     (with_feedingTasks (loaded (backend _ (getAll FeedingTasks)))
                        (with_healthRecords (loaded (backend _ (getAll HealthRecords)))
                           (with_animals (loaded (backend _ (getAll Animals)))
                              (with_loading true (initialStore now_iso)))))))
         end) = loaded (backend _ (getAll c))).
  { intros c. destruct (backend _ settings_get); destruct c; reflexivity. }
  cbn [heap with_staff with_inventory with_breedingRecords with_feedingTasks
       with_healthRecords with_animals with_loading] in *.
  repeat match goal with |- _ /\ _ => split end.
  - reflexivity.
  - destruct (backend _ settings_get); reflexivity.
  - reflexivity.
  - exact Hitems.
  - intros c e He. rewrite Hitems, He. reflexivity.
  - intros c l Hl. rewrite Hitems, Hl. reflexivity.
  - intros e He. rewrite He. repeat split.
  - intros v Hv. rewrite Hv. destruct v; reflexivity.
Qed.

Lemma loadData_degrades_per_call_example :
  let r := loadData Demo.inventory_down (initialWorld Demo.now_iso) in
  Demo.inventory_down _ (getAll Inventory) = Rejected Demo.unavailable
  /\ inventory (store (fst r)) = []
  /\ animals (store (fst r)) = [Demo.rex; Demo.bella]
  /\ staff (store (fst r)) = [Demo.asha]
  /\ loading (store (fst r)) = false.
Proof.
  cbv zeta.
  pose proof (loadData_degrades_per_call Demo.now_iso Demo.inventory_down) as H.
  cbv zeta in H. destruct H as (_ & Hl & _ & _ & Hrej & Hres & _).
  split; [reflexivity|].
  split; [exact (Hrej Inventory Demo.unavailable eq_refl)|].
  split; [exact (Hres Animals _ eq_refl)|].
  split; [exact (Hres Staff _ eq_refl)|exact Hl].
Defined.

(** ** C3: the REST client *)

Lemma error_property_of_body (response : Response) (body : JSON) :
  json response = Resolved body -> body <> JNull ->
  error_property body = Resolved (error_field response).
Proof.
  intros Hb Hn. unfold error_field. rewrite Hb.
  destruct body; try reflexivity. contradiction Hn; reflexivity.
Qed.

Example fetchAPI_unreadable_error_body (Number_toString : Q -> string) :
  fetchAPI Number_toString
    (Resolved {| status := 502;
                 json := Rejected {| name := "SyntaxError";
                                     message := "Unexpected token < in JSON" |} |})
  = Rejected (new_Error "Network error").
Proof. reflexivity. Qed.

Example fetchAPI_no_error_field (Number_toString : Q -> string) :
  fetchAPI Number_toString (Resolved {| status := 404; json := Resolved (JObject []) |})
  = Rejected (new_Error "HTTP error! status: 404").
Proof. reflexivity. Qed.

Example fetchAPI_null_error_body (Number_toString : Q -> string) :
  fetchAPI Number_toString (Resolved {| status := 500; json := Resolved JNull |})
  = Rejected {| name := "TypeError"; message := null_read_message |}.
Proof. reflexivity. Qed.

Example fetchAPI_created (Number_toString : Q -> string) :
  fetchAPI Number_toString
    (Resolved {| status := 201;
                 json := Resolved (JObject [("id", JString "A003")]) |})
  = Resolved (JObject [("id", JString "A003")]).
Proof. reflexivity. Qed.

(** A numeric [error] field is printed by the runtime's number
    printing, whatever that prints for it; a zero is falsy and gives
    the status text. *)
Example fetchAPI_numeric_error_field (Number_toString : Q -> string) :
  fetchAPI Number_toString
    (Resolved {| status := 503;
                 json := Resolved (JObject [("error", JNumber (3 # 2)%Q)]) |})
  = Rejected (new_Error (Number_toString (3 # 2)%Q))
  /\ fetchAPI Number_toString
       (Resolved {| status := 503;
                    json := Resolved (JObject [("error", JNumber 0%Q)]) |})
     = Rejected (new_Error "HTTP error! status: 503").
Proof. split; reflexivity. Qed.




(** ** C8: pregnancies due soon *)

Lemma days_nonnegative (diff : Z) :
  Qle_bool 0 (inject_Z diff / inject_Z ms_per_day) = (0 <=? diff)%Z.
Proof.
  apply Bool.eq_iff_eq_true. rewrite Qle_bool_iff, Z.leb_le.
  unfold Qle, Qdiv, Qmult, Qinv, inject_Z, ms_per_day; simpl. lia.
Qed.

Lemma days_at_most_14 (diff : Z) :
  Qle_bool (inject_Z diff / inject_Z ms_per_day) 14 = (diff <=? 1209600000)%Z.
Proof.
  apply Bool.eq_iff_eq_true. rewrite Qle_bool_iff, Z.leb_le.
  unfold Qle, Qdiv, Qmult, Qinv, inject_Z, ms_per_day; simpl. lia.
Qed.

Lemma filter_filter {A : Type} (f g : A -> bool) (l : list A) :
  filter g (filter f l) = filter (fun x => f x && g x) l.
Proof.
  induction l as [|a l IH]; simpl; [reflexivity|].
  destruct (f a); simpl; [destruct (g a)|]; rewrite IH; reflexivity.
Qed.

Section FilterClock.

Variable reads : BreedingRecord.t -> bool.
Variable callback : Z -> BreedingRecord.t -> bool.
Variable clock : Clock.

(** A filter that reads the clock keeps no more than the records for
    which the clock is read. *)
Lemma filter_clock_length (n : nat) (l : list BreedingRecord.t) :
  length (fst (filter_clock reads callback clock n l)) <= length (filter reads l).
Proof.
  revert n; induction l as [|a l IH]; intros n; simpl; [apply Nat.le_refl|].
  destruct (reads a); [|apply IH].
  specialize (IH (S n)).
  destruct (filter_clock reads callback clock (S n) l) as [kept next].
  destruct (callback (clock n) a); simpl in *; lia.
Qed.

(** With a clock that stands still it is a plain filter. *)
Lemma filter_clock_constant (now : Z) (n : nat) (l : list BreedingRecord.t) :
  (forall i, clock i = now) ->
  (forall x, reads x = false -> callback now x = false) ->
  fst (filter_clock reads callback clock n l) = filter (callback now) l.
Proof.
  intros Hc Hr. revert n; induction l as [|a l IH]; intros n; simpl; [reflexivity|].
  destruct (reads a) eqn:Ha.
  - specialize (IH (S n)).
    destruct (filter_clock reads callback clock (S n) l) as [kept next].
    rewrite Hc. simpl in *. rewrite IH. reflexivity.
  - rewrite (Hr a Ha). apply IH.
Qed.

End FilterClock.

Section DueSoon.

Variable Date_getTime : string -> option Z.
Hypothesis invalid_empty : Date_getTime EmptyString = None.





End DueSoon.

Section Memo.

Variable Date_getTime : string -> option Z.
Variable getMonth getFullYear : Z -> Z.








End Memo.




(** ** C10: display order *)

Section EditedLists.

Context {A : Type}.
Implicit Types (R D : A -> bool) (l m : list A).

Lemma Edited_refl R D l : Edited R D l l.
Proof. induction l; constructor; assumption. Qed.

Lemma Edited_weaken R D R' D' l m :
  (forall x, R x = true -> R' x = true) ->
  (forall x, D x = true -> D' x = true) ->
  Edited R D l m -> Edited R' D' l m.
Proof.
  intros HR HD H; induction H.
  - constructor.
  - apply Edited_keep; assumption.
  - apply Edited_replace; auto.
  - apply Edited_remove; auto.
Qed.

Lemma Edited_map_replace R D (u : A) l :
  Edited R D l (map (fun x => if R x then u else x) l).
Proof.
  induction l as [|a l IH]; simpl; [constructor|].
  destruct (R a) eqn:Ha.
  - apply Edited_replace; assumption.
  - apply Edited_keep; assumption.
Qed.

Lemma Edited_filter R D l : Edited R D l (filter (fun x => negb (D x)) l).
Proof.
  induction l as [|a l IH]; simpl; [constructor|].
  destruct (D a) eqn:Ha; simpl.
  - apply Edited_remove; assumption.
  - apply Edited_keep; assumption.
Qed.

(** An edit never lengthens a list, and keeps its length when nothing
    may be removed. *)
Lemma Edited_length R D l m : Edited R D l m -> (length m <= length l)%nat.
Proof. intros H; induction H; simpl; lia. Qed.

Lemma Edited_app_inv R D l1 l2 m :
  Edited R D (l1 ++ l2) m ->
  exists m1 m2, m = m1 ++ m2 /\ Edited R D l1 m1 /\ Edited R D l2 m2.
Proof.
  revert m; induction l1 as [|a l1 IH]; intros m H.
  - exists [], m. repeat split; [constructor | exact H].
  - simpl in H. inversion H as [| x l m' H' | x y l m' Hx H' | x l m' Hx H']; subst.
    + destruct (IH _ H') as (m1 & m2 & -> & H1 & H2).
      exists (a :: m1), m2. repeat split; [apply Edited_keep|]; assumption.
    + destruct (IH _ H') as (m1 & m2 & -> & H1 & H2).
      exists (y :: m1), m2. repeat split; [apply Edited_replace|]; assumption.
    + destruct (IH _ H') as (m1 & m2 & -> & H1 & H2).
      exists m1, m2. repeat split; [apply Edited_remove|]; assumption.
Qed.

(** Two edits in a row are one edit.  An entry is replaced by the two
    if one of them replaces it; it is removed by the two if one of them
    removes it, or the first replaces it by an entry the second
    removes. *)
Lemma Edited_trans R1 D1 R2 D2 R D l m n :
  (forall x, R1 x = true -> R x = true) ->
  (forall x, R2 x = true -> R x = true) ->
  (forall x, D1 x = true -> D x = true) ->
  (forall x, D2 x = true -> D x = true) ->
  (forall x y, R1 x = true -> D2 y = true -> D x = true) ->
  Edited R1 D1 l m -> Edited R2 D2 m n -> Edited R D l n.
Proof.
  intros HR1 HR2 HD1 HD2 HRD H; revert n;
    induction H as [| x l m H IH | x y l m Hx H IH | x l m Hx H IH]; intros n Hn.
  - inversion Hn; subst. constructor.
  - inversion Hn as [| ? ? n' Hn' | ? z ? n' Hz Hn' | ? ? n' Hz Hn']; subst.
    + apply Edited_keep, IH, Hn'.
    + apply Edited_replace; [apply HR2, Hz | apply IH, Hn'].
    + apply Edited_remove; [apply HD2, Hz | apply IH, Hn'].
  - inversion Hn as [| ? ? n' Hn' | ? z ? n' Hz Hn' | ? ? n' Hz Hn']; subst.
    + apply Edited_replace; [apply HR1, Hx | apply IH, Hn'].
    + apply Edited_replace; [apply HR1, Hx | apply IH, Hn'].
    + apply Edited_remove; [apply (HRD x y Hx Hz) | apply IH, Hn'].
  - apply Edited_remove; [apply HD1, Hx | apply IH, Hn].
Qed.

Lemma OrderKept_refl R D n l : OrderKept R D n l l.
Proof.
  exists l, []. repeat split; [apply Edited_refl | symmetry; apply app_nil_r | simpl; lia].
Qed.

Lemma OrderKept_append R D n l (e : A) : OrderKept R D (S n) l (l ++ [e]).
Proof. exists l, [e]. repeat split; [apply Edited_refl | simpl; lia]. Qed.

Lemma OrderKept_edited R D n l m : Edited R D l m -> OrderKept R D n l m.
Proof.
  intros H. exists m, []. repeat split; [exact H | symmetry; apply app_nil_r | simpl; lia].
Qed.

Lemma OrderKept_trans R1 D1 n1 R2 D2 n2 R D l l1 l2 :
  (forall x, R1 x = true -> R x = true) ->
  (forall x, R2 x = true -> R x = true) ->
  (forall x, D1 x = true -> D x = true) ->
  (forall x, D2 x = true -> D x = true) ->
  (forall x y, R1 x = true -> D2 y = true -> D x = true) ->
  OrderKept R1 D1 n1 l l1 -> OrderKept R2 D2 n2 l1 l2 ->
  OrderKept R D (n1 + n2) l l2.
Proof.
  intros HR1 HR2 HD1 HD2 HRD (m1 & tail1 & H1 & -> & Hn1) (m2 & tail2 & H2 & -> & Hn2).
  destruct (Edited_app_inv R2 D2 m1 tail1 m2 H2) as (ma & mb & -> & Ha & Hb).
  exists ma, (mb ++ tail2). repeat split.
  - apply (Edited_trans R1 D1 R2 D2 R D l m1 ma); assumption.
  - rewrite app_assoc; reflexivity.
  - rewrite length_app. pose proof (Edited_length _ _ _ _ Hb). lia.
Qed.

Lemma Subsequence_app_r (l m tail : list A) :
  Subsequence l m -> Subsequence l (m ++ tail).
Proof.
  intros H; induction H; simpl.
  - induction tail; constructor; assumption.
  - apply Subsequence_skip; assumption.
  - apply Subsequence_cons; assumption.
Qed.

(** What an order-preserving edit keeps: the entries it may neither
    replace nor remove are all still there, in the order they had. *)
Lemma Edited_untouched R D (T : A -> bool) l m :
  (forall x, R x = true -> T x = true) ->
  (forall x, D x = true -> T x = true) ->
  Edited R D l m -> Subsequence (filter (fun x => negb (T x)) l) m.
Proof.
  intros HR HD H; induction H as [| x l m H IH | x y l m Hx H IH | x l m Hx H IH]; simpl.
  - constructor.
  - destruct (T x); simpl.
    + apply Subsequence_skip; assumption.
    + apply Subsequence_cons; assumption.
  - rewrite (HR x Hx); simpl. apply Subsequence_skip; assumption.
  - rewrite (HD x Hx); simpl. assumption.
Qed.

(** An edit that may remove nothing keeps every entry at its index:
    the entry itself, or what replaced it. *)
Lemma Edited_index R D l m :
  (forall x, D x = false) ->
  Edited R D l m ->
  length m = length l
  /\ forall i x, nth_error l i = Some x ->
       exists y, nth_error m i = Some y /\ (y = x \/ R x = true).
Proof.
  intros HD H; induction H as [| x l m H [IHl IH] | x y l m Hx H [IHl IH] | x l m Hx H _].
  - split; [reflexivity|]. intros [|i] x Hi; discriminate.
  - split; [simpl; congruence|]. intros [|i] z Hi; simpl in *.
    + injection Hi as <-. exists x. split; [reflexivity | left; reflexivity].
    + apply IH, Hi.
  - split; [simpl; congruence|]. intros [|i] z Hi; simpl in *.
    + injection Hi as <-. exists y. split; [reflexivity | right; exact Hx].
    + apply IH, Hi.
  - rewrite HD in Hx; discriminate.
Qed.

End EditedLists.

(** The relation is strict.  Moving an entry to the tail is not such an
    edit, not even for an entry that may be replaced: with nothing
    removable and nothing appended, [2; 3; 1] is not an edit of
    [1; 2; 3]. *)
Example move_to_tail_is_not_an_edit :
  ~ OrderKept (fun x => Nat.eqb x 1) (fun _ => false) 0 [1; 2; 3] [2; 3; 1].
Proof.
  intros (m & tail & H & Heq & Hn).
  destruct tail as [|t tail]; [|simpl in Hn; lia].
  rewrite app_nil_r in Heq. subst m.
  inversion H as [| | x y l m Hx H' | x l m Hx H']; subst; [|discriminate Hx].
  inversion H' as [| | x y l m Hy H'' | x l m Hy H'']; subst; discriminate Hy.
Qed.

Lemma settings_operations_keep_items (op : Op) (backend : Backend) (w : World)
    (c : Collection) :
  (forall c' p, op <> Add c' p) ->
  (forall c' id p, op <> Update c' id p) ->
  (forall c' id, op <> Delete c' id) ->
  items c (store (fst (run_op op backend w))) = items c (store w).
Proof.
  destruct op as [c' p | c' id p | c' id | p | key value]; intros Ha Hu Hd;
    try solve [ exfalso; eapply Ha; reflexivity
              | exfalso; eapply Hu; reflexivity
              | exfalso; eapply Hd; reflexivity ].
  - cbn [run_op]. run_async. cbn [store sent console].
    destruct (backend _ (settings_update p)); destruct c; reflexivity.
  - cbn [run_op].
    destruct (backend _ (settings_update (toggle_body key value (store w))))
      as [answer|e] eqn:H; unfold toggle_body in H.
    + rewrite (updateNotificationPreference_resolved key value backend w answer H).
      destruct c; reflexivity.
    + rewrite (updateNotificationPreference_rejected key value backend w e H).
      destruct c; reflexivity.
Qed.

Ltac order_kept :=
  first
    [ apply OrderKept_refl
    | apply OrderKept_append
    | apply OrderKept_edited; first [apply Edited_map_replace | apply Edited_filter] ].

(** One operation, whether it resolves or rejects, edits each
    collection in an order-preserving way: an update replaces where
    they stand the entities [replaces] names and removes none, a delete
    removes the entities [removes] names and replaces none, an add
    appends one entry at the tail, and no operation does anything
    else. *)
Lemma operation_keeps_order (op : Op) (backend : Backend) (w : World) (c : Collection) :
  OrderKept (replaces op c) (removes op c) (appends op c)
            (items c (store w))
            (items c (store (fst (run_op op backend w)))).
Proof.
  destruct op as [c' p | c' id p | c' id | p | key value].
  - destruct (backend _ (create c' p)) as [e|err] eqn:H.
    + cbn [run_op]. rewrite (add_resolved c' p backend w e H).
      destruct c', c; cbn; order_kept.
    + rewrite (rejected_items_unchanged (Add c' p) backend w err c H). order_kept.
  - destruct (backend _ (update c' id p)) as [u|err] eqn:H.
    + cbn [run_op]. rewrite (update_resolved c' id p backend w u H).
      destruct c', c; cbn; order_kept.
    + rewrite (rejected_items_unchanged (Update c' id p) backend w err c H). order_kept.
  - destruct (backend _ (delete c' id)) as [msg|err] eqn:H.
    + cbn [run_op]. destruct c'.
      * cbn [delete_by_id]. rewrite (deleteAnimal_resolved id backend w msg H).
        destruct c; cbn; try order_kept.
        apply OrderKept_edited.
        rewrite (filter_ext
                   (fun record =>
                      negb (String.eqb (BreedingRecord.motherId record) id)
                      && negb (String.eqb (BreedingRecord.fatherId record) id))
                   (fun record =>
                      negb (String.eqb (BreedingRecord.motherId record) id
                            || String.eqb (BreedingRecord.fatherId record) id))).
        -- apply Edited_filter.
        -- intros b; rewrite negb_orb; reflexivity.
      * rewrite (delete_resolved HealthRecords id backend w msg ltac:(discriminate) H).
        destruct c; cbn; order_kept.
      * rewrite (delete_resolved FeedingTasks id backend w msg ltac:(discriminate) H).
        destruct c; cbn; order_kept.
      * rewrite (delete_resolved BreedingRecords id backend w msg ltac:(discriminate) H).
        destruct c; cbn; order_kept.
      * rewrite (delete_resolved Inventory id backend w msg ltac:(discriminate) H).
        destruct c; cbn; order_kept.
      * rewrite (delete_resolved Staff id backend w msg ltac:(discriminate) H).
        destruct c; cbn; order_kept.
    + rewrite (rejected_items_unchanged (Delete c' id) backend w err c H). order_kept.
  - rewrite settings_operations_keep_items by discriminate. order_kept.
  - rewrite settings_operations_keep_items by discriminate. order_kept.
Qed.

Lemma removes_reaches (op : Op) (c : Collection) (x : Entity c) :
  removes op c x = true -> reaches op c = true.
Proof.
  destruct op as [c' p | c' id p | c' id | p | key value]; try discriminate.
  destruct c', c; cbn; try discriminate; reflexivity.
Qed.

Lemma replaces_touches (session : list (Op * Backend)) (c : Collection) (x : Entity c) :
  session_replaces session c x = true -> session_touches session c x = true.
Proof.
  unfold session_replaces, session_touches.
  induction session as [|[op backend] rest IH]; simpl; [discriminate|].
  intros H. apply orb_true_iff in H. apply orb_true_iff. destruct H as [H|H].
  - left. unfold touches. rewrite H. reflexivity.
  - right. exact (IH H).
Qed.

(** The whole session as one order-preserving edit. *)
Lemma session_keeps_order (session : list (Op * Backend)) (w : World) (c : Collection) :
  OrderKept (session_replaces session c) (session_removes session c)
            (session_appends session c)
            (items c (store w)) (items c (store (run_session session w))).
Proof.
  revert w; induction session as [|[op backend] rest IH]; intros w.
  - apply OrderKept_refl.
  - cbn [run_session session_appends fst].
    apply (OrderKept_trans
             (replaces op c) (removes op c) (appends op c)
             (session_replaces rest c) (session_removes rest c) (session_appends rest c)
             _ _ _ (items c (store (fst (run_op op backend w)))));
      [ | | | | | apply operation_keeps_order | apply IH ].
    + intros x Hx. unfold session_replaces. cbn. rewrite Hx. reflexivity.
    + intros x Hx. unfold session_replaces in *. cbn. rewrite Hx. apply orb_true_r.
    + intros x Hx. unfold session_removes, session_deletes, session_touches, touches.
      cbn. rewrite (removes_reaches op c x Hx), Hx, orb_true_r. reflexivity.
    + intros x Hx. unfold session_removes, session_deletes, session_touches in *.
      cbn. apply andb_true_iff in Hx. destruct Hx as [H1 H2].
      rewrite H1, H2, !orb_true_r. reflexivity.
    + intros x y Hx Hy. unfold session_removes, session_deletes, session_touches, touches in *.
      cbn. apply andb_true_iff in Hy. destruct Hy as [H1 _].
      rewrite H1, Hx, orb_true_r. reflexivity.
Qed.

(** C10.  Whatever operations a session runs, with whatever outcomes,
    every collection at the end is the collection at the start edited
    in an order-preserving way, and no entry is ever moved:
    - an entry is replaced, where it stands, only if an update of the
      session addresses it; it leaves the collection only if the
      session runs a delete that filters the collection and addresses
      the entry (for the deletion of an animal: the records that refer
      to it); every other entry stands in the order it had; what is
      appended comes after all of them at the tail, at most one entry
      per add;
    - the entries the session does not address form a subsequence of
      the final collection;
    - in a session without such a delete (adds and updates only) every
      entry of the start keeps its index, holding the entry itself or,
      if an update addressed it, what replaced it, and the collection
      grows by at most the number of adds. *)
Theorem session_keeps_display_order (session : list (Op * Backend)) (w : World)
    (c : Collection) :
  let l := items c (store w) in
  let l' := items c (store (run_session session w)) in
  OrderKept (session_replaces session c) (session_removes session c)
            (session_appends session c) l l'
  /\ Subsequence (filter (fun x => negb (session_touches session c x)) l) l'
  /\ (session_deletes session c = false ->
        (length l <= length l' <= length l + session_appends session c)%nat
        /\ forall i x, nth_error l i = Some x ->
             exists y, nth_error l' i = Some y
                       /\ (y = x \/ session_replaces session c x = true)).
Proof.
  cbv zeta. pose proof (session_keeps_order session w c) as H.
  split; [exact H|]. split.
  - destruct H as (m & tail & H & -> & _).
    apply Subsequence_app_r.
    apply (Edited_untouched (session_replaces session c) (session_removes session c)).
    + apply replaces_touches.
    + intros x Hx. unfold session_removes in Hx. apply andb_true_iff in Hx. apply Hx.
    + exact H.
  - intros Hd. destruct H as (m & tail & H & -> & Hn).
    destruct (Edited_index (session_replaces session c) (session_removes session c)
                (items c (store w)) m) as [Hlen Hidx].
    + intros x. unfold session_removes. rewrite Hd. reflexivity.
    + exact H.
    + split; [rewrite length_app; lia|].
      intros i x Hi. destruct (Hidx i x Hi) as (y & Hy & Hor).
      exists y. split; [|exact Hor].
      rewrite nth_error_app1; [exact Hy|].
      apply nth_error_Some. rewrite Hy. discriminate.
Qed.

(** A session of the sample facility: an update of health record H001,
    the addition of an animal, and an update that is rejected.  The
    rescheduled check-up stands where the check-up stood. *)
Lemma session_keeps_display_order_witness :
  let session := [(Update HealthRecords "H001" Demo.reschedule, Demo.up);
                  (Add Animals Demo.milo_payload, Demo.up);
                  (Update HealthRecords "H002" Demo.reschedule, Demo.down)] in
  session_deletes session HealthRecords = false
  /\ healthRecords (store (run_session session Demo.world))
     = [Demo.checkup_rescheduled; Demo.vaccination]
  /\ animals (store (run_session session Demo.world))
     = [Demo.rex; Demo.bella; Demo.stored_animal "A003" Demo.milo_payload]
  /\ exists y, nth_error (healthRecords (store (run_session session Demo.world))) 0
               = Some y
               /\ (y = Demo.checkup
                   \/ session_replaces session HealthRecords Demo.checkup = true).
Proof.
  cbv zeta. split; [reflexivity|]. split; [reflexivity|]. split; [reflexivity|].
  exact (proj2 (proj2 (proj2
           (session_keeps_display_order
              [(Update HealthRecords "H001" Demo.reschedule, Demo.up);
               (Add Animals Demo.milo_payload, Demo.up);
               (Update HealthRecords "H002" Demo.reschedule, Demo.down)]
              Demo.world HealthRecords)) eq_refl) 0%nat Demo.checkup eq_refl).
Defined.

(* ================================================================== *)
(** * Further properties of the store *)
(* ================================================================== *)

(** ** One call per operation, one log entry per rejection *)

Lemma run_op_sent (op : Op) (backend : Backend) (w : World) :
  sent (fst (run_op op backend w)) = sent w ++ [request_of op (store w)].
Proof.
  destruct op as [c p | c id p | c id | p | key value].
  - destruct c; run_async; cbn;
      match goal with |- context [backend ?X ?call] => destruct (backend X call) end;
      reflexivity.
  - destruct c; run_async; cbn;
      match goal with |- context [backend ?X ?call] => destruct (backend X call) end;
      reflexivity.
  - destruct c; run_async; cbn;
      match goal with |- context [backend ?X ?call] => destruct (backend X call) end;
      reflexivity.
  - run_async; cbn;
      match goal with |- context [backend ?X ?call] => destruct (backend X call) end;
      reflexivity.
  - unfold request_of. fold (with_flag key value (settings_value (store w))).
    destruct (backend _ (settings_update
                (PartialSettings.whole (with_flag key value (settings_value (store w))))))
      as [v|err] eqn:H; cbn [run_op].
    + rewrite (updateNotificationPreference_resolved key value backend w v H). reflexivity.
    + rewrite (updateNotificationPreference_rejected key value backend w err H). reflexivity.
Qed.


(** Whatever its arguments and whatever the backend answers, an
    operation sends exactly one REST call, the one [request_of] names;
    it resolves when that call resolves and rethrows its error when it
    rejects; and it writes to [console.error] exactly then, once, with
    the label of its [catch] block and the error received. *)
Theorem operation_sends_one_call_and_logs_rejection (op : Op) (backend : Backend)
    (w : World) :
  let r := run_op op backend w in
  let k := request_of op (store w) in
  sent (fst r) = sent w ++ [k]
  /\ snd r = match rejection backend k with
             | None => Resolved tt
             | Some e => Rejected e
             end
  /\ console (fst r) = console w ++ match rejection backend k with
                                    | None => []
                                    | Some e => [(console_label op, e)]
                                    end.
Proof.
  cbv zeta.
  destruct op as [c p | c id p | c id | p | key value].
  - unfold rejection, request_of.
    destruct (backend _ (create c p)) as [e|err] eqn:H.
    + cbn [run_op]. rewrite (add_resolved c p backend w e H). cbn [fst snd sent console].
      rewrite app_nil_r. repeat split.
    + destruct c; run_async; cbn in *; rewrite H; repeat split.
  - unfold rejection, request_of.
    destruct (backend _ (update c id p)) as [u|err] eqn:H.
    + cbn [run_op]. rewrite (update_resolved c id p backend w u H).
      cbn [fst snd sent console]. rewrite app_nil_r. repeat split.
    + destruct c; run_async; cbn in *; rewrite H; repeat split.
  - unfold rejection, request_of.
    destruct (backend _ (delete c id)) as [msg|err] eqn:H.
    + destruct c; run_async; cbn in *; rewrite H; cbn; rewrite app_nil_r; repeat split.
    + destruct c; run_async; cbn in *; rewrite H; repeat split.
  - unfold rejection, request_of.
    destruct (backend _ (settings_update p)) as [v|err] eqn:H;
      run_async; cbn in *; rewrite H; cbn; rewrite ?app_nil_r; repeat split.
  - unfold rejection, request_of. fold (with_flag key value (settings_value (store w))).
    destruct (backend _ (settings_update
                (PartialSettings.whole (with_flag key value (settings_value (store w))))))
      as [v|err] eqn:H; cbn [run_op].
    + rewrite (updateNotificationPreference_resolved key value backend w v H).
      cbn. rewrite app_nil_r. repeat split.
    + rewrite (updateNotificationPreference_rejected key value backend w err H).
      repeat split.
Qed.

(** ** Rejection *)

(** Every operation other than the preference toggle, when its REST
    call is rejected, rethrows the error it received and leaves the
    whole store (collections, settings, nested preferences, filters,
    loading flag) exactly as it was. *)
Theorem rejection_leaves_store_untouched (op : Op) (backend : Backend) (w : World)
    (e : Error) :
  (forall key value, op <> UpdateNotificationPreference key value) ->
  rejects backend (request_of op (store w)) e ->
  snd (run_op op backend w) = Rejected e
  /\ store (fst (run_op op backend w)) = store w.
Proof.
  intros Hop H. split.
  - apply rejected_propagates; exact H.
  - apply (rejected_store_unchanged op backend w e Hop H).
Qed.

Lemma rejection_leaves_store_untouched_witness :
  (forall key value,
     Add Animals Demo.milo_payload <> UpdateNotificationPreference key value)
  /\ rejects Demo.down (request_of (Add Animals Demo.milo_payload) (store Demo.world))
             Demo.unavailable
  /\ snd (addAnimal Demo.milo_payload Demo.down Demo.world) = Rejected Demo.unavailable
  /\ store (fst (addAnimal Demo.milo_payload Demo.down Demo.world)) = Demo.facility.
Proof.
  assert (Hop : forall key value,
            Add Animals Demo.milo_payload <> UpdateNotificationPreference key value)
    by (intros key value; discriminate).
  split; [exact Hop|]. split; [reflexivity|].
  exact (rejection_leaves_store_untouched (Add Animals Demo.milo_payload) Demo.down
           Demo.world Demo.unavailable Hop eq_refl).
Defined.

(** ** Delete *)

Lemma with_items_with_items (c : Collection) (l l' : list (Entity c)) (s : Store) :
  with_items c l (with_items c l' s) = with_items c l s.
Proof. destruct c; reflexivity. Qed.

Ltac rewrite_delete_resolved H :=
  progress repeat match goal with
  | |- context [delete_by_id ?c ?id ?backend ?w] =>
      match type of H with
      | _ = Resolved ?msg =>
          rewrite (delete_resolved c id backend w msg ltac:(discriminate) H)
      end
  end.

Lemma delete_items (c : Collection) (id : string) (backend : Backend) (w : World)
    (msg : Message) :
  backend _ (delete c id) = Resolved msg ->
  items c (store (fst (delete_by_id c id backend w)))
  = filter (fun x => negb (String.eqb (entity_id c x) id)) (items c (store w)).
Proof.
  intros H. destruct c; try (rewrite_delete_resolved H; reflexivity).
  cbn [delete_by_id]. rewrite (deleteAnimal_resolved id backend w msg H). reflexivity.
Qed.

Lemma find_filter_negb {A : Type} (T : A -> bool) (l : list A) :
  find T (filter (fun x => negb (T x)) l) = None.
Proof.
  induction l as [|a l IH]; simpl; [reflexivity|].
  destruct (T a) eqn:Ha; simpl; [exact IH|]. rewrite Ha. exact IH.
Qed.

Lemma filter_all {A : Type} (f : A -> bool) (l : list A) :
  (forall x, In x l -> f x = true) -> filter f l = l.
Proof.
  induction l as [|a l IH]; intros H; simpl; [reflexivity|].
  rewrite (H a (or_introl eq_refl)), IH; [reflexivity|].
  intros x Hx; apply H; right; exact Hx.
Qed.

(** After a successful delete on any collection, looking the id up in
    that collection finds nothing: every entity carrying the id is
    gone (all of them, should several share it), and every entity with
    another id is still there.  Outside the animals the delete does not
    cascade: the other five collections are unchanged.  The settings
    are unchanged in every case. *)
Theorem delete_leaves_no_entity_with_id (c : Collection) (id : string)
    (backend : Backend) (w : World) (msg : Message) :
  backend _ (delete c id) = Resolved msg ->
  let s' := store (fst (delete_by_id c id backend w)) in
  find_by_id c id (items c s') = None
  /\ (forall x, In x (items c s') <-> In x (items c (store w)) /\ entity_id c x <> id)
  /\ (c <> Animals -> forall c', c' <> c -> items c' s' = items c' (store w))
  /\ settings_value s' = settings_value (store w).
Proof.
  intros H; cbv zeta. rewrite (delete_items c id backend w msg H).
  repeat match goal with |- _ /\ _ => split end.
  - apply (find_filter_negb (fun x => String.eqb (entity_id c x) id)).
  - intros x. rewrite filter_In, negb_true_iff, String.eqb_neq. reflexivity.
  - intros Hc c' Hc'. rewrite (delete_resolved c id backend w msg Hc H).
    apply items_with_items_other; exact Hc'.
  - destruct c; try (rewrite_delete_resolved H; reflexivity).
    cbn [delete_by_id]. rewrite (deleteAnimal_resolved id backend w msg H). reflexivity.
Qed.

Lemma delete_leaves_no_entity_with_id_witness :
  Demo.up _ (delete HealthRecords "H001") = Resolved Demo.deleted
  /\ find_by_id HealthRecords "H001"
       (healthRecords (store (fst (deleteHealthRecord "H001" Demo.up Demo.world)))) = None.
Proof.
  split; [reflexivity|].
  exact (proj1 (delete_leaves_no_entity_with_id HealthRecords "H001" Demo.up Demo.world
                  Demo.deleted eq_refl)).
Defined.

(** Deleting the same id a second time, again successfully, changes
    nothing more: the store after the second delete is the store after
    the first.  This holds for the animal cascade as well. *)
Theorem delete_twice_is_delete_once (c : Collection) (id : string)
    (backend : Backend) (w : World) (msg : Message) :
  backend _ (delete c id) = Resolved msg ->
  let w1 := fst (delete_by_id c id backend w) in
  store (fst (delete_by_id c id backend w1)) = store w1.
Proof.
  intros H; cbv zeta.
  assert (Hf : forall (A : Type) (f : A -> bool) (l : list A),
             filter f (filter f l) = filter f l).
  { intros A f l. rewrite filter_filter. apply filter_ext.
    intros x; destruct (f x); reflexivity. }
  destruct c;
    try (rewrite_delete_resolved H;
         cbn [fst store]; destruct (store w); cbn; rewrite Hf; reflexivity).
  cbn [delete_by_id]. rewrite !(deleteAnimal_resolved id backend _ msg H).
  cbn [fst store]. destruct (store w); cbn. rewrite !Hf. reflexivity.
Qed.

Lemma delete_twice_is_delete_once_witness :
  Demo.up _ (delete Animals "A001") = Resolved Demo.deleted
  /\ store (fst (deleteAnimal "A001" Demo.up (fst (deleteAnimal "A001" Demo.up Demo.world))))
     = store (fst (deleteAnimal "A001" Demo.up Demo.world)).
Proof.
  split; [reflexivity|].
  exact (delete_twice_is_delete_once Animals "A001" Demo.up Demo.world Demo.deleted eq_refl).
Defined.

(** ** Add followed by delete *)

(** Adding an entity and then deleting the id the server gave it, both
    successfully, restores the collection, provided that id was not in
    use in the collection before; outside the animals it restores the
    whole store. *)
Theorem add_then_delete_restores (c : Collection) (payload : CreateInput c)
    (e : Entity c) (msg : Message) (backend1 backend2 : Backend) (w : World) :
  backend1 _ (create c payload) = Resolved e ->
  backend2 _ (delete c (entity_id c e)) = Resolved msg ->
  (forall x, In x (items c (store w)) -> entity_id c x <> entity_id c e) ->
  let w1 := fst (add c payload backend1 w) in
  let w2 := fst (delete_by_id c (entity_id c e) backend2 w1) in
  items c (store w2) = items c (store w)
  /\ (c <> Animals -> store w2 = store w).
Proof.
  intros H1 H2 Hfresh; cbv zeta.
  assert (Hl : filter (fun x => negb (String.eqb (entity_id c x) (entity_id c e)))
                      (items c (store w) ++ [e]) = items c (store w)).
  { rewrite filter_app. cbn [filter]. rewrite String.eqb_refl. cbn [negb].
    rewrite app_nil_r. apply filter_all.
    intros x Hx. apply negb_true_iff, String.eqb_neq, Hfresh, Hx. }
  split.
  - rewrite (delete_items c _ backend2 _ msg H2).
    rewrite (add_resolved c payload backend1 w e H1). cbn [fst store].
    rewrite items_with_items_same. exact Hl.
  - intros Hc. rewrite (delete_resolved c _ backend2 _ msg Hc H2).
    rewrite (add_resolved c payload backend1 w e H1). cbn [fst store].
    rewrite items_with_items_same, Hl, with_items_with_items.
    apply with_items_items.
Qed.

Lemma add_then_delete_restores_witness :
  Demo.up _ (create Animals Demo.milo_payload)
    = Resolved (Demo.stored_animal "A003" Demo.milo_payload)
  /\ Demo.up _ (delete Animals "A003") = Resolved Demo.deleted
  /\ (forall x, In x (items Animals (store Demo.world)) ->
        entity_id Animals x <> "A003")
  /\ animals (store (fst (deleteAnimal "A003" Demo.up
                            (fst (addAnimal Demo.milo_payload Demo.up Demo.world)))))
     = [Demo.rex; Demo.bella].
Proof.
  assert (Hfresh : forall x, In x (items Animals (store Demo.world)) ->
                     entity_id Animals x <> "A003").
  { intros x [<- | [<- | []]]; discriminate. }
  split; [reflexivity|]. split; [reflexivity|]. split; [exact Hfresh|].
  exact (proj1 (add_then_delete_restores Animals Demo.milo_payload
                  (Demo.stored_animal "A003" Demo.milo_payload) Demo.deleted
                  Demo.up Demo.up Demo.world eq_refl eq_refl Hfresh)).
Defined.

(** ** Update *)

(** Running the same update again, answered with the same entity,
    changes nothing more: the store after the second update is the
    store after the first. *)
Theorem update_twice_is_update_once (c : Collection) (id : string)
    (payload : UpdateInput c) (backend : Backend) (w : World) (u : Entity c) :
  backend _ (update c id payload) = Resolved u ->
  let w1 := fst (update_by_id c id payload backend w) in
  store (fst (update_by_id c id payload backend w1)) = store w1.
Proof.
  intros H; cbv zeta.
  rewrite !(update_resolved c id payload backend _ u H). cbn [fst store].
  rewrite items_with_items_same, with_items_with_items, map_map.
  f_equal. apply map_ext. intros x.
  destruct (String.eqb (entity_id c x) id) eqn:Hx.
  - destruct (String.eqb (entity_id c u) id); reflexivity.
  - rewrite Hx. reflexivity.
Qed.

Lemma update_twice_is_update_once_witness :
  Demo.up _ (update Inventory "I001" Demo.restock) = Resolved Demo.kibble_low
  /\ store (fst (updateInventoryItem "I001" Demo.restock Demo.up
                   (fst (updateInventoryItem "I001" Demo.restock Demo.up Demo.world))))
     = store (fst (updateInventoryItem "I001" Demo.restock Demo.up Demo.world)).
Proof.
  split; [reflexivity|].
  exact (update_twice_is_update_once Inventory "I001" Demo.restock Demo.up Demo.world
           Demo.kibble_low eq_refl).
Defined.

Lemma find_map_replace_other {A : Type} (T : A -> bool) (u : A) (l : list A) :
  T u = false -> find T (map (fun x => if T x then u else x) l) = None.
Proof.
  intros Hu. induction l as [|a l IH]; simpl; [reflexivity|].
  destruct (T a) eqn:Ha.
  - rewrite Hu. exact IH.
  - rewrite Ha. exact IH.
Qed.

(** The store does not check that the entity the server returns
    carries the id that was asked for.  If it carries another one, then
    after the update no entity of the collection has the requested id
    any more: each one that had it now is the returned entity. *)
Theorem update_answer_with_other_id_loses_the_id (c : Collection) (id : string)
    (payload : UpdateInput c) (backend : Backend) (w : World) (u : Entity c) :
  backend _ (update c id payload) = Resolved u ->
  entity_id c u <> id ->
  let s' := store (fst (update_by_id c id payload backend w)) in
  find_by_id c id (items c s') = None
  /\ (forall x, In x (items c s') -> entity_id c x <> id)
  /\ ((exists x, In x (items c (store w)) /\ entity_id c x = id) -> In u (items c s')).
Proof.
  intros H Hu; cbv zeta.
  rewrite (update_resolved c id payload backend w u H). cbn [fst store].
  rewrite items_with_items_same.
  repeat match goal with |- _ /\ _ => split end.
  - apply (find_map_replace_other (fun x => String.eqb (entity_id c x) id)).
    apply String.eqb_neq; exact Hu.
  - intros x Hx. apply in_map_iff in Hx. destruct Hx as (y & Hy & _).
    destruct (String.eqb (entity_id c y) id) eqn:Hyid.
    + subst x; exact Hu.
    + subst x. apply String.eqb_neq; exact Hyid.
  - intros (x & Hx & Hid). apply in_map_iff. exists x. split; [|exact Hx].
    apply String.eqb_eq in Hid. rewrite Hid. reflexivity.
Qed.

Lemma update_answer_with_other_id_loses_the_id_witness :
  let s' := store (fst (update_by_id HealthRecords "H002" Demo.reschedule
                          Demo.up Demo.world)) in
  Demo.up _ (update HealthRecords "H002" Demo.reschedule)
  = Resolved Demo.checkup_rescheduled
  /\ entity_id HealthRecords Demo.checkup_rescheduled <> "H002"
  /\ find_by_id HealthRecords "H002" (healthRecords (store Demo.world))
     = Some Demo.vaccination
  /\ find_by_id HealthRecords "H002" (healthRecords s') = None
  /\ healthRecords s' = [Demo.checkup; Demo.checkup_rescheduled]
  /\ In Demo.checkup_rescheduled (healthRecords s').
Proof.
  assert (Hu : entity_id HealthRecords Demo.checkup_rescheduled <> "H002")
    by discriminate.
  pose proof (update_answer_with_other_id_loses_the_id HealthRecords "H002"
                Demo.reschedule Demo.up Demo.world Demo.checkup_rescheduled
                eq_refl Hu) as (Hnone & _ & Hin).
  cbv zeta.
  split; [reflexivity|]. split; [exact Hu|]. split; [reflexivity|].
  split; [exact Hnone|]. split; [reflexivity|].
  apply Hin. exists Demo.vaccination. split; [right; left; reflexivity | reflexivity].
Defined.

(** ** Frames *)

(** An add, update or delete on a collection never touches the
    settings record, the nested preferences, the report filters or the
    loading flag, whether its call resolves or rejects. *)
Theorem collection_operations_leave_settings (op : Op) (backend : Backend) (w : World) :
  let s := store w in
  let s' := store (fst (run_op op backend w)) in
  match op with
  | Add _ _ | Update _ _ _ | Delete _ _ =>
      settings s' = settings s /\ heap s' = heap s
      /\ reportFilters s' = reportFilters s /\ loading s' = loading s
  | UpdateSettings _ | UpdateNotificationPreference _ _ => True
  end.
Proof.
  cbv zeta. destruct op as [c p | c id p | c id | p | key value]; try exact I.
  - destruct (backend _ (create c p)) as [e|err] eqn:H.
    + cbn [run_op]. rewrite (add_resolved c p backend w e H). apply settings_with_items.
    + rewrite (rejected_store_unchanged (Add c p) backend w err
                 ltac:(intros; discriminate) H). repeat split.
  - destruct (backend _ (update c id p)) as [u|err] eqn:H.
    + cbn [run_op]. rewrite (update_resolved c id p backend w u H).
      apply settings_with_items.
    + rewrite (rejected_store_unchanged (Update c id p) backend w err
                 ltac:(intros; discriminate) H). repeat split.
  - destruct (backend _ (delete c id)) as [msg|err] eqn:H.
    + cbn [run_op]. destruct c; try (rewrite_delete_resolved H; repeat split).
      cbn [delete_by_id]. rewrite (deleteAnimal_resolved id backend w msg H).
      repeat split.
    + rewrite (rejected_store_unchanged (Delete c id) backend w err
                 ltac:(intros; discriminate) H). repeat split.
Qed.

(** Only an add can grow a collection, and by one entry at most: an
    update keeps the length of every collection, a delete never
    increases it, and the settings operations keep it. *)
Theorem only_add_grows_a_collection (op : Op) (backend : Backend) (w : World)
    (c : Collection) :
  let n := length (items c (store w)) in
  let n' := length (items c (store (fst (run_op op backend w)))) in
  match op with
  | Add _ _ => n <= n' <= S n
  | Delete _ _ => n' <= n
  | Update _ _ _ | UpdateSettings _ | UpdateNotificationPreference _ _ => n' = n
  end.
Proof.
  cbv zeta. destruct op as [c' p | c' id p | c' id | p | key value].
  - destruct (backend _ (create c' p)) as [e|err] eqn:H.
    + cbn [run_op]. rewrite (add_resolved c' p backend w e H). cbn [fst store].
      destruct c', c; cbn; rewrite ?length_app; cbn; lia.
    + rewrite (rejected_items_unchanged (Add c' p) backend w err c H). lia.
  - destruct (backend _ (update c' id p)) as [u|err] eqn:H.
    + cbn [run_op]. rewrite (update_resolved c' id p backend w u H). cbn [fst store].
      destruct c', c; cbn; rewrite ?length_map; reflexivity.
    + rewrite (rejected_items_unchanged (Update c' id p) backend w err c H). reflexivity.
  - destruct (backend _ (delete c' id)) as [msg|err] eqn:H.
    + cbn [run_op]. destruct c'.
      * cbn [delete_by_id]. rewrite (deleteAnimal_resolved id backend w msg H).
        destruct c; cbn; try apply filter_length_le; apply Nat.le_refl.
      * rewrite_delete_resolved H. destruct c; cbn;
          try apply filter_length_le; apply Nat.le_refl.
      * rewrite_delete_resolved H. destruct c; cbn;
          try apply filter_length_le; apply Nat.le_refl.
      * rewrite_delete_resolved H. destruct c; cbn;
          try apply filter_length_le; apply Nat.le_refl.
      * rewrite_delete_resolved H. destruct c; cbn;
          try apply filter_length_le; apply Nat.le_refl.
      * rewrite_delete_resolved H. destruct c; cbn;
          try apply filter_length_le; apply Nat.le_refl.
    + rewrite (rejected_items_unchanged (Delete c' id) backend w err c H).
      apply Nat.le_refl.
  - rewrite settings_operations_keep_items by discriminate. reflexivity.
  - rewrite settings_operations_keep_items by discriminate. reflexivity.
Qed.

(** ** The initial load, from any state *)

(** [loadData] cannot fail and never logs: started in any world and
    against any backend it resolves, sends its seven calls, writes
    nothing to [console.error] (its [catch] block is never reached,
    each call having its own fallback), and ends with the loading flag
    off.  A list call that rejects empties its collection even if the
    collection was populated, whereas a rejected settings call leaves
    the settings as they were. *)
Theorem loadData_never_rejects_nor_logs (backend : Backend) (w : World) :
  let r := loadData backend w in
  snd r = Resolved tt
  /\ console (fst r) = console w
  /\ sent (fst r) = sent w ++ load_calls
  /\ loading (store (fst r)) = false
  /\ reportFilters (store (fst r)) = reportFilters (store w)
  /\ (forall c, items c (store (fst r)) = loaded (backend _ (getAll c)))
  /\ (forall e, backend _ settings_get = Rejected e ->
        settings_value (store (fst r)) = settings_value (store w)).
Proof.
  cbv zeta. unfold loadData, loaded, load_calls. run_async. cbn [store sent console].
  destruct (backend _ (getAll Animals)) eqn:Ha,
    (backend _ (getAll HealthRecords)) eqn:Hh,
    (backend _ (getAll FeedingTasks)) eqn:Hf,
    (backend _ (getAll BreedingRecords)) eqn:Hb,
    (backend _ (getAll Inventory)) eqn:Hi,
    (backend _ (getAll Staff)) eqn:Hs,
    (backend _ settings_get) eqn:Hset;
    cbn; rewrite <- !app_assoc; cbn;
    (repeat match goal with |- _ /\ _ => split end);
    try reflexivity;
    try (intros c; destruct c; cbn in *;
         first [rewrite Ha | rewrite Hh | rewrite Hf | rewrite Hb | rewrite Hi | rewrite Hs];
         reflexivity);
    try (intros e He; discriminate He);
    try (intros e He; reflexivity).
Qed.

(** ** The preference toggle, composed *)

Lemma toggle_installs_answer (key : NotificationPreferences.key) (value : bool)
    (backend : Backend) (w : World) (answer : SettingsValue) :
  backend _ (settings_update (toggle_body key value (store w))) = Resolved answer ->
  settings_value (store (fst (updateNotificationPreference key value backend w))) = answer.
Proof.
  intros H. unfold toggle_body in H.
  rewrite (updateNotificationPreference_resolved key value backend w answer H).
  cbn [fst store]. unfold settings_value.
  cbn [settings heap with_settings with_heap
       FacilitySettings.notificationPreferences FacilitySettings.with_preferences].
  rewrite read_alloc_new. destruct answer; reflexivity.
Qed.

Lemma set_back (k : NotificationPreferences.key) (v : bool)
    (p : NotificationPreferences.t) :
  NotificationPreferences.set k (NotificationPreferences.get k p)
    (NotificationPreferences.set k v p) = p.
Proof. destruct k, p; reflexivity. Qed.

(** Toggling a flag and then toggling it back to the value it had, the
    backend performing both updates, restores the settings exactly. *)
Theorem toggle_and_back_restores_settings (key : NotificationPreferences.key)
    (value : bool) (backend1 backend2 : Backend) (stored1 stored2 : SettingsValue)
    (w : World) :
  backend1 _ (settings_update (toggle_body key value (store w)))
    = Resolved (put_settings stored1 (toggle_body key value (store w))) ->
  backend2 _ (settings_update
                (toggle_body key
                   (NotificationPreferences.get key
                      (FacilitySettings.notificationPreferences (settings_value (store w))))
                   (store (fst (updateNotificationPreference key value backend1 w)))))
    = Resolved
        (put_settings stored2
           (toggle_body key
              (NotificationPreferences.get key
                 (FacilitySettings.notificationPreferences (settings_value (store w))))
              (store (fst (updateNotificationPreference key value backend1 w))))) ->
  settings_value
    (store (fst (updateNotificationPreference key
                   (NotificationPreferences.get key
                      (FacilitySettings.notificationPreferences (settings_value (store w))))
                   backend2
                   (fst (updateNotificationPreference key value backend1 w)))))
  = settings_value (store w).
Proof.
  intros H1 H2.
  rewrite (toggle_installs_answer _ _ _ _ _ H2).
  unfold toggle_body at 1. rewrite put_settings_whole.
  rewrite (toggle_installs_answer _ _ _ _ _ H1).
  unfold toggle_body. rewrite put_settings_whole.
  unfold with_flag, settings_value.
  cbn [FacilitySettings.notificationPreferences FacilitySettings.with_preferences
       FacilitySettings.facilityName FacilitySettings.registrationNumber
       FacilitySettings.address FacilitySettings.phone FacilitySettings.email
       FacilitySettings.operatingHours FacilitySettings.lastBackup].
  rewrite set_back. reflexivity.
Qed.

Lemma toggle_and_back_restores_settings_witness :
  settings_value
    (store (fst (updateNotificationPreference NotificationPreferences.EmailSummary false
                   Demo.up
                   (fst (updateNotificationPreference NotificationPreferences.EmailSummary
                           true Demo.up Demo.world)))))
  = settings_value (store Demo.world).
Proof.
  exact (toggle_and_back_restores_settings NotificationPreferences.EmailSummary true
           Demo.up Demo.up
           (defaultSettings defaultPreferences "2025-12-24T09:30:00.000Z")
           (defaultSettings defaultPreferences "2025-12-24T09:30:00.000Z")
           Demo.world eq_refl eq_refl).
Defined.

(** A flag change whose call was rejected is not lost: it stays in the
    settings state, so the next toggle of another flag sends it to the
    backend inside the whole settings body, and once that call succeeds
    the store shows the rejected change as saved. *)
Theorem rejected_toggle_is_sent_by_the_next_toggle
    (key key' : NotificationPreferences.key) (value value' : bool)
    (backend1 backend2 : Backend) (e : Error) (stored : SettingsValue) (w : World) :
  key' <> key ->
  rejects backend1 (request_of (UpdateNotificationPreference key value) (store w)) e ->
  backend2 _ (settings_update
                (toggle_body key' value'
                   (store (fst (updateNotificationPreference key value backend1 w)))))
    = Resolved
        (put_settings stored
           (toggle_body key' value'
              (store (fst (updateNotificationPreference key value backend1 w))))) ->
  let w1 := fst (updateNotificationPreference key value backend1 w) in
  let w2 := fst (updateNotificationPreference key' value' backend2 w1) in
  toggle_body key' value' (store w1)
  = PartialSettings.whole
      (with_flag key' value' (with_flag key value (settings_value (store w))))
  /\ NotificationPreferences.get key
       (FacilitySettings.notificationPreferences (settings_value (store w2))) = value.
Proof.
  intros Hk H1 H2; cbv zeta.
  rewrite (toggle_installs_answer _ _ _ _ _ H2).
  unfold toggle_body. rewrite put_settings_whole.
  rewrite (rejected_toggle_settings key value backend1 w e H1).
  split; [reflexivity|].
  unfold with_flag; cbn [FacilitySettings.notificationPreferences
                         FacilitySettings.with_preferences].
  rewrite get_set_other by (intros Heq; apply Hk; symmetry; exact Heq).
  apply get_set_same.
Qed.

Lemma rejected_toggle_is_sent_by_the_next_toggle_witness :
  NotificationPreferences.EmailSummary <> NotificationPreferences.LowStockAlerts
  /\ NotificationPreferences.lowStockAlerts
       (FacilitySettings.notificationPreferences
          (settings_value
             (store (fst (updateNotificationPreference
                            NotificationPreferences.EmailSummary true Demo.up
                            (fst (updateNotificationPreference
                                    NotificationPreferences.LowStockAlerts false
                                    Demo.down Demo.world)))))))
     = false.
Proof.
  assert (Hk : NotificationPreferences.EmailSummary <> NotificationPreferences.LowStockAlerts)
    by discriminate.
  split; [exact Hk|].
  exact (proj2 (rejected_toggle_is_sent_by_the_next_toggle
                  NotificationPreferences.LowStockAlerts NotificationPreferences.EmailSummary
                  false true Demo.down Demo.up Demo.unavailable
                  (defaultSettings defaultPreferences "2025-12-24T09:30:00.000Z")
                  Demo.world Hk eq_refl eq_refl)).
Defined.

(** ** References between collections *)

Lemma has_animal_filter (l : list Animal.t) (i id : string) :
  has_animal l i = true -> i <> id ->
  has_animal (filter (fun a => negb (String.eqb (Animal.id a) id)) l) i = true.
Proof.
  unfold has_animal. intros H Hne.
  apply existsb_exists in H. destruct H as (a & Ha & Hid).
  apply existsb_exists. exists a. split; [|exact Hid].
  apply filter_In. split; [exact Ha|].
  apply negb_true_iff, String.eqb_neq. apply String.eqb_eq in Hid. congruence.
Qed.

Lemma forallb_filter {A : Type} (f g : A -> bool) (l : list A) :
  forallb f l = true -> forallb f (filter g l) = true.
Proof.
  intros H. apply forallb_forall. intros x Hx.
  apply filter_In in Hx. destruct Hx as [Hx _].
  exact (proj1 (forallb_forall f l) H x Hx).
Qed.

(** The cascade does its job: if every [animalId], [motherId] and
    [fatherId] in the store is the id of a stored animal, this is still
    so after a delete on any collection, the deletion of an animal
    included, whether the call resolves or rejects. *)
Theorem delete_keeps_references_resolved (c : Collection) (id : string)
    (backend : Backend) (w : World) :
  references_resolve (store w) = true ->
  references_resolve (store (fst (delete_by_id c id backend w))) = true.
Proof.
  intros Hok.
  destruct (backend _ (delete c id)) as [msg|err] eqn:H.
  - destruct c.
    + cbn [delete_by_id]. rewrite (deleteAnimal_resolved id backend w msg H).
      cbn [fst store]. destruct (store w) as [an he fe br inv st se rf lo hp].
      unfold references_resolve in *. cbn in *.
      apply andb_true_iff in Hok. destruct Hok as [Hok Hbr].
      apply andb_true_iff in Hok. destruct Hok as [Hhe Hfe].
      rewrite !andb_true_iff. repeat split.
      * apply forallb_forall. intros h Hh. apply filter_In in Hh.
        destruct Hh as [Hh Hne]. apply negb_true_iff, String.eqb_neq in Hne.
        apply has_animal_filter; [|exact Hne].
        exact (proj1 (forallb_forall _ _) Hhe h Hh).
      * apply forallb_forall. intros t Ht. apply filter_In in Ht.
        destruct Ht as [Ht Hne]. apply negb_true_iff, String.eqb_neq in Hne.
        apply has_animal_filter; [|exact Hne].
        exact (proj1 (forallb_forall _ _) Hfe t Ht).
      * apply forallb_forall. intros b Hb. apply filter_In in Hb.
        destruct Hb as [Hb Hne]. apply andb_true_iff in Hne.
        destruct Hne as [Hm Hf]. apply negb_true_iff, String.eqb_neq in Hm, Hf.
        pose proof (proj1 (forallb_forall _ _) Hbr b Hb) as Hmf.
        apply andb_true_iff in Hmf. destruct Hmf as [Hbm Hbf].
        apply andb_true_iff. split; apply has_animal_filter; assumption.
    + rewrite_delete_resolved H. cbn [fst store].
      destruct (store w) as [an he fe br inv st se rf lo hp].
      unfold references_resolve in *. cbn in *.
      apply andb_true_iff in Hok. destruct Hok as [Hok Hbr].
      apply andb_true_iff in Hok. destruct Hok as [Hhe Hfe].
      rewrite Hfe, Hbr, forallb_filter by exact Hhe. reflexivity.
    + rewrite_delete_resolved H. cbn [fst store].
      destruct (store w) as [an he fe br inv st se rf lo hp].
      unfold references_resolve in *. cbn in *.
      apply andb_true_iff in Hok. destruct Hok as [Hok Hbr].
      apply andb_true_iff in Hok. destruct Hok as [Hhe Hfe].
      rewrite Hhe, Hbr, forallb_filter by exact Hfe. reflexivity.
    + rewrite_delete_resolved H. cbn [fst store].
      destruct (store w) as [an he fe br inv st se rf lo hp].
      unfold references_resolve in *. cbn in *.
      apply andb_true_iff in Hok. destruct Hok as [Hok Hbr].
      apply andb_true_iff in Hok. destruct Hok as [Hhe Hfe].
      rewrite Hhe, Hfe, forallb_filter by exact Hbr. reflexivity.
    + rewrite_delete_resolved H. cbn [fst store].
      destruct (store w) as [an he fe br inv st se rf lo hp]. exact Hok.
    + rewrite_delete_resolved H. cbn [fst store].
      destruct (store w) as [an he fe br inv st se rf lo hp]. exact Hok.
  - change (delete_by_id c id backend w) with (run_op (Delete c id) backend w).
    rewrite (rejected_store_unchanged (Delete c id) backend w err
               ltac:(intros; discriminate) H). exact Hok.
Qed.

Lemma delete_keeps_references_resolved_witness :
  references_resolve (store Demo.world) = true
  /\ references_resolve (store (fst (deleteAnimal "A001" Demo.up Demo.world))) = true.
Proof.
  split; [reflexivity|].
  exact (delete_keeps_references_resolved Animals "A001" Demo.up Demo.world eq_refl).
Defined.

(* ================================================================== *)
(** * Further properties of the REST client *)
(* ================================================================== *)

(** [fetchAPI] resolves in one case only: [fetch] produced a response,
    its status is in the 2xx range and its body parsed; the value is
    then the parsed body.  A failed [fetch], a status outside 2xx or an
    unreadable body all reject. *)
Theorem fetchAPI_resolves_exactly_when_ok_and_parsed (Number_toString : Q -> string)
    (fetched : Promise Response) (body : JSON) :
  fetchAPI Number_toString fetched = Resolved body
  <-> exists response,
        fetched = Resolved response /\ ok response = true
        /\ json response = Resolved body.
Proof.
  split.
  - destruct fetched as [response|e]; [|discriminate].
    unfold fetchAPI. destruct (ok response) eqn:Hok; cbn [negb].
    + intros H. exists response. repeat split; assumption.
    + destruct (json response) as [b|e]; cbn.
      * destruct (error_property b); discriminate.
      * discriminate.
  - intros (response & -> & Hok & Hb). unfold fetchAPI. rewrite Hok. exact Hb.
Qed.

Example fetchAPI_no_content (Number_toString : Q -> string) :
  fetchAPI Number_toString
    (Resolved {| status := 204;
                 json := Rejected {| name := "SyntaxError";
                                     message := "Unexpected end of JSON input" |} |})
  = Rejected {| name := "SyntaxError"; message := "Unexpected end of JSON input" |}.
Proof. reflexivity. Qed.

(** For a non-2xx response whose body is not [null] and whose [error]
    field, if it has one, is a string (the shape the backend sends),
    the rejection is an [Error] with a message that is never empty:
    the field, or the network or status text. *)
Theorem rejection_message_is_not_empty (Number_toString : Q -> string)
    (response : Response) :
  ok response = false ->
  json response <> Resolved JNull ->
  (forall v, error_field response = Some v -> exists s, v = JString s) ->
  exists msg, fetchAPI Number_toString (Resolved response) = Rejected (new_Error msg)
              /\ msg <> EmptyString.
Proof.
  intros Hok Hnull Hstr. unfold fetchAPI. rewrite Hok. cbn [negb].
  destruct (json response) as [body|e] eqn:Hb.
  - rewrite (error_property_of_body response body Hb)
      by (intros ->; apply Hnull; reflexivity).
    destruct (error_field response) as [v|] eqn:Hf.
    + destruct (Hstr v eq_refl) as (s & ->). cbn [truthy ToString_property ToString].
      destruct (String.eqb s EmptyString) eqn:Hs; cbn [negb].
      * eexists. split; [reflexivity|]. discriminate.
      * exists s. split; [reflexivity|]. apply String.eqb_neq; exact Hs.
    + cbn [truthy]. eexists. split; [reflexivity|]. discriminate.
  - cbn. eexists. split; [reflexivity|]. discriminate.
Qed.

Lemma rejection_message_is_not_empty_witness :
  let response := {| status := 500;
                     json := Resolved (JObject [("error", JString EmptyString)]) |} in
  ok response = false
  /\ exists msg, fetchAPI Demo.Number_toString (Resolved response)
                 = Rejected (new_Error msg)
                 /\ msg <> EmptyString.
Proof.
  cbv zeta. split; [reflexivity|].
  apply rejection_message_is_not_empty.
  - reflexivity.
  - discriminate.
  - intros v Hv. cbv in Hv. injection Hv as <-. eexists; reflexivity.
Defined.

(** An [error] field that is not a string can defeat this: an empty
    array is truthy and prints as nothing. *)
Example fetchAPI_empty_message (Number_toString : Q -> string) :
  fetchAPI Number_toString
    (Resolved {| status := 400;
                 json := Resolved (JObject [("error", JArray [])]) |})
  = Rejected (new_Error EmptyString).
Proof. reflexivity. Qed.

(** The method and path of a call tell what the call is: two calls
    sent with the same method to the same path are of the same kind,
    on the same collection and on the same id.  No two of the seven
    API objects share a path, and within one object the five calls
    differ by method or by path. *)
Theorem route_determines_call_kind (k1 k2 : Call) :
  route k1 = route k2 -> kind_of k1 = kind_of k2.
Proof.
  destruct k1 as [X1 c1], k2 as [X2 c2].
  destruct c1 as [a | a i | a d | a i d | a i | | d];
    destruct c2 as [b | b j | b d' | b j d' | b j | | d'];
    repeat match goal with x : Collection |- _ => destruct x end;
    cbn; intros H; try discriminate H; try reflexivity;
    injection H as H; subst; reflexivity.
Qed.

(* ================================================================== *)
(** * Further properties of the breeding screen *)
(* ================================================================== *)

Lemma filter_length_monotone {A : Type} (f g : A -> bool) (l : list A) :
  (forall x, f x = true -> g x = true) ->
  length (filter f l) <= length (filter g l).
Proof.
  intros H. induction l as [|a l IH]; simpl; [apply Nat.le_refl|].
  destruct (f a) eqn:Hf.
  - rewrite (H a Hf). simpl. lia.
  - destruct (g a); simpl; lia.
Qed.

Lemma status_partition (l : list BreedingRecord.t) :
  length (filter (is_status BreedingStatus.Pregnant) l)
  + length (filter (is_status BreedingStatus.Delivered) l)
  + length (filter (is_status BreedingStatus.Unsuccessful) l) = length l.
Proof.
  induction l as [|a l IH]; simpl; [reflexivity|].
  unfold is_status in *. destruct (BreedingRecord.status a); simpl; lia.
Qed.

(** The three figures of the breeding screen are consistent with one
    another for every list of records, every clock and every date
    parser: "due soon" never exceeds "active pregnancies", "delivered
    this month" never exceeds the number of delivered records, and every
    record is pregnant, delivered or unsuccessful, so none of the
    figures exceeds the number of records. *)
Theorem breeding_stats_are_consistent (Date_getTime : string -> option Z)
    (getMonth getFullYear : Z -> Z) (clock : Clock) (records : list BreedingRecord.t) :
  let st := stats Date_getTime getMonth getFullYear clock records in
  dueSoon st <= pregnancies st
  /\ delivered st <= length (filter (is_status BreedingStatus.Delivered) records)
  /\ pregnancies st
     + length (filter (is_status BreedingStatus.Delivered) records)
     + length (filter (is_status BreedingStatus.Unsuccessful) records)
     = length records
  /\ dueSoon st + delivered st <= length records.
Proof.
  cbv zeta. unfold stats.
  pose proof (filter_clock_length delivered_reads_clock
                (is_delivered_this_month Date_getTime getMonth getFullYear)
                clock 0 records) as H2.
  destruct (filter_clock delivered_reads_clock
              (is_delivered_this_month Date_getTime getMonth getFullYear)
              clock 0 records) as [deliveredThisMonth n].
  pose proof (filter_clock_length dueSoon_reads_clock (is_due_soon Date_getTime)
                clock n (active records)) as H1.
  destruct (filter_clock dueSoon_reads_clock (is_due_soon Date_getTime) clock n
              (active records)) as [dueSoonRecords next].
  cbn [fst dueSoon pregnancies delivered] in *. unfold active in *.
  pose proof (filter_length_le dueSoon_reads_clock
                (filter (is_status BreedingStatus.Pregnant) records)) as H1'.
  assert (H2' : length (filter delivered_reads_clock records)
                <= length (filter (is_status BreedingStatus.Delivered) records)).
  { apply filter_length_monotone. intros x. unfold delivered_reads_clock.
    destruct (is_status BreedingStatus.Delivered x); simpl; [reflexivity|discriminate]. }
  pose proof (status_partition records) as H3.
  repeat split; lia.
Qed.

Lemma ceil_days_spec (diff : Z) :
  ((Qceiling (inject_Z diff / inject_Z ms_per_day) - 1) * ms_per_day < diff
   <= Qceiling (inject_Z diff / inject_Z ms_per_day) * ms_per_day)%Z.
Proof.
  unfold Qceiling, Qfloor, Qdiv, Qmult, Qinv, Qopp, inject_Z, ms_per_day. cbn.
  rewrite Z.mul_1_r.
  pose proof (Z.div_mod (- diff) 86400000 ltac:(lia)) as H.
  pose proof (Z.mod_pos_bound (- diff) 86400000 ltac:(lia)) as Hb.
  lia.
Qed.

(** What the "due in" column shows.  Without a due date, or with one
    that is not a date, a dash.  Otherwise, with [due] the parsed time:
    "Today" exactly for a due time that lies in the last 24 hours, now
    included; "k days" for a due time in the future, [k] being the days
    left rounded up (so one millisecond ahead already reads "1 days");
    and "k days ago" for a due time 24 hours or more in the past, [k]
    being the whole days elapsed. *)
Theorem formatDueInDays_reads_the_distance (Date_getTime : string -> option Z)
    (now : Z) (dueDate : string) :
  (dueDate = EmptyString \/ Date_getTime dueDate = None ->
     formatDueInDays Date_getTime now dueDate = em_dash)
  /\ (forall due, dueDate <> EmptyString -> Date_getTime dueDate = Some due ->
        ((now - ms_per_day < due <= now)%Z ->
           formatDueInDays Date_getTime now dueDate = "Today")
        /\ ((now < due)%Z ->
              exists k, (1 <= k)%Z
                        /\ ((k - 1) * ms_per_day < due - now <= k * ms_per_day)%Z
                        /\ formatDueInDays Date_getTime now dueDate
                           = (decimal k ++ " days")%string)
        /\ ((due <= now - ms_per_day)%Z ->
              exists k, (1 <= k)%Z
                        /\ (k * ms_per_day <= now - due < (k + 1) * ms_per_day)%Z
                        /\ formatDueInDays Date_getTime now dueDate
                           = (decimal k ++ " days ago")%string)).
Proof.
  split.
  - intros [-> | Hnone]; unfold formatDueInDays.
    + reflexivity.
    + destruct (String.eqb dueDate EmptyString); [reflexivity|].
      rewrite Hnone. reflexivity.
  - intros due Hne Hdue. unfold formatDueInDays.
    apply String.eqb_neq in Hne. rewrite Hne, Hdue. cbv zeta.
    pose proof (ceil_days_spec (due - now)) as Hc.
    set (k := Qceiling (inject_Z (due - now) / inject_Z ms_per_day)) in *.
    unfold ms_per_day in *.
    repeat split.
    + intros Hr. assert (Hk : k = 0%Z) by lia. rewrite Hk. reflexivity.
    + intros Hr. exists k. assert (Hk : (1 <= k)%Z) by lia.
      repeat split; try lia.
      destruct (0 <? k)%Z eqn:Hpos; [reflexivity|].
      apply Z.ltb_ge in Hpos. lia.
    + intros Hr. exists (Z.abs k). assert (Hk : (k <= -1)%Z) by lia.
      repeat split; try lia.
      destruct (0 <? k)%Z eqn:Hpos; [apply Z.ltb_lt in Hpos; lia|].
      destruct (k =? 0)%Z eqn:Hz; [apply Z.eqb_eq in Hz; lia|].
      reflexivity.
Qed.

(** The count and the column read the clock apart: the count when
    [stats] was last computed, the column at every render.  A record
    counted as "due soon" with clock reading [counted] is shown in the
    "due in" column, at a reading [shown] not before [counted], never
    with a dash and never with more than 14 days: as "Today", as
    "k days" with [k] between 1 and 14, or as "k days ago", the last
    only if the column is [k] days or more behind the count, 86 400 000
    milliseconds a day.  With less than a day between the two readings
    the record is never shown as overdue. *)
Theorem due_soon_records_show_at_most_14_days (Date_getTime : string -> option Z)
    (counted shown : Z) (record : BreedingRecord.t) :
  is_due_soon Date_getTime counted record = true ->
  (counted <= shown)%Z ->
  let text := formatDueInDays Date_getTime shown (BreedingRecord.dueDate record) in
  (text = "Today"
   \/ (exists k, (1 <= k <= 14)%Z /\ text = (decimal k ++ " days")%string)
   \/ (exists k, (1 <= k)%Z /\ (k * 86400000 <= shown - counted)%Z
                 /\ text = (decimal k ++ " days ago")%string))
  /\ ((shown - counted < 86400000)%Z ->
        text = "Today"
        \/ exists k, (1 <= k <= 14)%Z /\ text = (decimal k ++ " days")%string).
Proof.
  unfold is_due_soon, formatDueInDays.
  destruct (String.eqb (BreedingRecord.dueDate record) EmptyString); [discriminate|].
  destruct (Date_getTime (BreedingRecord.dueDate record)) as [due|]; [|discriminate].
  cbv zeta. rewrite days_nonnegative, days_at_most_14.
  intros H Hle. apply andb_true_iff in H. destruct H as [H0 H14].
  apply Z.leb_le in H0, H14.
  pose proof (ceil_days_spec (due - shown)) as Hc.
  set (k := Qceiling (inject_Z (due - shown) / inject_Z ms_per_day)) in *.
  unfold ms_per_day in *.
  destruct (0 <? k)%Z eqn:Hpos.
  - apply Z.ltb_lt in Hpos.
    assert (Hk : (1 <= k <= 14)%Z) by lia.
    split; [right; left | intros _; right]; exists k; (split; [exact Hk | reflexivity]).
  - apply Z.ltb_ge in Hpos. destruct (k =? 0)%Z eqn:Hz.
    + split; [left | intros _; left]; reflexivity.
    + apply Z.eqb_neq in Hz. split.
      * right; right. exists (Z.abs k). split; [lia|]. split; [lia | reflexivity].
      * intros Hday. exfalso. lia.
Qed.

(** The litter due on 2026-03-05 is counted on 2026-03-01; the column
    shows it as "4 days" on that day, and as "1 days ago" at a render
    five days later, where the count, not computed again, still
    includes it. *)
Lemma due_soon_records_show_at_most_14_days_witness :
  is_due_soon DemoDates.getTime DemoDates.now Demo.litter = true
  /\ (DemoDates.now <= DemoDates.five_days_later)%Z
  /\ formatDueInDays DemoDates.getTime DemoDates.now (BreedingRecord.dueDate Demo.litter)
     = "4 days"
  /\ formatDueInDays DemoDates.getTime DemoDates.five_days_later
       (BreedingRecord.dueDate Demo.litter)
     = "1 days ago"
  /\ dueSoon (shown_stats DemoDates.getTime (fun _ => 0%Z) (fun _ => 0%Z)
                [DemoDates.first_render] DemoDates.later_render) = 1
  /\ (formatDueInDays DemoDates.getTime DemoDates.five_days_later
         (BreedingRecord.dueDate Demo.litter) = "Today"
      \/ (exists k, (1 <= k <= 14)%Z
                    /\ formatDueInDays DemoDates.getTime DemoDates.five_days_later
                         (BreedingRecord.dueDate Demo.litter)
                       = (decimal k ++ " days")%string)
      \/ (exists k, (1 <= k)%Z
                    /\ (k * 86400000 <= DemoDates.five_days_later - DemoDates.now)%Z
                    /\ formatDueInDays DemoDates.getTime DemoDates.five_days_later
                         (BreedingRecord.dueDate Demo.litter)
                       = (decimal k ++ " days ago")%string)).
Proof.
  assert (Hle : (DemoDates.now <= DemoDates.five_days_later)%Z)
    by (unfold DemoDates.now, DemoDates.five_days_later; lia).
  split; [reflexivity|]. split; [exact Hle|].
  split; [reflexivity|]. split; [reflexivity|]. split; [reflexivity|].
  exact (proj1 (due_soon_records_show_at_most_14_days DemoDates.getTime DemoDates.now
                  DemoDates.five_days_later Demo.litter eq_refl Hle)).
Defined.

(** ** The add and edit dialogs *)

Lemma validateForm_accepts (data : BreedingForm.t) :
  fst (validateForm data) = true
  <-> BreedingForm.motherId data <> EmptyString
      /\ BreedingForm.fatherId data <> EmptyString
      /\ BreedingForm.matingDate data <> EmptyString.
Proof.
  unfold validateForm.
  destruct (String.eqb (BreedingForm.motherId data) EmptyString) eqn:Hm;
    destruct (String.eqb (BreedingForm.fatherId data) EmptyString) eqn:Hf;
    destruct (String.eqb (BreedingForm.matingDate data) EmptyString) eqn:Hd;
    cbn; rewrite <- ?String.eqb_neq, ?Hm, ?Hf, ?Hd;
    split; try discriminate; try tauto;
    intros (H1 & H2 & H3); discriminate.
Qed.

(** The add dialog is a gate in front of the store.  With a form that
    lacks a mother, a father or a mating date, [handleAddRecord] sends
    nothing, leaves store, form and dialog as they are and sets an
    error.  With a valid form it sends exactly one create call, whose
    payload carries the form's ids and dates and leaves blank optional
    fields out instead of sending them empty; it then closes the dialog
    and resets the form whatever the backend answers, so that when the
    call is rejected the entry is gone from the form without having
    reached the store. *)
Theorem handleAddRecord_sends_only_valid_forms (trim : string -> string) (today : string)
    (ui : BreedingUI.t) (backend : Backend) (w : World) :
  let r := handleAddRecord trim today ui backend w in
  let payload := create_payload trim (BreedingUI.form ui) in
  (fst (validateForm (BreedingUI.form ui)) = false ->
     snd r = w
     /\ BreedingUI.form (fst r) = BreedingUI.form ui
     /\ BreedingUI.isAddDialogOpen (fst r) = BreedingUI.isAddDialogOpen ui
     /\ BreedingUI.formError (fst r) <> None)
  /\ (fst (validateForm (BreedingUI.form ui)) = true ->
        sent (snd r) = sent w ++ [call_of (create BreedingRecords payload)]
        /\ CreateBreedingRecordInput.motherId payload <> EmptyString
        /\ CreateBreedingRecordInput.fatherId payload <> EmptyString
        /\ CreateBreedingRecordInput.matingDate payload <> EmptyString
        /\ BreedingUI.isAddDialogOpen (fst r) = false
        /\ BreedingUI.form (fst r) = defaultForm today
        /\ BreedingUI.formError (fst r) = None
        /\ (forall e, backend _ (create BreedingRecords payload) = Rejected e ->
              store (snd r) = store w))
  /\ CreateBreedingRecordInput.expectedLitter payload <> Some EmptyString
  /\ CreateBreedingRecordInput.actualLitter payload <> Some EmptyString
  /\ CreateBreedingRecordInput.notes payload <> Some EmptyString.
Proof.
  cbv zeta. repeat match goal with |- _ /\ _ => split end.
  - intros Hv. unfold handleAddRecord.
    destruct (validateForm (BreedingUI.form ui)) as [valid error] eqn:Hval.
    cbn in Hv. subst valid. cbn.
    repeat split. unfold validateForm in Hval.
    destruct (String.eqb (BreedingForm.motherId (BreedingUI.form ui)) EmptyString);
      [inversion Hval; discriminate|].
    destruct (String.eqb (BreedingForm.fatherId (BreedingUI.form ui)) EmptyString);
      [inversion Hval; discriminate|].
    destruct (String.eqb (BreedingForm.matingDate (BreedingUI.form ui)) EmptyString);
      [inversion Hval; discriminate|discriminate Hval].
  - intros Hv. pose proof (proj1 (validateForm_accepts _) Hv) as (Hm & Hf & Hd).
    unfold handleAddRecord.
    destruct (validateForm (BreedingUI.form ui)) as [valid error] eqn:Hval.
    cbn in Hv. subst valid. cbn [negb fst snd].
    pose proof (run_op_sent
                  (Add BreedingRecords (create_payload trim (BreedingUI.form ui)))
                  backend w) as Hsent.
    repeat split; try assumption.
    intros e He.
    exact (rejected_store_unchanged
             (Add BreedingRecords (create_payload trim (BreedingUI.form ui)))
             backend w e ltac:(intros; discriminate) He).
  - unfold create_payload, or_undefined; cbn.
    destruct (String.eqb (BreedingForm.expectedLitter (BreedingUI.form ui)) EmptyString)
      eqn:He; [discriminate|].
    intros H; injection H as H. rewrite H in He. discriminate He.
  - unfold create_payload, or_undefined; cbn.
    destruct (String.eqb (BreedingForm.actualLitter (BreedingUI.form ui)) EmptyString)
      eqn:He; [discriminate|].
    intros H; injection H as H. rewrite H in He. discriminate He.
  - unfold create_payload, trimmed_or_undefined; cbn.
    destruct (String.eqb (trim (BreedingForm.notes (BreedingUI.form ui))) EmptyString)
      eqn:He; [discriminate|].
    intros H; injection H as H. rewrite H in He. discriminate He.
Qed.

(** Opening the edit dialog on a record and saving without touching
    the form sends one update for that record's id whose payload gives
    back the record's own ids, dates and status; an optional text comes
    back as it is unless it is the empty string, which is left out, and
    the notes come back trimmed.  A stored record that lacks a mother,
    a father or a mating date cannot be saved from the dialog at all:
    nothing is sent. *)
Theorem edit_without_change_sends_the_record_back (trim : string -> string)
    (record : BreedingRecord.t) (ui : BreedingUI.t) (backend : Backend) (w : World) :
  let ui1 := handleEditClick record ui in
  let r := handleUpdateRecord trim ui1 backend w in
  let payload := update_payload trim (BreedingUI.editForm ui1) in
  (BreedingRecord.motherId record <> EmptyString
   /\ BreedingRecord.fatherId record <> EmptyString
   /\ BreedingRecord.matingDate record <> EmptyString ->
     sent (snd r)
     = sent w ++ [call_of (update BreedingRecords (BreedingRecord.id record) payload)]
     /\ BreedingUI.recordBeingEdited (fst r) = None)
  /\ (BreedingRecord.motherId record = EmptyString
      \/ BreedingRecord.fatherId record = EmptyString
      \/ BreedingRecord.matingDate record = EmptyString ->
        snd r = w /\ BreedingUI.recordBeingEdited (fst r) = Some record
        /\ BreedingUI.editError (fst r) <> None)
  /\ UpdateBreedingRecordInput.motherId payload = Some (BreedingRecord.motherId record)
  /\ UpdateBreedingRecordInput.fatherId payload = Some (BreedingRecord.fatherId record)
  /\ UpdateBreedingRecordInput.matingDate payload = Some (BreedingRecord.matingDate record)
  /\ UpdateBreedingRecordInput.dueDate payload = Some (BreedingRecord.dueDate record)
  /\ UpdateBreedingRecordInput.status payload = Some (BreedingRecord.status record)
  /\ (BreedingRecord.expectedLitter record <> Some EmptyString ->
        UpdateBreedingRecordInput.expectedLitter payload
        = BreedingRecord.expectedLitter record)
  /\ (BreedingRecord.actualLitter record <> Some EmptyString ->
        UpdateBreedingRecordInput.actualLitter payload
        = BreedingRecord.actualLitter record)
  /\ (forall n, BreedingRecord.notes record = Some n -> trim n <> EmptyString ->
        UpdateBreedingRecordInput.notes payload = Some (trim n)).
Proof.
  cbv zeta. repeat match goal with |- _ /\ _ => split end; try reflexivity.
  - intros Hvalid.
    assert (Hv : fst (validateForm (BreedingUI.editForm (handleEditClick record ui))) = true).
    { apply validateForm_accepts. exact Hvalid. }
    unfold handleUpdateRecord. cbn [handleEditClick with_edit_dialog
                                    BreedingUI.recordBeingEdited BreedingUI.editForm] in *.
    destruct (validateForm _) as [valid error] eqn:Hval.
    cbn in Hv. subst valid. cbn [negb fst snd].
    pose proof (run_op_sent
                  (Update BreedingRecords (BreedingRecord.id record)
                     (update_payload trim
                        (BreedingUI.editForm (handleEditClick record ui))))
                  backend w) as Hsent.
    split; [exact Hsent | reflexivity].
  - intros Hinvalid.
    assert (Hv : fst (validateForm (BreedingUI.editForm (handleEditClick record ui))) = false).
    { destruct (fst (validateForm (BreedingUI.editForm (handleEditClick record ui))))
        eqn:Hv; [|reflexivity].
      apply validateForm_accepts in Hv. cbn in Hv. tauto. }
    unfold handleUpdateRecord. cbn [handleEditClick with_edit_dialog
                                    BreedingUI.recordBeingEdited BreedingUI.editForm] in *.
    destruct (validateForm _) as [valid error] eqn:Hval.
    cbn in Hv. subst valid. cbn.
    repeat split. unfold validateForm in Hval. cbn in Hval.
    destruct (String.eqb (BreedingRecord.motherId record) EmptyString);
      [inversion Hval; discriminate|].
    destruct (String.eqb (BreedingRecord.fatherId record) EmptyString);
      [inversion Hval; discriminate|].
    destruct (String.eqb (BreedingRecord.matingDate record) EmptyString);
      [inversion Hval; discriminate|discriminate Hval].
  - intros Hne. cbn. unfold or_undefined, or_empty.
    destruct (BreedingRecord.expectedLitter record) as [s|]; [|reflexivity].
    destruct (String.eqb s EmptyString) eqn:Hs; [|reflexivity].
    apply String.eqb_eq in Hs. subst s. contradiction Hne; reflexivity.
  - intros Hne. cbn. unfold or_undefined, or_empty.
    destruct (BreedingRecord.actualLitter record) as [s|]; [|reflexivity].
    destruct (String.eqb s EmptyString) eqn:Hs; [|reflexivity].
    apply String.eqb_eq in Hs. subst s. contradiction Hne; reflexivity.
  - intros n Hn Ht. cbn. unfold trimmed_or_undefined, or_empty. rewrite Hn.
    apply String.eqb_neq in Ht. rewrite Ht. reflexivity.
Qed.

(* ================================================================== *)
(** * Figures of the other screens *)
(* ================================================================== *)

Lemma length_filter_zero {A : Type} (f : A -> bool) (l : list A) :
  length (filter f l) = 0 <-> forall x, In x l -> f x = false.
Proof.
  induction l as [|a l IH]; simpl.
  - split; [intros _ x [] | reflexivity].
  - destruct (f a) eqn:Ha; simpl.
    + split; [discriminate|]. intros H.
      rewrite (H a (or_introl eq_refl)) in Ha. discriminate Ha.
    + rewrite IH. split.
      * intros H x [<- | Hx]; [exact Ha | exact (H x Hx)].
      * intros H x Hx. apply H. right; exact Hx.
Qed.

(** The dashboard shows no pending alert exactly when no feeding task
    is pending, every inventory item is in stock and every health
    record is completed.  A missed feeding task raises no alert. *)
Theorem alertCount_is_zero_exactly_when_all_is_well (s : Store) :
  alertCount s = 0
  <-> (forall task, In task (feedingTasks s) ->
         FeedingTask.status task <> FeedingStatus.Pending)
      /\ (forall item, In item (inventory s) ->
            InventoryItem.status item = StockStatus.InStock)
      /\ (forall record, In record (healthRecords s) ->
            HealthRecord.status record = HealthRecordStatus.Completed).
Proof.
  unfold alertCount, pendingFeeding, lowStockItems, openHealthRecords.
  split.
  - intros H.
    assert (H1 : length (filter (fun task => FeedingStatus_eqb (FeedingTask.status task)
                                   FeedingStatus.Pending) (feedingTasks s)) = 0) by lia.
    assert (H2 : length (filter (fun item => negb (StockStatus_eqb (InventoryItem.status item)
                                   StockStatus.InStock)) (inventory s)) = 0) by lia.
    assert (H3 : length (filter (fun record => negb (HealthRecordStatus_eqb
                                   (HealthRecord.status record) HealthRecordStatus.Completed))
                           (healthRecords s)) = 0) by lia.
    pose proof (proj1 (length_filter_zero _ _) H1) as H1'.
    pose proof (proj1 (length_filter_zero _ _) H2) as H2'.
    pose proof (proj1 (length_filter_zero _ _) H3) as H3'.
    clear H H1 H2 H3. cbv beta in H1', H2', H3'.
    repeat split.
    + intros task Ht Hs. specialize (H1' task Ht). rewrite Hs in H1'. discriminate H1'.
    + intros item Hi. specialize (H2' item Hi).
      destruct (InventoryItem.status item);
        [reflexivity | discriminate H2' | discriminate H2'].
    + intros record Hr. specialize (H3' record Hr).
      destruct (HealthRecord.status record);
        [discriminate H3' | discriminate H3' | reflexivity].
  - intros (H1 & H2 & H3).
    assert (E1 : length (filter (fun task => FeedingStatus_eqb (FeedingTask.status task)
                                   FeedingStatus.Pending) (feedingTasks s)) = 0).
    { apply length_filter_zero. intros task Ht. specialize (H1 task Ht).
      destruct (FeedingTask.status task); [contradiction H1; reflexivity | | ]; reflexivity. }
    assert (E2 : length (filter (fun item => negb (StockStatus_eqb (InventoryItem.status item)
                                   StockStatus.InStock)) (inventory s)) = 0).
    { apply length_filter_zero. intros item Hi. rewrite (H2 item Hi). reflexivity. }
    assert (E3 : length (filter (fun record => negb (HealthRecordStatus_eqb
                                   (HealthRecord.status record) HealthRecordStatus.Completed))
                           (healthRecords s)) = 0).
    { apply length_filter_zero. intros record Hr. rewrite (H3 record Hr). reflexivity. }
    lia.
Qed.

Lemma length_filter_filter_le {A : Type} (f g : A -> bool) (l : list A) :
  length (filter f (filter g l)) <= length (filter f l).
Proof.
  rewrite filter_filter. apply filter_length_monotone.
  intros x H. apply andb_true_iff in H. destruct H as [_ H]. exact H.
Qed.

(** No delete can raise the number of pending alerts, whichever
    collection it is on and whatever the backend answers: a delete only
    takes entries away, the cascade of an animal included. *)
Theorem delete_never_raises_alertCount (c : Collection) (id : string)
    (backend : Backend) (w : World) :
  alertCount (store (fst (delete_by_id c id backend w))) <= alertCount (store w).
Proof.
  destruct (backend _ (delete c id)) as [msg|err] eqn:H.
  - unfold alertCount, pendingFeeding, lowStockItems, openHealthRecords.
    destruct c.
    + cbn [delete_by_id]. rewrite (deleteAnimal_resolved id backend w msg H).
      cbn [fst store]. destruct (store w) as [an he fe br inv st se rf lo hp]. cbn.
      pose proof (length_filter_filter_le
                    (fun task => FeedingStatus_eqb (FeedingTask.status task)
                                   FeedingStatus.Pending)
                    (fun task => negb (String.eqb (FeedingTask.animalId task) id)) fe).
      pose proof (length_filter_filter_le
                    (fun record => negb (HealthRecordStatus_eqb (HealthRecord.status record)
                                           HealthRecordStatus.Completed))
                    (fun record => negb (String.eqb (HealthRecord.animalId record) id)) he).
      lia.
    + rewrite_delete_resolved H. cbn [fst store].
      destruct (store w) as [an he fe br inv st se rf lo hp]. cbn.
      pose proof (length_filter_filter_le
                    (fun record => negb (HealthRecordStatus_eqb (HealthRecord.status record)
                                           HealthRecordStatus.Completed))
                    (fun record => negb (String.eqb (HealthRecord.id record) id)) he).
      lia.
    + rewrite_delete_resolved H. cbn [fst store].
      destruct (store w) as [an he fe br inv st se rf lo hp]. cbn.
      pose proof (length_filter_filter_le
                    (fun task => FeedingStatus_eqb (FeedingTask.status task)
                                   FeedingStatus.Pending)
                    (fun task => negb (String.eqb (FeedingTask.id task) id)) fe).
      lia.
    + rewrite_delete_resolved H. cbn [fst store].
      destruct (store w) as [an he fe br inv st se rf lo hp]. cbn. lia.
    + rewrite_delete_resolved H. cbn [fst store].
      destruct (store w) as [an he fe br inv st se rf lo hp]. cbn.
      pose proof (length_filter_filter_le
                    (fun item => negb (StockStatus_eqb (InventoryItem.status item)
                                         StockStatus.InStock))
                    (fun item => negb (String.eqb (InventoryItem.id item) id)) inv).
      lia.
    + rewrite_delete_resolved H. cbn [fst store].
      destruct (store w) as [an he fe br inv st se rf lo hp]. cbn. lia.
  - change (delete_by_id c id backend w) with (run_op (Delete c id) backend w).
    rewrite (rejected_store_unchanged (Delete c id) backend w err
               ltac:(intros; discriminate) H). apply Nat.le_refl.
Qed.

(** The feeding figures of three screens agree for every list of
    tasks: the schedule's total is the sum of its completed, pending
    and missed counts; the registry's "active feeding tasks" is pending
    plus missed; and the dashboard's pending and completed lists have
    the schedule's pending and completed counts. *)
Theorem feeding_figures_agree (s : Store) :
  let st := feeding_stats (feedingTasks s) in
  FeedingStats.total st
  = FeedingStats.completed st + FeedingStats.pending st + FeedingStats.missed st
  /\ activeFeedingTasks (feedingTasks s) = FeedingStats.pending st + FeedingStats.missed st
  /\ length (pendingFeeding s) = FeedingStats.pending st
  /\ length (completedFeeding s) = FeedingStats.completed st.
Proof.
  cbv zeta. unfold feeding_stats, activeFeedingTasks, pendingFeeding, completedFeeding.
  cbn [FeedingStats.total FeedingStats.completed FeedingStats.pending FeedingStats.missed].
  repeat split.
  - induction (feedingTasks s) as [|a l IH]; simpl; [reflexivity|].
    destruct (FeedingTask.status a); simpl; lia.
  - induction (feedingTasks s) as [|a l IH]; simpl; [reflexivity|].
    destruct (FeedingTask.status a); simpl; lia.
Qed.

Lemma fold_count_species (toLowerCase : string -> string) (l : list Animal.t)
    (acc : SpeciesBreakdown.t) :
  let r := fold_left (count_species toLowerCase) l acc in
  SpeciesBreakdown.dogs r + SpeciesBreakdown.cats r + SpeciesBreakdown.other r
  = SpeciesBreakdown.dogs acc + SpeciesBreakdown.cats acc + SpeciesBreakdown.other acc
    + length l.
Proof.
  cbv zeta. revert acc. induction l as [|a l IH]; intros acc; simpl; [lia|].
  rewrite IH. unfold count_species.
  destruct (String.eqb (toLowerCase (Animal.species a)) "dog"
            || String.eqb (toLowerCase (Animal.species a)) "canine");
    [cbn; lia|].
  destruct (String.eqb (toLowerCase (Animal.species a)) "cat"
            || String.eqb (toLowerCase (Animal.species a)) "feline");
    cbn; lia.
Qed.

(** The species breakdown of the registry counts every animal once:
    dogs, cats and others add up to the number of animals, whatever the
    species strings are and however they are lower-cased. *)
Theorem speciesBreakdown_counts_every_animal_once (toLowerCase : string -> string)
    (animals : list Animal.t) :
  let b := speciesBreakdown toLowerCase animals in
  SpeciesBreakdown.dogs b + SpeciesBreakdown.cats b + SpeciesBreakdown.other b
  = length animals.
Proof.
  cbv zeta. unfold speciesBreakdown.
  pose proof (fold_count_species toLowerCase animals
                {| SpeciesBreakdown.dogs := 0; SpeciesBreakdown.cats := 0;
                   SpeciesBreakdown.other := 0 |}) as H.
  cbv zeta in H. rewrite H. reflexivity.
Qed.

(* ================================================================== *)
(** * The application shell *)
(* ================================================================== *)

Lemma App_step_invariant (s : App.State) (e : App.Event) :
  (App.isAuthenticated s = true <-> App.userEmail s <> None) ->
  (App.isAuthenticated s = false ->
     App.currentPage s = App.title \/ App.currentPage s = App.dashboard) ->
  (App.isAuthenticated (App.step s e) = true <-> App.userEmail (App.step s e) <> None)
  /\ (App.isAuthenticated (App.step s e) = false ->
        App.currentPage (App.step s e) = App.title
        \/ App.currentPage (App.step s e) = App.dashboard).
Proof.
  intros H1 H2. unfold App.step, App.render.
  destruct s as [page auth email]; cbn in *.
  destruct auth, page, e; cbn;
    solve
      [ split; [exact H1 | first [exact H2 | discriminate]]
      | split;
        [ split; [intros H; discriminate H | intros H; exfalso; apply H; reflexivity]
        | intros _; right; reflexivity ]
      | split; [split; [intros _; discriminate | reflexivity] | discriminate] ].
Qed.

(** Along every sequence of user actions from the start, the shell
    keeps the signed-in flag and the stored email in step: the email is
    set exactly when the user is signed in.  So no screen other than
    the login page is ever shown without an email at hand, and the
    login page is shown exactly when the user is signed out.  Signing
    in always lands on the title page; signing out is possible from the
    dashboard only, so while signed out the remembered page is the
    title page or the dashboard. *)
Theorem App_keeps_email_with_authentication (events : list App.Event) :
  let s := App.run events in
  (App.isAuthenticated s = true <-> App.userEmail s <> None)
  /\ (App.render s = App.LoginPage <-> App.isAuthenticated s = false)
  /\ (App.render s <> App.LoginPage -> exists email, App.userEmail s = Some email)
  /\ (App.isAuthenticated s = false ->
        App.currentPage s = App.title \/ App.currentPage s = App.dashboard)
  /\ (forall email, App.isAuthenticated s = false ->
        App.render (App.step s (App.onLogin email)) = App.TitlePage).
Proof.
  cbv zeta. unfold App.run.
  assert (Inv : forall (l : list App.Event) (s0 : App.State),
            (App.isAuthenticated s0 = true <-> App.userEmail s0 <> None) ->
            (App.isAuthenticated s0 = false ->
               App.currentPage s0 = App.title \/ App.currentPage s0 = App.dashboard) ->
            (App.isAuthenticated (fold_left App.step l s0) = true
             <-> App.userEmail (fold_left App.step l s0) <> None)
            /\ (App.isAuthenticated (fold_left App.step l s0) = false ->
                  App.currentPage (fold_left App.step l s0) = App.title
                  \/ App.currentPage (fold_left App.step l s0) = App.dashboard)).
  { induction l as [|e l IH]; intros s0 H1 H2; simpl.
    - split; assumption.
    - destruct (App_step_invariant s0 e H1 H2) as [H1' H2']. apply IH; assumption. }
  destruct (Inv events App.initial) as [H1 H2].
  { cbn. split; [discriminate | intros H; contradiction H; reflexivity]. }
  { intros _. left. reflexivity. }
  set (s := fold_left App.step events App.initial) in *.
  assert (Hr : App.render s = App.LoginPage <-> App.isAuthenticated s = false).
  { unfold App.render. destruct (App.isAuthenticated s); cbn.
    - split; [|discriminate]. destruct (App.currentPage s); discriminate.
    - split; reflexivity. }
  repeat match goal with |- _ /\ _ => split end.
  - exact H1.
  - exact Hr.
  - intros Hn. destruct (App.isAuthenticated s) eqn:Ha.
    + destruct (App.userEmail s) as [email|] eqn:He.
      * exists email; reflexivity.
      * exfalso. apply (proj1 H1 eq_refl). reflexivity.
    + exfalso. apply Hn. apply Hr. reflexivity.
  - exact H2.
  - intros email Ha. unfold App.step, App.render. rewrite Ha. reflexivity.
Qed.

(* ================================================================== *)
(** * Settings updates *)
(* ================================================================== *)

(** [updateSettings] does not merge anything itself: when the call
    succeeds, the settings of the store are exactly the answer, and the
    collections are untouched.  With a backend that merges the payload
    into its own record, every field the payload does not name is
    therefore the backend's afterwards, whatever the store held: in
    particular, preference flags that differed locally (for instance
    after a rejected toggle) are replaced by the backend's. *)
Theorem updateSettings_installs_the_answer (payload : PartialSettings.t)
    (backend : Backend) (w : World) (stored : SettingsValue) :
  backend _ (settings_update payload) = Resolved (put_settings stored payload) ->
  let r := updateSettings payload backend w in
  snd r = Resolved tt
  /\ settings_value (store (fst r)) = put_settings stored payload
  /\ (PartialSettings.notificationPreferences payload = None ->
        FacilitySettings.notificationPreferences (settings_value (store (fst r)))
        = FacilitySettings.notificationPreferences stored)
  /\ (forall c, items c (store (fst r)) = items c (store w)).
Proof.
  intros H; cbv zeta. unfold updateSettings. run_async. cbn [store sent console].
  rewrite H. unfold alloc. cbn [fst snd store].
  assert (Hv : forall (v : SettingsValue) (s : Store),
            settings_value
              (with_settings (FacilitySettings.with_preferences (next (heap s)) v)
                 (with_heap
                    {| cells := fun l' => if Nat.eqb l' (next (heap s))
                                          then FacilitySettings.notificationPreferences v
                                          else cells (heap s) l';
                       next := S (next (heap s)) |} s)) = v).
  { intros v s. unfold settings_value, read.
    cbn [settings heap with_settings with_heap cells
         FacilitySettings.notificationPreferences FacilitySettings.with_preferences].
    rewrite Nat.eqb_refl. destruct v; reflexivity. }
  repeat match goal with |- _ /\ _ => split end.
  - reflexivity.
  - apply Hv.
  - intros Hnone. rewrite Hv.
    unfold put_settings; cbn [FacilitySettings.notificationPreferences].
    rewrite Hnone. reflexivity.
  - intros c; destruct c; reflexivity.
Qed.

Lemma updateSettings_installs_the_answer_witness :
  let payload :=
    {| PartialSettings.facilityName := None; PartialSettings.registrationNumber := None;
       PartialSettings.address := None; PartialSettings.phone := None;
       PartialSettings.email := None; PartialSettings.operatingHours := None;
       PartialSettings.notificationPreferences := None;
       PartialSettings.lastBackup := Some "January 5, 2026 at 9:00 AM" |} in
  let flagged :=
    fst (updateNotificationPreference NotificationPreferences.LowStockAlerts false
           Demo.down Demo.world) in
  NotificationPreferences.lowStockAlerts
    (FacilitySettings.notificationPreferences (settings_value (store flagged))) = false
  /\ NotificationPreferences.lowStockAlerts
       (FacilitySettings.notificationPreferences
          (settings_value (store (fst (updateSettings payload Demo.up flagged))))) = true.
Proof.
  cbv zeta. split; [reflexivity|].
  pose proof (updateSettings_installs_the_answer
                {| PartialSettings.facilityName := None;
                   PartialSettings.registrationNumber := None;
                   PartialSettings.address := None; PartialSettings.phone := None;
                   PartialSettings.email := None; PartialSettings.operatingHours := None;
                   PartialSettings.notificationPreferences := None;
                   PartialSettings.lastBackup := Some "January 5, 2026 at 9:00 AM" |}
                Demo.up
                (fst (updateNotificationPreference NotificationPreferences.LowStockAlerts
                        false Demo.down Demo.world))
                (defaultSettings defaultPreferences "2025-12-24T09:30:00.000Z")
                eq_refl) as H.
  cbv zeta in H. destruct H as (_ & _ & Hp & _).
  rewrite (Hp eq_refl). reflexivity.
Defined.

Lemma route_determines_call_kind_witness :
  route (call_of (settings_update
                    (toggle_body NotificationPreferences.LowStockAlerts false Demo.facility)))
  = route (call_of (settings_update
                      (toggle_body NotificationPreferences.EmailSummary true Demo.facility)))
  /\ kind_of (call_of (update Animals "A001"
                         {| UpdateAnimalInput.name := Some "Rex II";
                            UpdateAnimalInput.species := None;
                            UpdateAnimalInput.breed := None; UpdateAnimalInput.age := None;
                            UpdateAnimalInput.gender := None;
                            UpdateAnimalInput.weightKg := None;
                            UpdateAnimalInput.status := None;
                            UpdateAnimalInput.notes := None |}))
     = kind_of (call_of (update Animals "A001"
                           {| UpdateAnimalInput.name := None;
                              UpdateAnimalInput.species := None;
                              UpdateAnimalInput.breed := None;
                              UpdateAnimalInput.age := None;
                              UpdateAnimalInput.gender := None;
                              UpdateAnimalInput.weightKg := None;
                              UpdateAnimalInput.status := Some AnimalStatus.Quarantine;
                              UpdateAnimalInput.notes := None |})).
Proof.
  split; [reflexivity|].
  apply route_determines_call_kind. reflexivity.
Defined.
